(** * AplicacaoFinanceira: the account / transaction core of [desafio_v2.py]

    A shallow embedding of the domain classes of [src/desafio_v2.py]
    ([Historico], [Conta], [ContaCorrente], [Saque], [Deposito], [Cliente])
    and the properties of their validation and history logic.

    Modelling conventions.
    - The methods only add, subtract and compare the amounts they are given
      ([valor], [saldo], [limite]).  The classes are embedded twice.  On
      exact rationals [Q], for the statements on the order of the tests, on
      what a call prints and on what it records and when.  On binary64
      floats, the type the menu passes ([float(input(...))]), in the module
      [Float64], for the statements on the value of the balance: there an
      addition rounds, [inf - inf] is NaN and every comparison with NaN is
      false.
    - A method that mutates [self] takes the object and returns the updated
      object next to its Python return value.
    - [print] and [datetime.utcnow] are effects of the [IO] monad: the
      environment carries the lines printed so far and a clock that is read
      once per call of [utcnow].
    - Account objects live in a store indexed by references, so that a
      customer holding several accounts shares them with the rest of the
      program ([Banco]).
    - The text "%d-%m-%Y %H:%M:%S" stored under ["data"] is represented by the
      [datetime] value (second precision) that [strptime] reads back from it.
    - The functions of the menu run in the [CLI] monad: its state holds the two
      lists of [main], the account objects, the lines still to be read by
      [input], what was written to the terminal and to [log.txt], and the
      clock; [EOFError] and [ValueError] end a computation.  Python's [float]
      on a line of input is a parameter, with values in [Q]: the statements
      on the program are on its lists, its accounts and what it records and
      shows, not on the value of a balance.  Texts built from values are
      represented by these values. *)

From Stdlib Require Import Floats.
From Stdlib Require Import QArith Lqa ZArith String Ascii List.
From stdpp Require Import base gmap strings list.

Open Scope Q_scope.

(** ** Numbers *)

(** Python's [x > y] on amounts. *)
Definition Qgtb (x y : Q) : bool := negb (Qle_bool x y).

(** ** Dates ([datetime.datetime], [datetime.date]) *)

Record date := Date { year : nat; month : nat; day : nat }.

Record datetime := DateTime { dt_date : date; hour : nat; minute : nat; second : nat }.

#[global] Instance date_eq_dec : EqDecision date.
Proof. solve_decision. Defined.

(** ** Strings: [str.lower] on ASCII text *)

Definition is_upper (c : ascii) : bool :=
  ((65 <=? N_of_ascii c) && (N_of_ascii c <=? 90))%N.

Definition lower_ascii (c : ascii) : ascii :=
  if is_upper c then ascii_of_N (N_of_ascii c + 32) else c.

Fixpoint lower (s : string) : string :=
  match s with
  | EmptyString => EmptyString
  | String c s' => String (lower_ascii c) (lower s')
  end.

(** ** Effects: printed lines and the clock *)

(** The lines the domain classes print. *)
Inductive Mensagem :=
  | MsgExcedeuTransacoesDia   (* daily operation limit: DailyLimitExceeded *)
  | MsgSaldoInsuficiente      (* InsufficientFunds *)
  | MsgSaqueSucesso
  | MsgValorInvalido          (* InvalidAmount *)
  | MsgDepositoSucesso
  | MsgExcedeLimite           (* WithdrawalLimitExceeded *)
  | MsgExcedeSaques.          (* WithdrawalCountExceeded *)

Definition texto (m : Mensagem) : string :=
  match m with
  | MsgExcedeuTransacoesDia => "Você excedeu o número de transações permitidas para hoje!"
  | MsgSaldoInsuficiente => "Operação falhou! Você não tem saldo suficiente."
  | MsgSaqueSucesso => "=== Saque realizado com sucesso! ==="
  | MsgValorInvalido => "Operação falhou! O valor informado é inválido."
  | MsgDepositoSucesso => "=== Depósito realizado com sucesso! ==="
  | MsgExcedeLimite => "Operação falhou! O valor do saque excede o limite."
  | MsgExcedeSaques => "Operação falhou! Número máximo de saques excedido."
  end%string.

#[global] Instance Mensagem_eq_dec : EqDecision Mensagem.
Proof. solve_decision. Defined.

(** [stdout]: the lines printed so far, oldest first.  [relogio n] is what the
    [n]-th call of [utcnow] returns; [leituras] counts the calls made. *)
Record Ambiente := MkAmbiente {
  stdout : list Mensagem;
  relogio : nat -> datetime;
  leituras : nat
}.

Definition IO (A : Type) : Type := Ambiente -> A * Ambiente.

#[global] Instance IO_ret : MRet IO := fun A (x : A) amb => (x, amb).

#[global] Instance IO_bind : MBind IO := fun A B (f : A -> IO B) (m : IO A) amb =>
  let '(x, amb') := m amb in f x amb'.

Definition print (m : Mensagem) : IO unit := fun amb =>
  (tt, MkAmbiente (stdout amb ++ [m]) (relogio amb) (leituras amb)).

Definition utcnow : IO datetime := fun amb =>
  (relogio amb (leituras amb),
   MkAmbiente (stdout amb) (relogio amb) (S (leituras amb))).

(** What a Python call hands back to its caller. *)
Inductive retorno :=
  | RNone
  | RBool (b : bool).

(** ** Transacao, Saque, Deposito: the values *)

Inductive Transacao :=
  | Saque (valor : Q)
  | Deposito (valor : Q).

Definition valor (t : Transacao) : Q :=
  match t with Saque v => v | Deposito v => v end.

(** [transacao.__class__.__name__] *)
Definition class_name (t : Transacao) : string :=
  match t with Saque _ => "Saque" | Deposito _ => "Deposito" end%string.

(** ** Historico *)

(** One dictionary of [_transacoes]. *)
Record Registro := MkRegistro {
  tipo : string;
  reg_valor : Q;
  data : datetime
}.

Module Historico.

Record t := Mk { transacoes : list Registro }.

Definition init : t := Mk [].

Definition adicionar_transacao (self : t) (transacao : Transacao) : IO t :=
  agora ← utcnow;
  mret (Mk (transacoes self ++
            [MkRegistro (class_name transacao) (valor transacao) agora])).

Definition transacoes_do_dia (self : t) : IO (list Registro) :=
  agora ← utcnow;
  let data_atual := dt_date agora in
  mret (filter (fun transacao => data_atual = dt_date (data transacao))
               (transacoes self)).

End Historico.

Module Relatorio.

(** The generator object [gerar_relatorio] returns.  It keeps the filter and
    the position of its loop over the live list [self._transacoes]; once
    the loop has ended the generator stays exhausted. *)
Record t := Mk {
  tipo_transacao : option string;
  indice : nat;
  esgotado : bool
}.

(** [tipo_transacao is None or
     transacao["tipo"].lower() == tipo_transacao.lower()] *)
Definition passa (tipo_transacao : option string) (transacao : Registro) : bool :=
  match tipo_transacao with
  | None => true
  | Some f => bool_decide (lower (tipo transacao) = lower f)
  end.

(** The loop from position [i] over the remaining records [resto], up to
    the next [yield]. *)
Fixpoint ate_yield (f : option string) (resto : list Registro) (i : nat)
  : option (Registro * nat) :=
  match resto with
  | [] => None
  | transacao :: resto' =>
      if passa f transacao then Some (transacao, S i)
      else ate_yield f resto' (S i)
  end.

(** [next(g)] against the current state of the history; [None] is
    [StopIteration]. *)
Definition next (g : t) (self : Historico.t) : option Registro * t :=
  if esgotado g then (None, g)
  else
    match ate_yield (tipo_transacao g)
                    (drop (indice g) (Historico.transacoes self)) (indice g) with
    | Some (transacao, i) => (Some transacao, Mk (tipo_transacao g) i false)
    | None => (None, Mk (tipo_transacao g) (indice g) true)
    end.

(** [for transacao in g] collecting what is yielded, as [list(g)] does.
    [None] when [fuel] calls of [next] did not reach [StopIteration]. *)
Fixpoint consumir (fuel : nat) (g : t) (self : Historico.t)
  : option (list Registro * t) :=
  match fuel with
  | O => None
  | S fuel' =>
      match next g self with
      | (None, g') => Some ([], g')
      | (Some transacao, g') =>
          match consumir fuel' g' self with
          | Some (l, g'') => Some (transacao :: l, g'')
          | None => None
          end
      end
  end.

(** [k] calls of [next], keeping the generator. *)
Fixpoint avancar (k : nat) (g : t) (self : Historico.t) : t :=
  match k with
  | O => g
  | S k' => avancar k' (snd (next g self)) self
  end.

End Relatorio.

(** [Historico.gerar_relatorio]: every call builds a new generator, started at
    the head of the list. *)
Definition gerar_relatorio (self : Historico.t) (tipo_transacao : option string)
  : Relatorio.t :=
  Relatorio.Mk tipo_transacao 0 false.

(** ** Conta *)

Module Conta.

Record t := Mk {
  saldo : Q;
  numero : Z;
  agencia : string;
  cliente : nat;
  historico : Historico.t
}.

Definition init (numero : Z) (cliente : nat) : t :=
  Mk 0 numero "0001" cliente Historico.init.

Definition nova_conta (cliente : nat) (numero : Z) : t := init numero cliente.

Definition set_saldo (self : t) (s : Q) : t :=
  Mk s (numero self) (agencia self) (cliente self) (historico self).

Definition set_historico (self : t) (h : Historico.t) : t :=
  Mk (saldo self) (numero self) (agencia self) (cliente self) h.

Definition sacar (self : t) (valor : Q) : IO (bool * t) :=
  let saldo := saldo self in
  let excedeu_saldo := Qgtb valor saldo in
  if excedeu_saldo then
    print MsgSaldoInsuficiente;;
    mret (false, self)
  else if Qgtb valor 0 then
    let self := set_saldo self (saldo - valor) in
    print MsgSaqueSucesso;;
    mret (true, self)
  else
    print MsgValorInvalido;;
    mret (false, self).

Definition depositar (self : t) (valor : Q) : IO (bool * t) :=
  if Qgtb valor 0 then
    let self := set_saldo self (saldo self + valor) in
    print MsgDepositoSucesso;;
    mret (true, self)
  else
    print MsgValorInvalido;;
    mret (false, self).

End Conta.

(** ** ContaCorrente(Conta) *)

Module ContaCorrente.

Record t := Mk {
  conta : Conta.t;      (* the inherited attributes *)
  limite : Q;
  limite_saques : Z
}.

Definition limite_padrao : Q := 500.
Definition limite_saques_padrao : Z := 3.

Definition init (numero : Z) (cliente : nat) (limite : Q) (limite_saques : Z) : t :=
  Mk (Conta.init numero cliente) limite limite_saques.

Definition nova_conta (cliente : nat) (numero : Z) (limite : Q) (limite_saques : Z) : t :=
  init numero cliente limite limite_saques.

Definition set_conta (self : t) (c : Conta.t) : t :=
  Mk c (limite self) (limite_saques self).

Definition sacar (self : t) (valor : Q) : IO (bool * t) :=
  let numero_saques :=
    length (filter (fun transacao => tipo transacao = "Saque"%string)
                   (Historico.transacoes (Conta.historico (conta self)))) in
  let excedeu_limite := Qgtb valor (limite self) in
  let excedeu_saques := (Z.of_nat numero_saques >=? limite_saques self)%Z in
  if excedeu_limite then
    print MsgExcedeLimite;;
    mret (false, self)
  else if excedeu_saques then
    print MsgExcedeSaques;;
    mret (false, self)
  else
    '(r, c) ← Conta.sacar (conta self) valor;
    mret (r, set_conta self c).

(** [depositar] is not overridden: the inherited method runs on the
    inherited attributes. *)
Definition depositar (self : t) (valor : Q) : IO (bool * t) :=
  '(r, c) ← Conta.depositar (conta self) valor;
  mret (r, set_conta self c).

End ContaCorrente.

(** ** Account objects and method dispatch *)

Inductive objeto_conta :=
  | ObjConta (c : Conta.t)
  | ObjContaCorrente (c : ContaCorrente.t).

(** The attributes every account has. *)
Definition atributos (conta : objeto_conta) : Conta.t :=
  match conta with
  | ObjConta c => c
  | ObjContaCorrente c => ContaCorrente.conta c
  end.

Definition obj_saldo (conta : objeto_conta) : Q := Conta.saldo (atributos conta).

Definition obj_historico (conta : objeto_conta) : Historico.t :=
  Conta.historico (atributos conta).

Definition obj_set_historico (conta : objeto_conta) (h : Historico.t) : objeto_conta :=
  match conta with
  | ObjConta c => ObjConta (Conta.set_historico c h)
  | ObjContaCorrente c =>
      ObjContaCorrente (ContaCorrente.set_conta c
                          (Conta.set_historico (ContaCorrente.conta c) h))
  end.

(** [conta.sacar(valor)] *)
Definition obj_sacar (conta : objeto_conta) (valor : Q) : IO (bool * objeto_conta) :=
  match conta with
  | ObjConta c => '(r, c') ← Conta.sacar c valor; mret (r, ObjConta c')
  | ObjContaCorrente c =>
      '(r, c') ← ContaCorrente.sacar c valor; mret (r, ObjContaCorrente c')
  end.

(** [conta.depositar(valor)] *)
Definition obj_depositar (conta : objeto_conta) (valor : Q) : IO (bool * objeto_conta) :=
  match conta with
  | ObjConta c => '(r, c') ← Conta.depositar c valor; mret (r, ObjConta c')
  | ObjContaCorrente c =>
      '(r, c') ← ContaCorrente.depositar c valor; mret (r, ObjContaCorrente c')
  end.

(** [conta.historico.adicionar_transacao(transacao)] *)
Definition obj_adicionar_transacao (conta : objeto_conta) (transacao : Transacao)
  : IO objeto_conta :=
  h ← Historico.adicionar_transacao (obj_historico conta) transacao;
  mret (obj_set_historico conta h).

(** ** Saque.registrar, Deposito.registrar *)

Definition Saque_registrar (valor : Q) (conta : objeto_conta)
  : IO (retorno * objeto_conta) :=
  '(sucesso_transacao, conta) ← obj_sacar conta valor;
  if (sucesso_transacao : bool) then
    conta ← obj_adicionar_transacao conta (Saque valor);
    mret (RNone, conta)
  else mret (RNone, conta).

Definition Deposito_registrar (valor : Q) (conta : objeto_conta)
  : IO (retorno * objeto_conta) :=
  '(sucesso_transacao, conta) ← obj_depositar conta valor;
  if (sucesso_transacao : bool) then
    conta ← obj_adicionar_transacao conta (Deposito valor);
    mret (RNone, conta)
  else mret (RNone, conta).

(** [transacao.registrar(conta)] *)
Definition registrar (transacao : Transacao) (conta : objeto_conta)
  : IO (retorno * objeto_conta) :=
  match transacao with
  | Saque v => Saque_registrar v conta
  | Deposito v => Deposito_registrar v conta
  end.

(** ** Cliente, PessoaFisica *)

Module Cliente.

Record t := Mk {
  endereco : string;
  contas : list nat;       (* references to account objects *)
  indice_conta : Z
}.

Definition init (endereco : string) : t := Mk endereco [] 0%Z.

Definition realizar_transacao (self : t) (conta : objeto_conta)
    (transacao : Transacao) : IO (retorno * objeto_conta) :=
  do_dia ← Historico.transacoes_do_dia (obj_historico conta);
  if (2 <=? length do_dia)%nat then   (* len(...) >= 2 *)
    print MsgExcedeuTransacoesDia;;
    mret (RNone, conta)
  else
    '(_, conta) ← registrar transacao conta;
    mret (RNone, conta).

Definition adicionar_conta (self : t) (conta : nat) : t :=
  Mk (endereco self) (contas self ++ [conta]) (indice_conta self).

End Cliente.

Module PessoaFisica.

Record t := Mk {
  cliente : Cliente.t;
  nome : string;
  data_nascimento : string;
  cpf : string
}.

Definition init (nome data_nascimento cpf endereco : string) : t :=
  Mk (Cliente.init endereco) nome data_nascimento cpf.

End PessoaFisica.

(** ** The store of account objects *)

(** [cliente.realizar_transacao(conta, transacao)] with [conta] the object
    behind the reference [ref]: the mutation is visible to every holder of
    the reference. *)
Definition realizar_transacao_em (banco : gmap nat objeto_conta) (self : Cliente.t)
    (ref : nat) (transacao : Transacao)
  : IO (option retorno * gmap nat objeto_conta) :=
  match banco !! ref with
  | Some conta =>
      '(r, conta') ← Cliente.realizar_transacao self conta transacao;
      mret (Some r, <[ref := conta']> banco)
  | None => mret (None, banco)
  end.

(** ** Calls a client of the classes can make on one account *)

Inductive Chamada :=
  | ChSacar (valor : Q)                 (* conta.sacar(valor) *)
  | ChDepositar (valor : Q)             (* conta.depositar(valor) *)
  | ChRegistrar (transacao : Transacao) (* transacao.registrar(conta) *)
  | ChRealizar (transacao : Transacao). (* cliente.realizar_transacao(conta, transacao) *)

Definition chamar (self : Cliente.t) (conta : objeto_conta) (ch : Chamada)
  : IO objeto_conta :=
  match ch with
  | ChSacar v => '(_, conta) ← obj_sacar conta v; mret conta
  | ChDepositar v => '(_, conta) ← obj_depositar conta v; mret conta
  | ChRegistrar t => '(_, conta) ← registrar t conta; mret conta
  | ChRealizar t => '(_, conta) ← Cliente.realizar_transacao self conta t; mret conta
  end.

Fixpoint chamadas (self : Cliente.t) (conta : objeto_conta) (chs : list Chamada)
  : IO objeto_conta :=
  match chs with
  | [] => mret conta
  | ch :: chs' => conta ← chamar self conta ch; chamadas self conta chs'
  end.

(** ** Vocabulary of the statements *)

(** The environment after one more printed line. *)
Definition apos_print (amb : Ambiente) (m : Mensagem) : Ambiente :=
  MkAmbiente (stdout amb ++ [m]) (relogio amb) (leituras amb).

(** The environment after one more reading of the clock. *)
Definition apos_utcnow (amb : Ambiente) : Ambiente :=
  MkAmbiente (stdout amb) (relogio amb) (S (leituras amb)).

(** The date the next call of [utcnow] falls on. *)
Definition hoje (amb : Ambiente) : date := dt_date (relogio amb (leituras amb)).

(** Records of a history dated [d]. *)
Definition registros_de (d : date) (h : Historico.t) : list Registro :=
  filter (fun transacao => d = dt_date (data transacao)) (Historico.transacoes h).

(** Number of recorded withdrawals of a history, all time. *)
Definition numero_saques (h : Historico.t) : nat :=
  length (filter (fun transacao => tipo transacao = "Saque"%string)
                 (Historico.transacoes h)).

(** The account primitive a transaction stands for. *)
Definition primitiva (transacao : Transacao) (conta : objeto_conta)
  : IO (bool * objeto_conta) :=
  match transacao with
  | Saque v => obj_sacar conta v
  | Deposito v => obj_depositar conta v
  end.

(** Operations a customer completed on date [d], over all the accounts the
    customer holds. *)
Definition operacoes_do_cliente (banco : gmap nat objeto_conta) (self : Cliente.t)
    (d : date) : nat :=
  sum_list (map (fun ref =>
                   match banco !! ref with
                   | Some conta => length (registros_de d (obj_historico conta))
                   | None => O
                   end)
                (Cliente.contas self)).

(** Two characters that are the same letter up to case. *)
Definition mesma_letra (a b : ascii) : Prop :=
  a = b
  \/ (is_upper a = true /\ N_of_ascii b = (N_of_ascii a + 32)%N)
  \/ (is_upper b = true /\ N_of_ascii a = (N_of_ascii b + 32)%N).

(** Two strings equal up to the case of their letters. *)
Fixpoint igual_sem_caixa (s1 s2 : string) : Prop :=
  match s1, s2 with
  | EmptyString, EmptyString => True
  | String a s1', String b s2' => mesma_letra a b /\ igual_sem_caixa s1' s2'
  | _, _ => False
  end.

#[global] Instance mesma_letra_dec (a b : ascii) : Decision (mesma_letra a b).
Proof. unfold mesma_letra. apply _. Defined.

#[global] Instance igual_sem_caixa_dec : RelDecision igual_sem_caixa.
Proof.
  intros s1. induction s1 as [|a s1 IH]; intros [|b s2]; simpl; apply _.
Defined.

(** The records a report is to show: all of them, in the order of the list,
    or those whose kind is the filter up to case. *)
Definition selecionados (tipo_transacao : option string) (self : Historico.t)
  : list Registro :=
  match tipo_transacao with
  | None => Historico.transacoes self
  | Some f => filter (fun transacao => igual_sem_caixa (tipo transacao) f)
                     (Historico.transacoes self)
  end.

(** What a generator has still to yield on a history. *)
Definition restantes (g : Relatorio.t) (self : Historico.t) : list Registro :=
  if Relatorio.esgotado g then []
  else filter (fun transacao =>
                 Relatorio.passa (Relatorio.tipo_transacao g) transacao = true)
              (drop (Relatorio.indice g) (Historico.transacoes self)).

(** ** Sample data *)

Module Exemplo.

Definition dia1 : datetime := DateTime (Date 2024 5 1) 10 0 0.
Definition dia2 : datetime := DateTime (Date 2024 5 2) 9 30 0.
Definition dia3 : datetime := DateTime (Date 2024 5 3) 8 15 0.

(** A clock that stays on one day. *)
Definition amb_dia1 : Ambiente := MkAmbiente [] (fun _ => dia1) 0.

(** A clock whose first four readings fall on [dia1], the next four on
    [dia2], the rest on [dia3]. *)
Definition amb_tres_dias : Ambiente :=
  MkAmbiente [] (fun n => if (n <? 4)%nat then dia1
                          else if (n <? 8)%nat then dia2 else dia3) 0.

Definition cliente : Cliente.t :=
  Cliente.adicionar_conta (Cliente.adicionar_conta (Cliente.init "Rua A, 1") 1) 2.

(** [criar_conta]: limite=500, limite_saques=50. *)
Definition conta_nova (numero : Z) : objeto_conta :=
  ObjContaCorrente (ContaCorrente.nova_conta 0 numero 500 50).

(** A checking account with the defaults of [ContaCorrente.__init__]. *)
Definition conta_padrao : objeto_conta :=
  ObjContaCorrente (ContaCorrente.nova_conta 0 1 ContaCorrente.limite_padrao
                      ContaCorrente.limite_saques_padrao).

Definition banco : gmap nat objeto_conta :=
  <[2%nat := conta_nova 2]> (<[1%nat := conta_nova 1]> ∅).

(** Four operations over two days on [conta_padrao]: a deposit and three
    withdrawals, which reach the default ceiling of three withdrawals. *)
Definition tres_saques : objeto_conta * Ambiente :=
  chamadas cliente conta_padrao
    [ChRealizar (Deposito 1000); ChRealizar (Saque 100);
     ChRealizar (Saque 100); ChRealizar (Saque 100)] amb_tres_dias.

(** The account [tres_saques] ends with. *)
Definition corrente_tres_saques : ContaCorrente.t :=
  ContaCorrente.Mk
    (Conta.Mk 700 1 "0001" 0
       (Historico.Mk [MkRegistro "Deposito" 1000 dia1; MkRegistro "Saque" 100 dia1;
                      MkRegistro "Saque" 100 dia2; MkRegistro "Saque" 100 dia2]))
    500 3.

(** One step of the program on the store: an operation of [cliente] on the
    account behind [ref]. *)
Definition passo (st : gmap nat objeto_conta * Ambiente) (ref : nat)
    (transacao : Transacao) : gmap nat objeto_conta * Ambiente :=
  let '(_, b, a) := realizar_transacao_em (fst st) cliente ref transacao (snd st) in
  (b, a).

(** [cliente] deposits 1000 into account 1 and withdraws 500 from it, on
    the same day; account 2 is not touched. *)
Definition dois_na_conta_1 : gmap nat objeto_conta * Ambiente :=
  passo (passo (banco, amb_dia1) 1%nat (Deposito 1000)) 1%nat (Saque 500).

(** Then a deposit of 10 into account 2, still on the same day. *)
Definition terceira_na_conta_2
  : option retorno * gmap nat objeto_conta * Ambiente :=
  realizar_transacao_em (fst dois_na_conta_1) cliente 2%nat (Deposito 10)
    (snd dois_na_conta_1).

(** Two operations of one day on one account. *)
Definition dois_hoje : objeto_conta * Ambiente :=
  chamadas cliente (conta_nova 1)
    [ChRealizar (Deposito 1000); ChRealizar (Saque 500)] amb_dia1.

(** A report over the history of [corrente_tres_saques]. *)
Definition historico_tres_saques : Historico.t :=
  Conta.historico (ContaCorrente.conta corrente_tres_saques).

(** A checking account with the default ceilings, holding 1000. *)
Definition corrente_mil : ContaCorrente.t :=
  ContaCorrente.Mk (Conta.set_saldo (Conta.nova_conta 0 1) 1000) 500 3.

End Exemplo.

(** ** Vocabulary of the further statements *)

(** The two ceilings of a checking account; a plain account has none. *)
Definition limites (conta : objeto_conta) : option (Q * Z) :=
  match conta with
  | ObjConta _ => None
  | ObjContaCorrente c =>
      Some (ContaCorrente.limite c, ContaCorrente.limite_saques c)
  end.

(** Calls that go through [registrar], directly or by [realizar_transacao]. *)
Definition por_transacao (ch : Chamada) : bool :=
  match ch with
  | ChRegistrar _ | ChRealizar _ => true
  | ChSacar _ | ChDepositar _ => false
  end.

(** A clock that, once it has shown another calendar date, does not come
    back to an earlier one. *)
Definition relogio_sem_retorno (relogio : nat -> datetime) : Prop :=
  forall i j k, (i <= j)%nat -> (j <= k)%nat ->
    dt_date (relogio i) = dt_date (relogio k) ->
    dt_date (relogio j) = dt_date (relogio i).

(** What an accepted transaction adds to the account: one record, read off
    the transaction and the clock, and its amount on the balance. *)
Definition aceita (transacao : Transacao) (conta : objeto_conta) (quando : datetime)
    (c2 : objeto_conta) : Prop :=
  0 < valor transacao
  /\ Historico.transacoes (obj_historico c2)
     = Historico.transacoes (obj_historico conta)
       ++ [MkRegistro (class_name transacao) (valor transacao) quando]
  /\ obj_saldo c2
     = match transacao with
       | Saque v => obj_saldo conta - v
       | Deposito v => obj_saldo conta + v
       end
  /\ match transacao with
     | Saque v =>
         v <= obj_saldo conta
         /\ (forall l ls, limites conta = Some (l, ls) ->
               v <= l /\ (Z.of_nat (numero_saques (obj_historico conta)) < ls)%Z)
     | Deposito _ => True
     end.

(** A record as the classes write them: an amount above zero under one of
    the two class names, and for a withdrawal of a checking account an
    amount within its [limite]. *)
Definition registro_valido (lim : option (Q * Z)) (transacao : Registro) : Prop :=
  0 < reg_valor transacao
  /\ (tipo transacao = "Saque"%string \/ tipo transacao = "Deposito"%string)
  /\ (tipo transacao = "Saque"%string ->
      forall l ls, lim = Some (l, ls) -> reg_valor transacao <= l).

(** Calls other than a direct [registrar], which skips the daily test. *)
Definition sem_registrar_direto (ch : Chamada) : bool :=
  match ch with
  | ChRegistrar _ => false
  | ChSacar _ | ChDepositar _ | ChRealizar _ => true
  end.

(** ** ContasIterador *)

Module ContasIterador.

(** The iterator keeps a position into the list it was given, which it reads
    again at every step.  The text [__next__] returns is represented by the
    account it is formatted from. *)
Record t := Mk { index : nat }.

Definition init : t := Mk 0.

(** [__next__]: the element at the position, or [StopIteration] ([None]) when
    there is none; the position moves on in both cases. *)
Definition next {A : Type} (self : t) (contas : list A) : option A * t :=
  (contas !! index self, Mk (S (index self))).

(** [for conta in self] collecting what is yielded; [None] when [fuel] calls
    of [next] did not reach [StopIteration]. *)
Fixpoint percorrer {A : Type} (fuel : nat) (self : t) (contas : list A)
  : option (list A * t) :=
  match fuel with
  | O => None
  | S fuel' =>
      match next self contas with
      | (None, self') => Some ([], self')
      | (Some conta, self') =>
          match percorrer fuel' self' contas with
          | Some (l, self'') => Some (conta :: l, self'')
          | None => None
          end
      end
  end.

End ContasIterador.

(** ** The program around the classes *)

(** The prompts of [input]. *)
Inductive Pergunta :=
  | PMenu
  | PCpfCliente          (* "Informe o CPF do cliente: " *)
  | PValorDeposito
  | PValorSaque
  | PCpfNovo             (* "Informe o CPF (somente número): " *)
  | PNome
  | PNascimento
  | PEndereco.

(** What the program writes to the terminal: the lines of the classes, the
    prompts, and the lines of the functions.  A line built from values is
    represented by these values. *)
Inductive Linha :=
  | LClasse (m : Mensagem)
  | LPergunta (p : Pergunta)
  | LClienteNaoEncontrado
  | LClienteSemConta
  | LExtratoCabecalho
  | LExtrato (l : list Registro)   (* one paragraph per record *)
  | LSemMovimentacoes
  | LSaldo (s : Q)
  | LExtratoRodape
  | LJaExisteCliente
  | LClienteCriado
  | LClienteNaoEncontradoConta
  | LContaCriada
  | LSeparador                     (* "=" * 50 *)
  | LConta (conta : objeto_conta)
  | LOperacaoInvalida.

(** The exceptions the program can end with: [input] at the end of the
    input, [float] on a text that is no number. *)
Inductive Excecao :=
  | EOFError
  | ValueError.

Inductive Resultado (A : Type) :=
  | Retorna (x : A)
  | Levanta (e : Excecao).

Arguments Retorna {A} x.
Arguments Levanta {A} e.

(** One line of [log.txt]: time, name of the function and what it returned;
    the printed arguments are left out. *)
Record EntradaLog := MkEntradaLog {
  quando : datetime;
  funcao : string;
  retornou : retorno
}.

(** The state of a run of [main]: its two lists, the account objects the
    references stand for, the terminal, the clock and the log file.  A client
    object is identified by its position in [clientes], which only grows. *)
Record Mundo := MkMundo {
  clientes : list PessoaFisica.t;
  contas : list nat;
  objetos : gmap nat objeto_conta;
  tela : list Linha;
  teclado : list string;
  relogio_m : nat -> datetime;
  leituras_m : nat;
  log_txt : list EntradaLog
}.

Definition CLI (A : Type) : Type := Mundo -> Resultado A * Mundo.

#[global] Instance CLI_ret : MRet CLI := fun A (x : A) m => (Retorna x, m).

#[global] Instance CLI_bind : MBind CLI := fun A B (f : A -> CLI B) (c : CLI A) m =>
  match c m with
  | (Retorna x, m') => f x m'
  | (Levanta e, m') => (Levanta e, m')
  end.

Definition imprime (l : Linha) : CLI unit := fun m =>
  (Retorna tt,
   MkMundo (clientes m) (contas m) (objetos m) (tela m ++ [l]) (teclado m)
     (relogio_m m) (leituras_m m) (log_txt m)).

(** [input(prompt)]: the prompt is written, then a line is read. *)
Definition input (p : Pergunta) : CLI string := fun m =>
  match teclado m with
  | [] =>
      (Levanta EOFError,
       MkMundo (clientes m) (contas m) (objetos m) (tela m ++ [LPergunta p]) []
         (relogio_m m) (leituras_m m) (log_txt m))
  | linha :: resto =>
      (Retorna linha,
       MkMundo (clientes m) (contas m) (objetos m) (tela m ++ [LPergunta p]) resto
         (relogio_m m) (leituras_m m) (log_txt m))
  end.

(** A computation of the classes run in the program: what it prints goes to
    the terminal, its clock readings are the program's. *)
Definition classes {A : Type} (c : IO A) : CLI A := fun m =>
  let '(x, amb) := c (MkAmbiente [] (relogio_m m) (leituras_m m)) in
  (Retorna x,
   MkMundo (clientes m) (contas m) (objetos m)
     (tela m ++ map LClasse (stdout amb)) (teclado m)
     (relogio_m m) (leituras amb) (log_txt m)).

Definition le_mundo : CLI Mundo := fun m => (Retorna m, m).

Definition poe_mundo (m : Mundo) : CLI unit := fun _ => (Retorna tt, m).

Definition levanta {A : Type} (e : Excecao) : CLI A := fun m => (Levanta e, m).

Definition escreve_log (e : EntradaLog) : CLI unit := fun m =>
  (Retorna tt,
   MkMundo (clientes m) (contas m) (objetos m) (tela m) (teclado m)
     (relogio_m m) (leituras_m m) (log_txt m ++ [e])).

(** The decorator: the function runs, then one line goes to the log.  An
    exception of the function leaves no line. *)
Definition log_transacao (nome : string) (func : CLI retorno) : CLI retorno :=
  resultado ← func;
  data_hora ← classes utcnow;
  escreve_log (MkEntradaLog data_hora nome resultado);;
  mret resultado.

Definition menu : CLI string := input PMenu.

(** [filtrar_cliente]: the first of the clients with this CPF, together with
    its position, which stands for the object. *)
Definition filtrar_cliente (cpf : string) (clientes : list PessoaFisica.t)
  : option (nat * PessoaFisica.t) :=
  let clientes_filtrados :=
    filter (fun ic => PessoaFisica.cpf (snd ic) = cpf) (imap pair clientes) in
  head clientes_filtrados.

Definition recuperar_conta_cliente (cliente : PessoaFisica.t) : CLI (option nat) :=
  match Cliente.contas (PessoaFisica.cliente cliente) with
  | [] => imprime LClienteSemConta;; mret None
  | conta :: _ => mret (Some conta)
  end.

(** [cliente.realizar_transacao(conta, transacao)] on the object behind the
    reference. *)
Definition realizar (cliente : PessoaFisica.t) (conta : nat) (transacao : Transacao)
  : CLI unit := fun m =>
  let '(_, banco, amb) :=
    realizar_transacao_em (objetos m) (PessoaFisica.cliente cliente) conta transacao
      (MkAmbiente [] (relogio_m m) (leituras_m m)) in
  (Retorna tt,
   MkMundo (clientes m) (contas m) banco
     (tela m ++ map LClasse (stdout amb)) (teclado m)
     (relogio_m m) (leituras amb) (log_txt m)).

(** The loop of [exibir_extrato] over the generator: [extrato] collects the
    paragraphs, [tem_transacao] tells whether there was one. *)
Fixpoint extrato_laco (fuel : nat) (g : Relatorio.t) (h : Historico.t)
    (extrato : list Registro) (tem_transacao : bool) : list Registro * bool :=
  match fuel with
  | O => (extrato, tem_transacao)
  | S fuel' =>
      match Relatorio.next g h with
      | (None, _) => (extrato, tem_transacao)
      | (Some transacao, g') =>
          extrato_laco fuel' g' h (extrato ++ [transacao]) true
      end
  end.

(** The loop of [listar_contas] over the iterator.  The list of account
    objects is read through the references of [contas]. *)
Definition contas_objetos (m : Mundo) : list objeto_conta :=
  omap (fun ref => objetos m !! ref) (contas m).

Fixpoint listar_laco (fuel : nat) (it : ContasIterador.t) : CLI unit :=
  match fuel with
  | O => mret tt
  | S fuel' =>
      m ← le_mundo;
      match ContasIterador.next it (contas_objetos m) with
      | (None, _) => mret tt
      | (Some conta, it') =>
          imprime LSeparador;; imprime (LConta conta);; listar_laco fuel' it'
      end
  end.

Definition listar_contas : CLI unit :=
  m ← le_mundo;
  listar_laco (S (length (contas_objetos m))) ContasIterador.init.

(** [cliente.contas.append(conta)] on a [PessoaFisica]. *)
Definition acrescenta_conta (cliente : PessoaFisica.t) (conta : nat) : PessoaFisica.t :=
  PessoaFisica.Mk
    (Cliente.Mk (Cliente.endereco (PessoaFisica.cliente cliente))
       (Cliente.contas (PessoaFisica.cliente cliente) ++ [conta])
       (Cliente.indice_conta (PessoaFisica.cliente cliente)))
    (PessoaFisica.nome cliente) (PessoaFisica.data_nascimento cliente)
    (PessoaFisica.cpf cliente).

Section Programa.

(** Python's [float] on a line of input: [None] is [ValueError]. *)
Variable float : string -> option Q.

Definition le_float (p : Pergunta) : CLI Q :=
  texto_lido ← input p;
  match float texto_lido with
  | Some valor => mret valor
  | None => levanta ValueError
  end.

Definition depositar : CLI retorno :=
  log_transacao "depositar"
    (cpf ← input PCpfCliente;
     m ← le_mundo;
     match filtrar_cliente cpf (clientes m) with
     | None => imprime LClienteNaoEncontrado;; mret RNone
     | Some (_, cliente) =>
         valor ← le_float PValorDeposito;
         let transacao := Deposito valor in
         conta ← recuperar_conta_cliente cliente;
         match conta with
         | None => mret RNone
         | Some conta => realizar cliente conta transacao;; mret RNone
         end
     end).

Definition sacar : CLI retorno :=
  log_transacao "sacar"
    (cpf ← input PCpfCliente;
     m ← le_mundo;
     match filtrar_cliente cpf (clientes m) with
     | None => imprime LClienteNaoEncontrado;; mret RNone
     | Some (_, cliente) =>
         valor ← le_float PValorSaque;
         let transacao := Saque valor in
         conta ← recuperar_conta_cliente cliente;
         match conta with
         | None => mret RNone
         | Some conta => realizar cliente conta transacao;; mret RNone
         end
     end).

Definition exibir_extrato : CLI retorno :=
  log_transacao "exibir_extrato"
    (cpf ← input PCpfCliente;
     m ← le_mundo;
     match filtrar_cliente cpf (clientes m) with
     | None => imprime LClienteNaoEncontrado;; mret RNone
     | Some (_, cliente) =>
         conta ← recuperar_conta_cliente cliente;
         match conta with
         | None => mret RNone
         | Some conta =>
             match objetos m !! conta with
             | None => mret RNone   (* no reference is without its object *)
             | Some obj =>
                 imprime LExtratoCabecalho;;
                 let '(extrato, tem_transacao) :=
                   extrato_laco
                     (S (length (Historico.transacoes (obj_historico obj))))
                     (gerar_relatorio (obj_historico obj) None)
                     (obj_historico obj) [] false in
                 imprime (if tem_transacao then LExtrato extrato
                          else LSemMovimentacoes);;
                 imprime (LSaldo (obj_saldo obj));;
                 imprime LExtratoRodape;;
                 mret RNone
             end
         end
     end).

Definition criar_cliente : CLI retorno :=
  log_transacao "criar_cliente"
    (cpf ← input PCpfNovo;
     m ← le_mundo;
     match filtrar_cliente cpf (clientes m) with
     | Some _ => imprime LJaExisteCliente;; mret RNone
     | None =>
         nome ← input PNome;
         data_nascimento ← input PNascimento;
         endereco ← input PEndereco;
         let cliente := PessoaFisica.init nome data_nascimento cpf endereco in
         m ← le_mundo;
         poe_mundo (MkMundo (clientes m ++ [cliente]) (contas m) (objetos m) (tela m)
                      (teclado m) (relogio_m m) (leituras_m m) (log_txt m));;
         imprime LClienteCriado;;
         mret RNone
     end).

Definition criar_conta (numero_conta : Z) : CLI retorno :=
  log_transacao "criar_conta"
    (cpf ← input PCpfCliente;
     m ← le_mundo;
     match filtrar_cliente cpf (clientes m) with
     | None => imprime LClienteNaoEncontradoConta;; mret RNone
     | Some (i, cliente) =>
         let conta := ContaCorrente.nova_conta i numero_conta 500 50 in
         let ref := fresh (dom (objetos m)) in   (* the new object *)
         poe_mundo (MkMundo (clientes m) (contas m ++ [ref])
                      (<[ref := ObjContaCorrente conta]> (objetos m)) (tela m)
                      (teclado m) (relogio_m m) (leituras_m m) (log_txt m));;
         (* cliente.contas.append(conta) *)
         m ← le_mundo;
         poe_mundo (MkMundo (<[i := acrescenta_conta cliente ref]> (clientes m))
                      (contas m) (objetos m) (tela m)
                      (teclado m) (relogio_m m) (leituras_m m) (log_txt m));;
         imprime LContaCriada;;
         mret RNone
     end).

(** How the loop of [main] ended. *)
Inductive Fim :=
  | Saiu             (* [break] on "q" *)
  | SemCombustivel.  (* the model ran out of [fuel] *)

Definition opcao_invalida : CLI unit := imprime LOperacaoInvalida.

Fixpoint main_laco (fuel : nat) : CLI Fim :=
  match fuel with
  | O => mret SemCombustivel
  | S fuel' =>
      opcao ← menu;
      if decide (opcao = "d"%string) then depositar;; main_laco fuel'
      else if decide (opcao = "s"%string) then sacar;; main_laco fuel'
      else if decide (opcao = "e"%string) then exibir_extrato;; main_laco fuel'
      else if decide (opcao = "nu"%string) then criar_cliente;; main_laco fuel'
      else if decide (opcao = "nc"%string) then
        m ← le_mundo;
        let numero_conta := (Z.of_nat (length (contas m)) + 1)%Z in
        criar_conta numero_conta;;
        main_laco fuel'
      else if decide (opcao = "lc"%string) then listar_contas;; main_laco fuel'
      else if decide (opcao = "q"%string) then mret Saiu
      else opcao_invalida;; main_laco fuel'
  end.

End Programa.

(** The state [main] starts from: no client, no account. *)
Definition mundo_inicial (teclado : list string) (relogio : nat -> datetime)
    (log : list EntradaLog) : Mundo :=
  MkMundo [] [] ∅ [] teclado relogio 0 log.

(** [main] on the lines of [teclado]. *)
Definition main (float : string -> option Q) (fuel : nat) (teclado : list string)
    (relogio : nat -> datetime) (log : list EntradaLog) : Resultado Fim * Mundo :=
  main_laco float fuel (mundo_inicial teclado relogio log).

(** ** A sample session *)

Module Sessao.

(** A reading of numbers that knows the amounts of the session. *)
Definition float (s : string) : option Q :=
  if decide (s = "1000"%string) then Some 1000
  else if decide (s = "500"%string) then Some 500
  else None.

(** New client, a second try with the same CPF, new account, deposit, two
    withdrawals, statement, list of accounts, a deposit for an unknown CPF,
    an option that does not exist, exit. *)
Definition linhas : list string :=
  ["nu"; "123"; "Ana"; "01-01-1990"; "Rua A, 1"; "nu"; "123"; "nc"; "123";
   "d"; "123"; "1000"; "s"; "123"; "500"; "s"; "123"; "500";
   "e"; "123"; "lc"; "d"; "000"; "x"; "q"]%string.

Definition fim : Resultado Fim * Mundo :=
  main float 30 linhas (fun _ => Exemplo.dia1) [].

Definition ana : PessoaFisica.t :=
  PessoaFisica.Mk (Cliente.Mk "Rua A, 1" [0%nat] 0) "Ana" "01-01-1990" "123".

(** The lists and objects the session ends with, on a new terminal with one
    line to read, a day later. *)
Definition mundo_com (linha : string) : Mundo :=
  MkMundo [ana] [0%nat] (<[0%nat := fst Exemplo.dois_hoje]> ∅) [] [linha]
    (fun _ => Exemplo.dia2) 0 [].

End Sessao.

(** ** Vocabulary of the statements on the program *)

(** The lists and the objects are the same in both states. *)
Definition mesmo_sistema (m m' : Mundo) : Prop :=
  clientes m' = clientes m /\ contas m' = contas m /\ objetos m' = objetos m.

(** What one command of the menu can do to the lists and the objects:
    nothing; one operation on the first account of the client found; one
    more client, whose CPF was not there; one more account, numbered
    [numero], for the client found. *)
Inductive passo (numero : Z) (m m' : Mundo) : Prop :=
  | passo_nada :
      mesmo_sistema m m' -> passo numero m m'
  | passo_transacao (cpf : string) (i : nat) (cliente : PessoaFisica.t)
      (conta : nat) (transacao : Transacao) (amb : Ambiente) :
      filtrar_cliente cpf (clientes m) = Some (i, cliente) ->
      head (Cliente.contas (PessoaFisica.cliente cliente)) = Some conta ->
      clientes m' = clientes m ->
      contas m' = contas m ->
      objetos m'
        = snd (fst (realizar_transacao_em (objetos m)
                      (PessoaFisica.cliente cliente) conta transacao amb)) ->
      passo numero m m'
  | passo_cliente (cliente : PessoaFisica.t) :
      filtrar_cliente (PessoaFisica.cpf cliente) (clientes m) = None ->
      Cliente.contas (PessoaFisica.cliente cliente) = [] ->
      clientes m' = clientes m ++ [cliente] ->
      contas m' = contas m ->
      objetos m' = objetos m ->
      passo numero m m'
  | passo_conta (cpf : string) (i : nat) (cliente : PessoaFisica.t) :
      filtrar_cliente cpf (clientes m) = Some (i, cliente) ->
      clientes m'
        = <[i := acrescenta_conta cliente (fresh (dom (objetos m)))]> (clientes m) ->
      contas m' = contas m ++ [fresh (dom (objetos m))] ->
      objetos m'
        = <[fresh (dom (objetos m)) :=
              ObjContaCorrente (ContaCorrente.nova_conta i numero 500 50)]>
            (objetos m) ->
      passo numero m m'.

(** One turn of the loop of [main]: a new account gets the number of
    accounts so far plus one. *)
Definition passo_main (m m' : Mundo) : Prop :=
  passo (Z.of_nat (length (contas m)) + 1) m m'.

(** How a command may end: with its value; with [EOFError], the input being
    used up; with [ValueError], one of the lines it had left being no
    number. *)
Definition fim_do_comando {A : Type} (float : string -> option Q) (m : Mundo)
    (r : Resultado A) (m' : Mundo) : Prop :=
  match r with
  | Retorna _ => True
  | Levanta EOFError => teclado m' = []
  | Levanta ValueError => exists linha, In linha (teclado m) /\ float linha = None
  end.

(** What holds of every command: it reads the input forward, changes the
    lists and objects by one [passo], and ends as said above. *)
Definition comando {A : Type} (float : string -> option Q) (numero : Z)
    (c : CLI A) (m : Mundo) : Prop :=
  teclado (snd (c m)) `suffix_of` teclado m
  /\ passo numero m (snd (c m))
  /\ fim_do_comando float m (fst (c m)) (snd (c m)).

(** What is fixed when an account is created: number, branch, holder and
    ceilings. *)
Definition fixos (conta : objeto_conta) : Z * string * nat * option (Q * Z) :=
  (Conta.numero (atributos conta), Conta.agencia (atributos conta),
   Conta.cliente (atributos conta), limites conta).

(** An account in order: the records are valid and the recorded withdrawals
    are within the ceiling. *)
Definition conta_integra (conta : objeto_conta) : Prop :=
  Forall (registro_valido (limites conta))
         (Historico.transacoes (obj_historico conta))
  /\ (forall l ls, limites conta = Some (l, ls) ->
        (Z.of_nat (numero_saques (obj_historico conta)) <= Z.max 0 ls)%Z).

(** The lists and objects of the program in order. *)
Record mundo_integro (m : Mundo) : Prop := MkIntegro {
  (* no two clients with one CPF *)
  cpfs_unicos : NoDup (PessoaFisica.cpf <$> clientes m);
  (* the objects are those of [contas], each once *)
  contas_sem_repeticao : NoDup (contas m);
  objetos_de_contas : forall ref, is_Some (objetos m !! ref) <-> ref ∈ contas m;
  (* the k-th account created is checking account number k, with the
     ceilings of [criar_conta] *)
  contas_numeradas : forall k ref,
    contas m !! k = Some ref ->
    exists obj,
      objetos m !! ref = Some obj
      /\ Conta.numero (atributos obj) = (Z.of_nat k + 1)%Z
      /\ Conta.agencia (atributos obj) = "0001"%string
      /\ limites obj = Some (500, 50%Z);
  (* a client's accounts name the client as holder, and the holder of an
     account has it in the list *)
  contas_do_cliente : forall i cliente ref,
    clientes m !! i = Some cliente ->
    ref ∈ Cliente.contas (PessoaFisica.cliente cliente) ->
    exists obj, objetos m !! ref = Some obj /\ Conta.cliente (atributos obj) = i;
  cliente_da_conta : forall ref obj,
    objetos m !! ref = Some obj ->
    exists cliente,
      clientes m !! Conta.cliente (atributos obj) = Some cliente
      /\ ref ∈ Cliente.contas (PessoaFisica.cliente cliente);
  (* every account is in order *)
  contas_integras : forall ref obj,
    objetos m !! ref = Some obj -> conta_integra obj
}.

(** ** The classes on the amounts of the menu: binary64 *)

(** Zero and [+inf] in the specification of the format. *)
Definition SFzero : spec_float := S754_zero false.
Definition SFinf : spec_float := S754_infinity false.

(** [depositar] and [sacar] of the menu build their transaction from
    [float(input(...))]: in a run of the program the amounts the classes
    compare, add and subtract are binary64 numbers, with their rounding,
    their infinities and NaN.  [Float64] is the embedding of the same
    methods on that type; the statements about the value of the balance are
    made on it.  The integers [0] of [Conta.__init__] and [500] of
    [ContaCorrente] are the floats of the same value: Python compares and
    adds an integer of that size and a float as it does the two floats. *)
Module Float64.


(** Python's [x > y] on floats: [False] when either side is NaN. *)
Definition gtb (x y : float) : bool := (y <? x)%float.

Inductive Transacao :=
  | Saque (valor : float)
  | Deposito (valor : float).

Definition valor (t : Transacao) : float :=
  match t with Saque v => v | Deposito v => v end.

Definition class_name (t : Transacao) : string :=
  match t with Saque _ => "Saque" | Deposito _ => "Deposito" end%string.

Record Registro := MkRegistro {
  tipo : string;
  reg_valor : float;
  data : datetime
}.

Module Historico.

Record t := Mk { transacoes : list Registro }.

Definition init : t := Mk [].

Definition adicionar_transacao (self : t) (transacao : Transacao) : IO t :=
  agora ← utcnow;
  mret (Mk (transacoes self ++
            [MkRegistro (class_name transacao) (valor transacao) agora])).

Definition transacoes_do_dia (self : t) : IO (list Registro) :=
  agora ← utcnow;
  let data_atual := dt_date agora in
  mret (filter (fun transacao => data_atual = dt_date (data transacao))
               (transacoes self)).

End Historico.

Module Conta.

Record t := Mk {
  saldo : float;
  numero : Z;
  agencia : string;
  cliente : nat;
  historico : Historico.t
}.

Definition init (numero : Z) (cliente : nat) : t :=
  Mk 0%float numero "0001" cliente Historico.init.

Definition nova_conta (cliente : nat) (numero : Z) : t := init numero cliente.

Definition set_saldo (self : t) (s : float) : t :=
  Mk s (numero self) (agencia self) (cliente self) (historico self).

Definition set_historico (self : t) (h : Historico.t) : t :=
  Mk (saldo self) (numero self) (agencia self) (cliente self) h.

Definition sacar (self : t) (valor : float) : IO (bool * t) :=
  let saldo := saldo self in
  let excedeu_saldo := gtb valor saldo in
  if excedeu_saldo then
    print MsgSaldoInsuficiente;;
    mret (false, self)
  else if gtb valor 0%float then
    let self := set_saldo self (saldo - valor)%float in
    print MsgSaqueSucesso;;
    mret (true, self)
  else
    print MsgValorInvalido;;
    mret (false, self).

Definition depositar (self : t) (valor : float) : IO (bool * t) :=
  if gtb valor 0%float then
    let self := set_saldo self (saldo self + valor)%float in
    print MsgDepositoSucesso;;
    mret (true, self)
  else
    print MsgValorInvalido;;
    mret (false, self).

End Conta.

Module ContaCorrente.

Record t := Mk {
  conta : Conta.t;      (* the inherited attributes *)
  limite : float;
  limite_saques : Z
}.

Definition init (numero : Z) (cliente : nat) (limite : float) (limite_saques : Z) : t :=
  Mk (Conta.init numero cliente) limite limite_saques.

Definition nova_conta (cliente : nat) (numero : Z) (limite : float)
    (limite_saques : Z) : t :=
  init numero cliente limite limite_saques.

Definition set_conta (self : t) (c : Conta.t) : t :=
  Mk c (limite self) (limite_saques self).

Definition sacar (self : t) (valor : float) : IO (bool * t) :=
  let numero_saques :=
    length (filter (fun transacao => tipo transacao = "Saque"%string)
                   (Historico.transacoes (Conta.historico (conta self)))) in
  let excedeu_limite := gtb valor (limite self) in
  let excedeu_saques := (Z.of_nat numero_saques >=? limite_saques self)%Z in
  if excedeu_limite then
    print MsgExcedeLimite;;
    mret (false, self)
  else if excedeu_saques then
    print MsgExcedeSaques;;
    mret (false, self)
  else
    '(r, c) ← Conta.sacar (conta self) valor;
    mret (r, set_conta self c).

Definition depositar (self : t) (valor : float) : IO (bool * t) :=
  '(r, c) ← Conta.depositar (conta self) valor;
  mret (r, set_conta self c).

End ContaCorrente.

Inductive objeto_conta :=
  | ObjConta (c : Conta.t)
  | ObjContaCorrente (c : ContaCorrente.t).

Definition atributos (conta : objeto_conta) : Conta.t :=
  match conta with
  | ObjConta c => c
  | ObjContaCorrente c => ContaCorrente.conta c
  end.

Definition obj_saldo (conta : objeto_conta) : float := Conta.saldo (atributos conta).

Definition obj_historico (conta : objeto_conta) : Historico.t :=
  Conta.historico (atributos conta).

Definition obj_set_historico (conta : objeto_conta) (h : Historico.t) : objeto_conta :=
  match conta with
  | ObjConta c => ObjConta (Conta.set_historico c h)
  | ObjContaCorrente c =>
      ObjContaCorrente (ContaCorrente.set_conta c
                          (Conta.set_historico (ContaCorrente.conta c) h))
  end.

(** [conta.sacar(valor)] *)
Definition obj_sacar (conta : objeto_conta) (valor : float)
  : IO (bool * objeto_conta) :=
  match conta with
  | ObjConta c => '(r, c') ← Conta.sacar c valor; mret (r, ObjConta c')
  | ObjContaCorrente c =>
      '(r, c') ← ContaCorrente.sacar c valor; mret (r, ObjContaCorrente c')
  end.

(** [conta.depositar(valor)] *)
Definition obj_depositar (conta : objeto_conta) (valor : float)
  : IO (bool * objeto_conta) :=
  match conta with
  | ObjConta c => '(r, c') ← Conta.depositar c valor; mret (r, ObjConta c')
  | ObjContaCorrente c =>
      '(r, c') ← ContaCorrente.depositar c valor; mret (r, ObjContaCorrente c')
  end.

(** [conta.historico.adicionar_transacao(transacao)] *)
Definition obj_adicionar_transacao (conta : objeto_conta) (transacao : Transacao)
  : IO objeto_conta :=
  h ← Historico.adicionar_transacao (obj_historico conta) transacao;
  mret (obj_set_historico conta h).

Definition Saque_registrar (valor : float) (conta : objeto_conta)
  : IO (retorno * objeto_conta) :=
  '(sucesso_transacao, conta) ← obj_sacar conta valor;
  if (sucesso_transacao : bool) then
    conta ← obj_adicionar_transacao conta (Saque valor);
    mret (RNone, conta)
  else mret (RNone, conta).

Definition Deposito_registrar (valor : float) (conta : objeto_conta)
  : IO (retorno * objeto_conta) :=
  '(sucesso_transacao, conta) ← obj_depositar conta valor;
  if (sucesso_transacao : bool) then
    conta ← obj_adicionar_transacao conta (Deposito valor);
    mret (RNone, conta)
  else mret (RNone, conta).

(** [transacao.registrar(conta)] *)
Definition registrar (transacao : Transacao) (conta : objeto_conta)
  : IO (retorno * objeto_conta) :=
  match transacao with
  | Saque v => Saque_registrar v conta
  | Deposito v => Deposito_registrar v conta
  end.

(** [Cliente.realizar_transacao] *)
Definition realizar_transacao (self : Cliente.t) (conta : objeto_conta)
    (transacao : Transacao) : IO (retorno * objeto_conta) :=
  do_dia ← Historico.transacoes_do_dia (obj_historico conta);
  if (2 <=? length do_dia)%nat then   (* len(...) >= 2 *)
    print MsgExcedeuTransacoesDia;;
    mret (RNone, conta)
  else
    '(_, conta) ← registrar transacao conta;
    mret (RNone, conta).

(** Calls a client of the classes can make on one account. *)
Inductive Chamada :=
  | ChSacar (valor : float)             (* conta.sacar(valor) *)
  | ChDepositar (valor : float)         (* conta.depositar(valor) *)
  | ChRegistrar (transacao : Transacao) (* transacao.registrar(conta) *)
  | ChRealizar (transacao : Transacao). (* cliente.realizar_transacao(conta, transacao) *)

Definition chamar (self : Cliente.t) (conta : objeto_conta) (ch : Chamada)
  : IO objeto_conta :=
  match ch with
  | ChSacar v => '(_, conta) ← obj_sacar conta v; mret conta
  | ChDepositar v => '(_, conta) ← obj_depositar conta v; mret conta
  | ChRegistrar t => '(_, conta) ← registrar t conta; mret conta
  | ChRealizar t => '(_, conta) ← realizar_transacao self conta t; mret conta
  end.

Fixpoint chamadas (self : Cliente.t) (conta : objeto_conta) (chs : list Chamada)
  : IO objeto_conta :=
  match chs with
  | [] => mret conta
  | ch :: chs' => conta ← chamar self conta ch; chamadas self conta chs'
  end.

(** *** Vocabulary *)

(** Number of recorded withdrawals of a history, all time. *)
Definition numero_saques (h : Historico.t) : nat :=
  length (filter (fun transacao => tipo transacao = "Saque"%string)
                 (Historico.transacoes h)).

(** The ceiling on the amount of one withdrawal: [limite] on a checking
    account, none on a plain one. *)
Definition teto (conta : objeto_conta) : float :=
  match conta with
  | ObjConta _ => infinity
  | ObjContaCorrente c => ContaCorrente.limite c
  end.

(** The account with another balance. *)
Definition obj_set_saldo (conta : objeto_conta) (s : float) : objeto_conta :=
  match conta with
  | ObjConta c => ObjConta (Conta.set_saldo c s)
  | ObjContaCorrente c =>
      ObjContaCorrente (ContaCorrente.set_conta c
                          (Conta.set_saldo (ContaCorrente.conta c) s))
  end.

(** The tests on the amount that [sacar] and [depositar] make before they
    touch the balance, and the balance they then leave. *)
Definition valor_aceito (transacao : Transacao) (conta : objeto_conta) : bool :=
  match transacao with
  | Saque v =>
      negb (gtb v (teto conta)) && negb (gtb v (obj_saldo conta)) && gtb v 0%float
  | Deposito v => gtb v 0%float
  end.

Definition novo_saldo (transacao : Transacao) (conta : objeto_conta) : float :=
  match transacao with
  | Saque v => (obj_saldo conta - v)%float
  | Deposito v => (obj_saldo conta + v)%float
  end.

(** The transaction a call offers to the account. *)
Definition movimento (ch : Chamada) : Transacao :=
  match ch with
  | ChSacar v => Saque v
  | ChDepositar v => Deposito v
  | ChRegistrar t | ChRealizar t => t
  end.

(** Calls that do not ask for a withdrawal of [inf]. *)
Definition sem_saque_infinito (ch : Chamada) : bool :=
  match movimento ch with
  | Saque v => negb (v =? infinity)%float
  | Deposito _ => true
  end.

(** Calls that go through [registrar], directly or by [realizar_transacao]. *)
Definition por_transacao (ch : Chamada) : bool :=
  match ch with
  | ChRegistrar _ | ChRealizar _ => true
  | ChSacar _ | ChDepositar _ => false
  end.

(** The balance a list of records gives when replayed from 0: deposits
    added and withdrawals subtracted with the program's operations, in the
    order they were recorded. *)
Definition saldo_do_historico (l : list Registro) : float :=
  fold_left (fun s transacao =>
               if decide (tipo transacao = "Saque"%string)
               then (s - reg_valor transacao)%float
               else (s + reg_valor transacao)%float)
            l 0%float.

(** *** Sample data *)

Definition conta_nova (numero : Z) : objeto_conta :=
  ObjContaCorrente (ContaCorrente.nova_conta 0 numero 500%float 50).

Definition conta_simples : objeto_conta := ObjConta (Conta.nova_conta 0 1).

Definition conta_cem : Conta.t := Conta.set_saldo (Conta.nova_conta 0 1) 100%float.

(** A checking account holding 1e16, where the next float is 2 away. *)
Definition corrente_1e16 : ContaCorrente.t :=
  ContaCorrente.set_conta (ContaCorrente.nova_conta 0 1 500%float 50)
    (Conta.set_saldo (Conta.nova_conta 0 1) 1e16%float).

End Float64.

(** * Properties *)

(** ** Comparisons *)

Lemma Qgtb_spec (x y : Q) : reflect (y < x) (Qgtb x y).
Proof.
  unfold Qgtb. destruct (Qle_bool x y) eqn:E; simpl; constructor.
  - apply Qle_bool_iff in E. lra.
  - apply Qnot_le_lt. intros Hle.
    apply Qle_bool_iff in Hle. congruence.
Qed.

Lemma app_singleton_inj {A} (l : list A) (x y : A) : l ++ [x] = l ++ [y] -> x = y.
Proof. intros H. apply app_inv_head in H. congruence. Qed.

(** Two outcomes that print different lines are different; the rest is
    arithmetic on the compared amounts. *)
Ltac fecha_casos :=
  repeat match goal with
         | H : _ /\ _ |- _ => destruct H
         | H : _ \/ _ |- _ => destruct H
         | H : apos_print _ _ = apos_print _ _ |- _ =>
             injection H as H; apply app_singleton_inj in H; discriminate
         end;
  try discriminate; try lra.

(** Case analysis on every amount comparison in the goal. *)
Ltac casos_Qgtb :=
  repeat match goal with
         | |- context [Qgtb ?x ?y] => destruct (Qgtb_spec x y)
         end.

(** ** The methods, branch by branch *)

Lemma Conta_sacar_eq (self : Conta.t) (valor : Q) (amb : Ambiente) :
  Conta.sacar self valor amb =
    if Qgtb valor (Conta.saldo self) then
      (false, self, apos_print amb MsgSaldoInsuficiente)
    else if Qgtb valor 0 then
      (true, Conta.set_saldo self (Conta.saldo self - valor),
       apos_print amb MsgSaqueSucesso)
    else (false, self, apos_print amb MsgValorInvalido).
Proof. unfold Conta.sacar. casos_Qgtb; reflexivity. Qed.

Lemma Conta_depositar_eq (self : Conta.t) (valor : Q) (amb : Ambiente) :
  Conta.depositar self valor amb =
    if Qgtb valor 0 then
      (true, Conta.set_saldo self (Conta.saldo self + valor),
       apos_print amb MsgDepositoSucesso)
    else (false, self, apos_print amb MsgValorInvalido).
Proof. unfold Conta.depositar. casos_Qgtb; reflexivity. Qed.

Lemma set_conta_id (self : ContaCorrente.t) :
  ContaCorrente.set_conta self (ContaCorrente.conta self) = self.
Proof. destruct self; reflexivity. Qed.

Lemma ContaCorrente_sacar_eq (self : ContaCorrente.t) (valor : Q) (amb : Ambiente) :
  ContaCorrente.sacar self valor amb =
    if Qgtb valor (ContaCorrente.limite self) then
      (false, self, apos_print amb MsgExcedeLimite)
    else if (Z.of_nat (numero_saques (Conta.historico (ContaCorrente.conta self)))
               >=? ContaCorrente.limite_saques self)%Z then
      (false, self, apos_print amb MsgExcedeSaques)
    else
      let '(r, c, amb') := Conta.sacar (ContaCorrente.conta self) valor amb in
      (r, ContaCorrente.set_conta self c, amb').
Proof.
  unfold ContaCorrente.sacar, numero_saques.
  destruct (Qgtb valor _); [reflexivity|].
  destruct (_ >=? _)%Z; [reflexivity|].
  unfold mbind, IO_bind.
  destruct (Conta.sacar _ _ _) as [[r c] amb']. reflexivity.
Qed.

Lemma ContaCorrente_depositar_eq (self : ContaCorrente.t) (valor : Q) (amb : Ambiente) :
  ContaCorrente.depositar self valor amb =
    let '(r, c, amb') := Conta.depositar (ContaCorrente.conta self) valor amb in
    (r, ContaCorrente.set_conta self c, amb').
Proof.
  unfold ContaCorrente.depositar, mbind, IO_bind.
  destruct (Conta.depositar _ _ _) as [[r c] amb']. reflexivity.
Qed.

(** ** Binary64 arithmetic *)

(** What the statements on float amounts need of IEEE 754 arithmetic, read
    off the specification of the primitive operations ([SpecFloat]). *)

Section Binary64.

Local Open Scope Z_scope.

Lemma digits2_pos_bounds (m : positive) :
  2 ^ (Z.pos (digits2_pos m) - 1) <= Z.pos m < 2 ^ Z.pos (digits2_pos m).
Proof.
  induction m as [m IH | m IH |]; cbn [digits2_pos].
  - rewrite Pos2Z.inj_succ.
    replace (Z.succ (Z.pos (digits2_pos m)) - 1)
      with (Z.succ (Z.pos (digits2_pos m) - 1)) by lia.
    rewrite !Z.pow_succ_r by lia. lia.
  - rewrite Pos2Z.inj_succ.
    replace (Z.succ (Z.pos (digits2_pos m)) - 1)
      with (Z.succ (Z.pos (digits2_pos m) - 1)) by lia.
    rewrite !Z.pow_succ_r by lia. lia.
  - cbn. lia.
Qed.

Lemma iter_xO (m d : positive) : Z.pos (Pos.iter xO m d) = Z.pos m * 2 ^ Z.pos d.
Proof.
  revert m. induction d as [| d IH] using Pos.peano_ind; intros m.
  - cbn. lia.
  - rewrite Pos.iter_succ, Pos2Z.inj_succ, Z.pow_succ_r by lia.
    rewrite Pos2Z.inj_xO, IH. lia.
Qed.

(** Aligning a mantissa to a smaller exponent multiplies it by the power of
    two between the exponents. *)
Lemma shl_align_le (m : positive) (e ez : Z) :
  ez <= e -> Z.pos (fst (shl_align m e ez)) = Z.pos m * 2 ^ (e - ez).
Proof.
  intros H. unfold shl_align.
  destruct (ez - e) as [| d | d] eqn:E; cbn [fst].
  - replace (e - ez) with 0 by lia. cbn. lia.
  - lia.
  - rewrite iter_xO. f_equal. f_equal. lia.
Qed.

(** Rounding keeps the sign it is given: the result is not below zero. *)
Lemma binary_round_aux_sign (mx ex : Z) (lx : location) :
  SFltb (binary_round_aux prec emax false mx ex lx) SFzero = false.
Proof.
  unfold binary_round_aux.
  destruct (shr_fexp prec emax mx ex lx) as [mrs' e'].
  destruct (shr_fexp prec emax _ e' loc_Exact) as [mrs'' e''].
  destruct (shr_m mrs''); try reflexivity.
  destruct (e'' <=? emax - prec); reflexivity.
Qed.

Lemma binary_normalize_sign (m e : Z) :
  0 <= m -> SFltb (binary_normalize prec emax m e false) SFzero = false.
Proof.
  intros H. destruct m as [| m | m]; [reflexivity | | lia].
  cbn [binary_normalize]. unfold binary_round.
  destruct (shl_align m e _) as [mz ez]. apply binary_round_aux_sign.
Qed.

(** Shifting a mantissa that is not negative to the right leaves one that is
    not negative, and so does rounding to nearest. *)
Lemma shr_1_nonneg (mrs : shr_record) : 0 <= shr_m mrs -> 0 <= shr_m (shr_1 mrs).
Proof.
  destruct mrs as [m r s]. cbn [shr_m shr_1].
  destruct m as [| [p | p |] | p]; cbn [shr_m]; lia.
Qed.

Lemma iter_pos_shr_1_nonneg (p : positive) :
  forall mrs, 0 <= shr_m mrs -> 0 <= shr_m (SpecFloat.iter_pos shr_1 p mrs).
Proof.
  induction p as [p IH | p IH |]; intros mrs H; cbn [SpecFloat.iter_pos].
  - apply IH, IH, shr_1_nonneg, H.
  - apply IH, IH, H.
  - apply shr_1_nonneg, H.
Qed.

Lemma shr_fexp_nonneg (m e : Z) (l : location) :
  0 <= m -> 0 <= shr_m (fst (shr_fexp prec emax m e l)).
Proof.
  intros H. unfold shr_fexp, shr.
  assert (H0 : 0 <= shr_m (shr_record_of_loc m l))
    by (destruct l as [| []]; exact H).
  destruct (fexp prec emax (Zdigits2 m + e) - e); cbn [fst];
    [exact H0 | apply iter_pos_shr_1_nonneg, H0 | exact H0].
Qed.

Lemma round_nearest_even_nonneg (m : Z) (l : location) :
  0 <= m -> 0 <= round_nearest_even m l.
Proof.
  intros H. destruct l as [| []]; cbn [round_nearest_even];
    try destruct (Z.even m); lia.
Qed.

(** Rounding a mantissa that is not negative, with the sign of a positive
    number, gives zero, a positive number or [+inf]. *)
Lemma binary_round_aux_ge0 (mx ex : Z) (lx : location) :
  0 <= mx -> SFleb SFzero (binary_round_aux prec emax false mx ex lx) = true.
Proof.
  intros H. unfold binary_round_aux.
  pose proof (shr_fexp_nonneg mx ex lx H) as H1.
  destruct (shr_fexp prec emax mx ex lx) as [mrs' e']. cbn [fst] in H1.
  pose proof (shr_fexp_nonneg _ e' loc_Exact
                (round_nearest_even_nonneg _ (loc_of_shr_record mrs') H1)) as H2.
  destruct (shr_fexp prec emax _ e' loc_Exact) as [mrs'' e'']. cbn [fst] in H2.
  destruct (shr_m mrs''); [reflexivity | | lia].
  destruct (e'' <=? emax - prec); reflexivity.
Qed.

Lemma binary_normalize_ge0 (m e : Z) :
  0 <= m -> SFleb SFzero (binary_normalize prec emax m e false) = true.
Proof.
  intros H. destruct m as [| m | m]; [reflexivity | | lia].
  cbn [binary_normalize]. unfold binary_round.
  destruct (shl_align m e _) as [mz ez]. by apply binary_round_aux_ge0.
Qed.

(** A float of the format has at most [prec] digits, all of them when its
    exponent is above the least one. *)
Lemma bounded_digits (m : positive) (e : Z) :
  bounded prec emax m e = true ->
  Z.pos (digits2_pos m) <= prec
  /\ (3 - emax - prec < e -> Z.pos (digits2_pos m) = prec)
  /\ 3 - emax - prec <= e.
Proof.
  unfold bounded, canonical_mantissa, fexp, SpecFloat.emin. intros H.
  apply andb_true_iff in H as [H _]. apply Z.eqb_eq in H. lia.
Qed.

(** The order of two positive floats is the order of their values. *)
Lemma finite_ge (mx my : positive) (ex ey : Z) :
  bounded prec emax mx ex = true -> bounded prec emax my ey = true ->
  SFltb (S754_finite false mx ex) (S754_finite false my ey) = false ->
  Z.pos my * 2 ^ (ey - Z.min ex ey) <= Z.pos mx * 2 ^ (ex - Z.min ex ey).
Proof.
  intros Hx Hy H. unfold SFltb in H. cbn [SFcompare] in H.
  apply bounded_digits in Hx as (Hx1 & Hx2 & Hx3).
  apply bounded_digits in Hy as (Hy1 & Hy2 & Hy3).
  destruct (Z.compare_spec ex ey) as [E | E | E]; [| discriminate |].
  - subst ey. rewrite Z.min_id, Z.sub_diag. cbn [Z.pow].
    rewrite Pos.compare_cont_spec in H. cbn in H.
    destruct (Pos.compare_spec mx my); try discriminate; lia.
  - rewrite Z.min_r by lia. rewrite Z.sub_diag. cbn [Z.pow].
    pose proof (digits2_pos_bounds mx) as [Bx _].
    pose proof (digits2_pos_bounds my) as [_ By].
    rewrite Hx2 in Bx by lia.
    assert (Hm : Z.pos my < 2 ^ prec).
    { eapply Z.lt_le_trans; [exact By |]. apply Z.pow_le_mono_r; lia. }
    assert (Hp : 2 ^ 1 <= 2 ^ (ex - ey)) by (apply Z.pow_le_mono_r; lia).
    replace (2 ^ prec) with (2 ^ (prec - 1) * 2 ^ 1) in Hm by reflexivity.
    nia.
Qed.

(** [x - y] for [0 < y], [not (y > x)] and [not (x < 0)]: not below zero. *)
Lemma SFsub_sign (x y : spec_float) :
  valid_binary x = true -> valid_binary y = true ->
  SFltb SFzero y = true -> SFltb x y = false -> SFltb x SFzero = false ->
  SFltb (SF64sub x y) SFzero = false.
Proof.
  intros Vx Vy Hy Hxy Hx.
  destruct y as [sy | sy | | sy my ey]; try discriminate;
    destruct sy; try discriminate;
    destruct x as [sx | sx | | sx mx ex]; try discriminate;
    try destruct sx; try discriminate; try reflexivity.
  unfold SF64sub, SFsub. cbn [cond_Zopp].
  apply binary_normalize_sign.
  rewrite !shl_align_le by lia.
  pose proof (finite_ge mx my ex ey Vx Vy Hxy). lia.
Qed.

(** The same with [0 <= x] and [y] other than [+inf]: the difference is a
    number, and [0 <=] it. *)
Lemma SFsub_ge0 (x y : spec_float) :
  valid_binary x = true -> valid_binary y = true ->
  SFltb SFzero y = true -> SFltb x y = false -> SFleb SFzero x = true ->
  SFeqb y SFinf = false ->
  SFleb SFzero (SF64sub x y) = true.
Proof.
  intros Vx Vy Hy Hxy Hx Hinf.
  destruct y as [sy | sy | | sy my ey]; try discriminate;
    destruct sy; try discriminate;
    destruct x as [sx | sx | | sx mx ex]; try discriminate;
    try destruct sx; try discriminate; try reflexivity.
  unfold SF64sub, SFsub. cbn [cond_Zopp].
  apply binary_normalize_ge0.
  rewrite !shl_align_le by lia.
  pose proof (finite_ge mx my ex ey Vx Vy Hxy). lia.
Qed.

Lemma SFadd_sign (x y : spec_float) :
  SFltb SFzero y = true -> SFltb x SFzero = false ->
  SFltb (SF64add x y) SFzero = false.
Proof.
  intros Hy Hx.
  destruct y as [sy | sy | | sy my ey]; try discriminate;
    destruct sy; try discriminate;
    destruct x as [sx | sx | | sx mx ex]; try discriminate;
    try destruct sx; try discriminate; try reflexivity.
  unfold SF64add, SFadd. cbn [cond_Zopp].
  apply binary_normalize_sign. lia.
Qed.

Lemma SFadd_ge0 (x y : spec_float) :
  SFltb SFzero y = true -> SFleb SFzero x = true ->
  SFleb SFzero (SF64add x y) = true.
Proof.
  intros Hy Hx.
  destruct y as [sy | sy | | sy my ey]; try discriminate;
    destruct sy; try discriminate;
    destruct x as [sx | sx | | sx mx ex]; try discriminate;
    try destruct sx; try discriminate; try reflexivity.
  unfold SF64add, SFadd. cbn [cond_Zopp].
  apply binary_normalize_ge0. lia.
Qed.

End Binary64.

Lemma Prim2SF_zero : Prim2SF 0%float = SFzero.
Proof. reflexivity. Qed.

Lemma Prim2SF_infinity : Prim2SF infinity = SFinf.
Proof. reflexivity. Qed.

Lemma is_nan_spec (s : float) :
  is_nan s = match Prim2SF s with S754_nan => true | _ => false end.
Proof.
  unfold is_nan. rewrite FloatAxioms.eqb_spec. unfold SFeqb.
  destruct (Prim2SF s) as [[] | [] | | [] m e]; cbn [SFcompare]; try reflexivity;
    rewrite Z.compare_refl, Pos.compare_cont_refl; reflexivity.
Qed.

(** Case analysis on the class and sign of the floats compared in
    the goal. *)
Ltac casos_float :=
  rewrite ?is_nan_spec, ?ltb_spec, ?leb_spec, ?FloatAxioms.eqb_spec,
    ?Prim2SF_zero, ?Prim2SF_infinity;
  repeat match goal with
         | |- context [Prim2SF ?x] =>
             let m := fresh "m" in
             let e := fresh "e" in
             destruct (Prim2SF x) as [[] | [] | | [] m e]
         end;
  cbn; intuition (try discriminate; try reflexivity).

(** [s < 0] is false iff [0 <= s] or [s] is NaN. *)
Lemma ltb_zero_false_iff (s : float) :
  (s <? 0)%float = false <-> (0 <=? s)%float = true \/ is_nan s = true.
Proof. casos_float. Qed.

(** [v > 0] is false iff [v <= 0] or [v] is NaN. *)
Lemma gtb_zero_false_iff (v : float) :
  (0 <? v)%float = false <-> (v <=? 0)%float = true \/ is_nan v = true.
Proof. casos_float. Qed.

Lemma gtb_zero_true (v : float) :
  (0 <? v)%float = true -> (v <=? 0)%float = false /\ is_nan v = false.
Proof. casos_float. Qed.

(** An amount that is not above zero is not above a balance that is not
    negative. *)
Lemma leb_zero_leb (v s : float) :
  (v <=? 0)%float = true -> (0 <=? s)%float = true -> (s <? v)%float = false.
Proof. casos_float. Qed.

Lemma ltb_nan_r (v s : float) : is_nan v = true -> (s <? v)%float = false.
Proof. casos_float. Qed.

(** Nothing is above [+inf]. *)
Lemma ltb_infinity_l (v : float) : (infinity <? v)%float = false.
Proof. casos_float. Qed.

(** An amount that is not above a ceiling below [+inf] is not [+inf]. *)
Lemma abaixo_do_teto (l v : float) :
  (l <? infinity)%float = true -> (l <? v)%float = false ->
  (v =? infinity)%float = false.
Proof. casos_float. Qed.

Lemma sub_nao_negativo (s v : float) :
  (0 <? v)%float = true -> (s <? v)%float = false -> (s <? 0)%float = false ->
  (s - v <? 0)%float = false.
Proof.
  rewrite !ltb_spec, sub_spec, Prim2SF_zero.
  apply SFsub_sign; apply Prim2SF_valid.
Qed.

Lemma add_nao_negativo (s v : float) :
  (0 <? v)%float = true -> (s <? 0)%float = false -> (s + v <? 0)%float = false.
Proof. rewrite !ltb_spec, add_spec, Prim2SF_zero. apply SFadd_sign. Qed.

Lemma sub_ge0 (s v : float) :
  (0 <? v)%float = true -> (s <? v)%float = false -> (0 <=? s)%float = true ->
  (v =? infinity)%float = false ->
  (0 <=? s - v)%float = true.
Proof.
  rewrite !ltb_spec, !leb_spec, FloatAxioms.eqb_spec, sub_spec, Prim2SF_zero,
    Prim2SF_infinity.
  apply SFsub_ge0; apply Prim2SF_valid.
Qed.

Lemma add_ge0 (s v : float) :
  (0 <? v)%float = true -> (0 <=? s)%float = true -> (0 <=? s + v)%float = true.
Proof. rewrite !ltb_spec, !leb_spec, add_spec, Prim2SF_zero. apply SFadd_ge0. Qed.

(** Without NaN, [not (x < y)] is [y <= x]. *)
Lemma SFltb_false_leb (x y : spec_float) :
  SFltb x y = false -> SFcompare x y <> None -> SFleb y x = true.
Proof.
  unfold SFltb, SFleb.
  destruct x as [[] | [] | | [] mx ex], y as [[] | [] | | [] my ey];
    cbn [SFcompare]; try done;
    rewrite (Z.compare_antisym ex ey);
    pose proof (Pos.compare_cont_antisym mx my Eq) as Ha;
    cbn [CompOpp] in Ha; rewrite <- Ha;
    destruct (ex ?= ey)%Z; cbn [CompOpp]; try done;
    destruct (Pos.compare_cont Eq mx my); done.
Qed.

(** An amount above zero and not above the balance is [<=] the balance,
    unless the balance is NaN. *)
Lemma nao_acima_leb (s v : float) :
  (0 <? v)%float = true -> (s <? v)%float = false ->
  (v <=? s)%float = true \/ is_nan s = true.
Proof.
  rewrite is_nan_spec, !ltb_spec, leb_spec, Prim2SF_zero. intros Hv Hs.
  destruct (Prim2SF s) as [ss | ss | | ss ms es] eqn:Es; [| | by right |];
    left; apply SFltb_false_leb; try exact Hs;
    destruct (Prim2SF v) as [[] | [] | | [] mv ev]; try discriminate Hv;
    destruct ss; discriminate.
Qed.

(** A balance that is NaN stays NaN. *)
Lemma sub_nan (s v : float) : is_nan s = true -> (s - v)%float = s.
Proof.
  rewrite is_nan_spec. intros H. apply Prim2SF_inj. rewrite sub_spec.
  destruct (Prim2SF s); try discriminate H. reflexivity.
Qed.


(** ** The methods on binary64 amounts, branch by branch *)

Lemma Float64_Conta_sacar_eq (self : Float64.Conta.t) (valor : float)
    (amb : Ambiente) :
  Float64.Conta.sacar self valor amb =
    if (Float64.Conta.saldo self <? valor)%float then
      (false, self, apos_print amb MsgSaldoInsuficiente)
    else if (0 <? valor)%float then
      (true,
       Float64.Conta.set_saldo self (Float64.Conta.saldo self - valor)%float,
       apos_print amb MsgSaqueSucesso)
    else (false, self, apos_print amb MsgValorInvalido).
Proof.
  unfold Float64.Conta.sacar, Float64.gtb.
  destruct (_ <? valor)%float; [reflexivity|].
  destruct (0 <? valor)%float; reflexivity.
Qed.

Lemma Float64_Conta_depositar_eq (self : Float64.Conta.t) (valor : float)
    (amb : Ambiente) :
  Float64.Conta.depositar self valor amb =
    if (0 <? valor)%float then
      (true,
       Float64.Conta.set_saldo self (Float64.Conta.saldo self + valor)%float,
       apos_print amb MsgDepositoSucesso)
    else (false, self, apos_print amb MsgValorInvalido).
Proof.
  unfold Float64.Conta.depositar, Float64.gtb.
  destruct (0 <? valor)%float; reflexivity.
Qed.

Lemma Float64_set_conta_id (self : Float64.ContaCorrente.t) :
  Float64.ContaCorrente.set_conta self (Float64.ContaCorrente.conta self) = self.
Proof. destruct self; reflexivity. Qed.

Lemma Float64_ContaCorrente_sacar_eq (self : Float64.ContaCorrente.t)
    (valor : float) (amb : Ambiente) :
  Float64.ContaCorrente.sacar self valor amb =
    if (Float64.ContaCorrente.limite self <? valor)%float then
      (false, self, apos_print amb MsgExcedeLimite)
    else if (Z.of_nat (Float64.numero_saques
                         (Float64.Conta.historico (Float64.ContaCorrente.conta self)))
               >=? Float64.ContaCorrente.limite_saques self)%Z then
      (false, self, apos_print amb MsgExcedeSaques)
    else
      let '(r, c, amb') :=
        Float64.Conta.sacar (Float64.ContaCorrente.conta self) valor amb in
      (r, Float64.ContaCorrente.set_conta self c, amb').
Proof.
  unfold Float64.ContaCorrente.sacar, Float64.numero_saques, Float64.gtb.
  destruct (_ <? valor)%float; [reflexivity|].
  destruct (_ >=? _)%Z; [reflexivity|].
  unfold mbind, IO_bind.
  destruct (Float64.Conta.sacar _ _ _) as [[r c] amb']. reflexivity.
Qed.

Lemma Float64_ContaCorrente_depositar_eq (self : Float64.ContaCorrente.t)
    (valor : float) (amb : Ambiente) :
  Float64.ContaCorrente.depositar self valor amb =
    let '(r, c, amb') :=
      Float64.Conta.depositar (Float64.ContaCorrente.conta self) valor amb in
    (r, Float64.ContaCorrente.set_conta self c, amb').
Proof.
  unfold Float64.ContaCorrente.depositar, mbind, IO_bind.
  destruct (Float64.Conta.depositar _ _ _) as [[r c] amb']. reflexivity.
Qed.

(** A call of [sacar] or [depositar] on an account object either passes the
    tests on the amount and leaves the new balance, or leaves the object as
    it was. *)
Lemma Float64_obj_sacar_cases (conta : Float64.objeto_conta) (v : float)
    (amb : Ambiente) :
  (fst (fst (Float64.obj_sacar conta v amb)) = true
   /\ Float64.valor_aceito (Float64.Saque v) conta = true
   /\ snd (fst (Float64.obj_sacar conta v amb))
      = Float64.obj_set_saldo conta (Float64.obj_saldo conta - v)%float)
  \/ (fst (fst (Float64.obj_sacar conta v amb)) = false
      /\ snd (fst (Float64.obj_sacar conta v amb)) = conta).
Proof.
  destruct conta as [c|c];
    unfold Float64.obj_sacar, Float64.valor_aceito, Float64.gtb, Float64.teto,
      Float64.obj_saldo, mbind, IO_bind; simpl;
    rewrite ?Float64_ContaCorrente_sacar_eq, ?Float64_Conta_sacar_eq,
      ?ltb_infinity_l.
  - destruct (_ <? v)%float; [by right|].
    destruct (0 <? v)%float; [by left | by right].
  - destruct (Float64.ContaCorrente.limite c <? v)%float; [by right|].
    destruct (_ >=? _)%Z; [by right|].
    destruct (_ <? v)%float; simpl; rewrite ?Float64_set_conta_id; [by right|].
    destruct (0 <? v)%float; simpl; rewrite ?Float64_set_conta_id;
      [by left | by right].
Qed.

Lemma Float64_obj_depositar_cases (conta : Float64.objeto_conta) (v : float)
    (amb : Ambiente) :
  (fst (fst (Float64.obj_depositar conta v amb)) = true
   /\ Float64.valor_aceito (Float64.Deposito v) conta = true
   /\ snd (fst (Float64.obj_depositar conta v amb))
      = Float64.obj_set_saldo conta (Float64.obj_saldo conta + v)%float)
  \/ (fst (fst (Float64.obj_depositar conta v amb)) = false
      /\ snd (fst (Float64.obj_depositar conta v amb)) = conta).
Proof.
  destruct conta as [c|c];
    unfold Float64.obj_depositar, Float64.valor_aceito, Float64.gtb,
      Float64.obj_saldo, mbind, IO_bind; simpl;
    rewrite ?Float64_ContaCorrente_depositar_eq, ?Float64_Conta_depositar_eq;
    destruct (0 <? v)%float; simpl; rewrite ?Float64_set_conta_id;
    (by left) || (by right).
Qed.

Lemma Float64_obj_saldo_set_saldo (conta : Float64.objeto_conta) (s : float) :
  Float64.obj_saldo (Float64.obj_set_saldo conta s) = s.
Proof. destruct conta; reflexivity. Qed.

Lemma Float64_obj_saldo_set_historico (conta : Float64.objeto_conta)
    (h : Float64.Historico.t) :
  Float64.obj_saldo (Float64.obj_set_historico conta h) = Float64.obj_saldo conta.
Proof. destruct conta; reflexivity. Qed.

Lemma Float64_obj_historico_set_saldo (conta : Float64.objeto_conta) (s : float) :
  Float64.obj_historico (Float64.obj_set_saldo conta s)
    = Float64.obj_historico conta.
Proof. destruct conta; reflexivity. Qed.

Lemma Float64_obj_historico_set_historico (conta : Float64.objeto_conta)
    (h : Float64.Historico.t) :
  Float64.obj_historico (Float64.obj_set_historico conta h) = h.
Proof. destruct conta; reflexivity. Qed.

Lemma Float64_teto_set_saldo (conta : Float64.objeto_conta) (s : float) :
  Float64.teto (Float64.obj_set_saldo conta s) = Float64.teto conta.
Proof. destruct conta; reflexivity. Qed.

Lemma Float64_teto_set_historico (conta : Float64.objeto_conta)
    (h : Float64.Historico.t) :
  Float64.teto (Float64.obj_set_historico conta h) = Float64.teto conta.
Proof. destruct conta; reflexivity. Qed.

(** The account primitive a transaction stands for either refuses and
    leaves the object as it was, or passes the tests on the amount and
    leaves the new balance. *)
Lemma Float64_primitiva_cases (transacao : Float64.Transacao)
    (conta : Float64.objeto_conta) (amb : Ambiente) :
  let res := match transacao with
             | Float64.Saque v => Float64.obj_sacar conta v amb
             | Float64.Deposito v => Float64.obj_depositar conta v amb
             end in
  (fst (fst res) = true
   /\ Float64.valor_aceito transacao conta = true
   /\ snd (fst res)
      = Float64.obj_set_saldo conta (Float64.novo_saldo transacao conta))
  \/ (fst (fst res) = false /\ snd (fst res) = conta).
Proof.
  destruct transacao as [v|v]; simpl.
  - apply Float64_obj_sacar_cases.
  - apply Float64_obj_depositar_cases.
Qed.

(** [registrar]: a refused transaction leaves the object as it was; an
    accepted one leaves the new balance and one more record, read off the
    transaction and the clock. *)
Lemma Float64_registrar_cases (transacao : Float64.Transacao)
    (conta : Float64.objeto_conta) (amb : Ambiente) :
  snd (fst (Float64.registrar transacao conta amb)) = conta
  \/ (Float64.valor_aceito transacao conta = true
      /\ exists quando,
          snd (fst (Float64.registrar transacao conta amb))
          = Float64.obj_set_historico
              (Float64.obj_set_saldo conta (Float64.novo_saldo transacao conta))
              (Float64.Historico.Mk
                 (Float64.Historico.transacoes (Float64.obj_historico conta)
                  ++ [Float64.MkRegistro (Float64.class_name transacao)
                        (Float64.valor transacao) quando]))).
Proof.
  pose proof (Float64_primitiva_cases transacao conta amb) as H.
  destruct transacao as [v|v]; simpl in H |- *;
    unfold Float64.Saque_registrar, Float64.Deposito_registrar, mbind, IO_bind.
  - destruct (Float64.obj_sacar conta v amb) as [[r c] a]. simpl in H.
    destruct H as [(-> & Ha & ->)|[-> ->]]; [right | by left].
    split; [exact Ha|]. eexists.
    unfold Float64.obj_adicionar_transacao, Float64.Historico.adicionar_transacao,
      mbind, IO_bind, mret, IO_ret, utcnow. simpl.
    rewrite Float64_obj_historico_set_saldo. reflexivity.
  - destruct (Float64.obj_depositar conta v amb) as [[r c] a]. simpl in H.
    destruct H as [(-> & Ha & ->)|[-> ->]]; [right | by left].
    split; [exact Ha|]. eexists.
    unfold Float64.obj_adicionar_transacao, Float64.Historico.adicionar_transacao,
      mbind, IO_bind, mret, IO_ret, utcnow. simpl.
    rewrite Float64_obj_historico_set_saldo. reflexivity.
Qed.

Lemma Float64_realizar_transacao_cases (self : Cliente.t)
    (transacao : Float64.Transacao) (conta : Float64.objeto_conta)
    (amb : Ambiente) :
  snd (fst (Float64.realizar_transacao self conta transacao amb)) = conta
  \/ (Float64.valor_aceito transacao conta = true
      /\ exists quando,
          snd (fst (Float64.realizar_transacao self conta transacao amb))
          = Float64.obj_set_historico
              (Float64.obj_set_saldo conta (Float64.novo_saldo transacao conta))
              (Float64.Historico.Mk
                 (Float64.Historico.transacoes (Float64.obj_historico conta)
                  ++ [Float64.MkRegistro (Float64.class_name transacao)
                        (Float64.valor transacao) quando]))).
Proof.
  unfold Float64.realizar_transacao, Float64.Historico.transacoes_do_dia,
    mbind, IO_bind, mret, IO_ret, utcnow, print.
  cbv beta iota zeta.
  destruct (2 <=? _)%nat; [by left|].
  pose proof (Float64_registrar_cases transacao conta (apos_utcnow amb)) as H.
  fold (apos_utcnow amb).
  destruct (Float64.registrar transacao conta (apos_utcnow amb)) as [[r c] a].
  exact H.
Qed.

(** One call on an account: the object is left as it was, or the amount
    passed the tests and the balance is the new one; a call that goes
    through [registrar] then adds one record, a direct call none. *)
Lemma Float64_chamar_efeito (self : Cliente.t) (conta : Float64.objeto_conta)
    (ch : Float64.Chamada) (amb : Ambiente) :
  fst (Float64.chamar self conta ch amb) = conta
  \/ (Float64.valor_aceito (Float64.movimento ch) conta = true
      /\ exists h,
          fst (Float64.chamar self conta ch amb)
          = Float64.obj_set_historico
              (Float64.obj_set_saldo conta
                 (Float64.novo_saldo (Float64.movimento ch) conta)) h
          /\ (Float64.por_transacao ch = true ->
              exists quando,
                h = Float64.Historico.Mk
                      (Float64.Historico.transacoes (Float64.obj_historico conta)
                       ++ [Float64.MkRegistro
                             (Float64.class_name (Float64.movimento ch))
                             (Float64.valor (Float64.movimento ch)) quando]))).
Proof.
  assert (Hid : forall c : Float64.objeto_conta,
             c = Float64.obj_set_historico c (Float64.obj_historico c))
    by (intros [[]|[[] ? ?]]; reflexivity).
  destruct ch as [v|v|t|t]; unfold Float64.chamar, mbind, IO_bind; simpl.
  - pose proof (Float64_obj_sacar_cases conta v amb) as H.
    destruct (Float64.obj_sacar conta v amb) as [[r c] a]. simpl in H |- *.
    destruct H as [(_ & Ha & ->)|[_ ->]]; [right | by left].
    split; [exact Ha|]. eexists. split; [apply Hid | discriminate].
  - pose proof (Float64_obj_depositar_cases conta v amb) as H.
    destruct (Float64.obj_depositar conta v amb) as [[r c] a]. simpl in H |- *.
    destruct H as [(_ & Ha & ->)|[_ ->]]; [right | by left].
    split; [exact Ha|]. eexists. split; [apply Hid | discriminate].
  - pose proof (Float64_registrar_cases t conta amb) as H.
    destruct (Float64.registrar t conta amb) as [[r c] a]. simpl in H |- *.
    destruct H as [->|(Ha & quando & ->)]; [by left | right].
    split; [exact Ha|]. eexists. split; [reflexivity|]. intros _. by exists quando.
  - pose proof (Float64_realizar_transacao_cases self t conta amb) as H.
    destruct (Float64.realizar_transacao self conta t amb) as [[r c] a].
    simpl in H |- *.
    destruct H as [->|(Ha & quando & ->)]; [by left | right].
    split; [exact Ha|]. eexists. split; [reflexivity|]. intros _. by exists quando.
Qed.

(** What every call keeps, every list of calls keeps. *)
Lemma Float64_chamadas_invariante (P : Float64.objeto_conta -> Prop)
    (permitida : Float64.Chamada -> bool) (self : Cliente.t) :
  (forall conta amb ch,
      permitida ch = true -> P conta ->
      P (fst (Float64.chamar self conta ch amb))) ->
  forall chs conta amb,
    forallb permitida chs = true -> P conta ->
    P (fst (Float64.chamadas self conta chs amb)).
Proof.
  intros Hpasso. induction chs as [|ch chs IH]; intros conta amb Hp HP; simpl.
  - exact HP.
  - simpl in Hp. apply andb_true_iff in Hp as [Hch Hp].
    unfold mbind, IO_bind. specialize (Hpasso conta amb ch Hch HP).
    destruct (Float64.chamar self conta ch amb) as [c a]. by apply IH.
Qed.

Lemma Float64_forallb_todas (chs : list Float64.Chamada) :
  forallb (fun _ => true) chs = true.
Proof. induction chs; simpl; auto. Qed.

(** The tests passed, the new balance is not below zero when the old one
    was not. *)
Lemma novo_saldo_nao_negativo (transacao : Float64.Transacao)
    (conta : Float64.objeto_conta) :
  Float64.valor_aceito transacao conta = true ->
  (Float64.obj_saldo conta <? 0)%float = false ->
  (Float64.novo_saldo transacao conta <? 0)%float = false.
Proof.
  destruct transacao as [v|v]; unfold Float64.valor_aceito, Float64.gtb; simpl.
  - intros H H0. apply andb_true_iff in H as [H Hv].
    apply andb_true_iff in H as [_ Hs]. apply negb_true_iff in Hs.
    by apply sub_nao_negativo.
  - intros Hv H0. by apply add_nao_negativo.
Qed.

(** With a balance that is a number not below zero, and a withdrawal that is
    not of [+inf], the new balance is such a number again. *)
Lemma novo_saldo_ge0 (transacao : Float64.Transacao)
    (conta : Float64.objeto_conta) :
  Float64.valor_aceito transacao conta = true ->
  (Float64.teto conta <? infinity)%float = true
  \/ match transacao with
     | Float64.Saque v => (v =? infinity)%float = false
     | Float64.Deposito _ => True
     end ->
  (0 <=? Float64.obj_saldo conta)%float = true ->
  (0 <=? Float64.novo_saldo transacao conta)%float = true.
Proof.
  destruct transacao as [v|v]; unfold Float64.valor_aceito, Float64.gtb; simpl.
  - intros H Hinf H0. apply andb_true_iff in H as [H Hv].
    apply andb_true_iff in H as [Ht Hs].
    apply negb_true_iff in Hs. apply negb_true_iff in Ht.
    apply sub_ge0; [exact Hv | exact Hs | exact H0 |].
    destruct Hinf as [Hl | Hinf]; [by apply (abaixo_do_teto (Float64.teto conta)) | exact Hinf].
  - intros Hv _ H0. by apply add_ge0.
Qed.

Lemma Float64_chamar_nao_negativo (self : Cliente.t)
    (conta : Float64.objeto_conta) (ch : Float64.Chamada) (amb : Ambiente) :
  (Float64.obj_saldo conta <? 0)%float = false ->
  (Float64.obj_saldo (fst (Float64.chamar self conta ch amb)) <? 0)%float = false.
Proof.
  intros H0.
  destruct (Float64_chamar_efeito self conta ch amb) as [-> | (Ha & h & -> & _)];
    [exact H0|].
  rewrite Float64_obj_saldo_set_historico, Float64_obj_saldo_set_saldo.
  by apply novo_saldo_nao_negativo.
Qed.

Lemma Float64_chamar_ge0 (self : Cliente.t) (conta : Float64.objeto_conta)
    (ch : Float64.Chamada) (amb : Ambiente) :
  (Float64.teto conta <? infinity)%float = true
  \/ Float64.sem_saque_infinito ch = true ->
  (0 <=? Float64.obj_saldo conta)%float = true ->
  (0 <=? Float64.obj_saldo (fst (Float64.chamar self conta ch amb)))%float = true
  /\ Float64.teto (fst (Float64.chamar self conta ch amb)) = Float64.teto conta.
Proof.
  intros Hinf H0.
  destruct (Float64_chamar_efeito self conta ch amb) as [-> | (Ha & h & -> & _)];
    [by split|].
  rewrite Float64_obj_saldo_set_historico, Float64_obj_saldo_set_saldo,
    Float64_teto_set_historico, Float64_teto_set_saldo.
  split; [|reflexivity].
  apply novo_saldo_ge0; [exact Ha | | exact H0].
  destruct Hinf as [Hl | Hinf]; [by left | right].
  unfold Float64.sem_saque_infinito in Hinf.
  destruct (Float64.movimento ch) as [v|v]; [|exact I].
  by apply negb_true_iff in Hinf.
Qed.

(** ** Conta.sacar on the amounts of the menu *)

(** C2, as stated, fails for the amounts the menu passes.  NaN is refused
    as an invalid amount though [nan <= 0] is false; and on a balance of
    1e16 a withdrawal of 1 is accepted and leaves 1e16, the float nearest to
    the difference. *)
Lemma Conta_sacar_nan_counterexample :
  (0 <=? Float64.Conta.saldo Float64.conta_cem)%float = true
  /\ (nan <=? 0)%float = false
  /\ Float64.Conta.sacar Float64.conta_cem nan Exemplo.amb_dia1
     = (false, Float64.conta_cem, apos_print Exemplo.amb_dia1 MsgValorInvalido)
  /\ Float64.Conta.sacar (Float64.ContaCorrente.conta Float64.corrente_1e16) 1%float
       Exemplo.amb_dia1
     = (true, Float64.ContaCorrente.conta Float64.corrente_1e16,
        apos_print Exemplo.amb_dia1 MsgSaqueSucesso).
Proof. repeat split. Qed.

(** C2, amended.  [Conta.sacar] on float amounts: an amount above the
    balance is refused as insufficient funds, and this test comes first.  On
    a balance [>= 0] the refusal is for insufficient funds iff
    [valor > saldo], for an invalid amount iff [valor <= 0] or [valor] is
    NaN; any other amount is withdrawn: [True] is returned and the balance
    becomes the float [saldo - valor].  A refused call returns [False] and
    leaves the account as it was. *)
Theorem Conta_sacar_float_contract (self : Float64.Conta.t) (valor : float)
    (amb : Ambiente) :
  let '(r, self', amb') := Float64.Conta.sacar self valor amb in
  ((Float64.Conta.saldo self <? valor)%float = true ->
     r = false /\ self' = self /\ amb' = apos_print amb MsgSaldoInsuficiente)
  /\ ((0 <=? Float64.Conta.saldo self)%float = true ->
      (r = false /\ amb' = apos_print amb MsgSaldoInsuficiente
         <-> (Float64.Conta.saldo self <? valor)%float = true)
      /\ (r = false /\ amb' = apos_print amb MsgValorInvalido
          <-> (valor <=? 0)%float = true \/ is_nan valor = true)
      /\ ((Float64.Conta.saldo self <? valor)%float = false ->
          (valor <=? 0)%float = false -> is_nan valor = false ->
          r = true
          /\ Float64.Conta.saldo self' = (Float64.Conta.saldo self - valor)%float
          /\ self' = Float64.Conta.set_saldo self
                       (Float64.Conta.saldo self - valor)%float
          /\ amb' = apos_print amb MsgSaqueSucesso)
      /\ (r = false
          <-> (Float64.Conta.saldo self <? valor)%float = true
              \/ (valor <=? 0)%float = true \/ is_nan valor = true)
      /\ (r = false -> self' = self)).
Proof.
  rewrite Float64_Conta_sacar_eq.
  destruct (Float64.Conta.saldo self <? valor)%float eqn:Hs;
    [|destruct (0 <? valor)%float eqn:Hp].
  - split; [done|]. intros H0.
    assert (Hv : ~ ((valor <=? 0)%float = true \/ is_nan valor = true)).
    { intros [Hv | Hv].
      - pose proof (leb_zero_leb _ _ Hv H0). congruence.
      - pose proof (ltb_nan_r valor (Float64.Conta.saldo self) Hv). congruence. }
    repeat split; intros; fecha_casos; auto; tauto.
  - split; [done|]. intros H0.
    destruct (gtb_zero_true _ Hp) as [Hv Hn].
    repeat split; intros; fecha_casos; auto; congruence.
  - split; [done|]. intros H0.
    pose proof (proj1 (gtb_zero_false_iff valor) Hp) as Hv.
    repeat split; intros; fecha_casos; auto; try congruence.
Qed.

(** An instance: 30 withdrawn from an account holding 100. *)
Lemma Conta_sacar_float_contract_witness :
  (0 <=? Float64.Conta.saldo Float64.conta_cem)%float = true
  /\ Float64.Conta.sacar Float64.conta_cem 30%float Exemplo.amb_dia1
     = (true, Float64.Conta.set_saldo Float64.conta_cem (100 - 30)%float,
        apos_print Exemplo.amb_dia1 MsgSaqueSucesso).
Proof.
  assert (H0 : (0 <=? Float64.Conta.saldo Float64.conta_cem)%float = true)
    by reflexivity.
  split; [exact H0|].
  pose proof (Conta_sacar_float_contract Float64.conta_cem 30%float Exemplo.amb_dia1)
    as H.
  destruct (Float64.Conta.sacar Float64.conta_cem 30%float Exemplo.amb_dia1)
    as [[r c] a].
  destruct H as [_ H]. destruct (H H0) as (_ & _ & Hok & _).
  assert (H1 : (Float64.Conta.saldo Float64.conta_cem <? 30)%float = false)
    by reflexivity.
  assert (H2 : (30 <=? 0)%float = false) by reflexivity.
  assert (H3 : is_nan 30%float = false) by reflexivity.
  destruct (Hok H1 H2 H3) as (-> & _ & -> & ->). reflexivity.
Defined.

(** ** ContaCorrente.depositar on the amounts of the menu *)

(** C8, as stated, fails for the amounts the menu passes: on a checking
    account holding 1e16 a deposit of 1 is accepted and the balance stays
    1e16; it does not increase. *)
Lemma ContaCorrente_depositar_absorbed_counterexample :
  (0 <? 1)%float = true
  /\ Float64.ContaCorrente.depositar Float64.corrente_1e16 1%float Exemplo.amb_dia1
     = (true, Float64.corrente_1e16,
        apos_print Exemplo.amb_dia1 MsgDepositoSucesso)
  /\ Float64.obj_saldo
       (snd (fst (Float64.obj_depositar
                    (Float64.ObjContaCorrente Float64.corrente_1e16) 1%float
                    Exemplo.amb_dia1)))
     = Float64.obj_saldo (Float64.ObjContaCorrente Float64.corrente_1e16).
Proof. repeat split. Qed.

(** C8, amended.  A checking account does not override [depositar]: every
    amount above zero is accepted, whatever the two ceilings and the
    recorded withdrawals are, and these stay as they were; the balance
    becomes the float [saldo + valor].  The call through the account object
    runs the same method. *)
Theorem ContaCorrente_depositar_float_sum (self : Float64.ContaCorrente.t)
    (valor : float) (amb : Ambiente) :
  (0 <? valor)%float = true ->
  Float64.ContaCorrente.depositar self valor amb
    = (true,
       Float64.ContaCorrente.set_conta self
         (Float64.Conta.set_saldo (Float64.ContaCorrente.conta self)
            (Float64.Conta.saldo (Float64.ContaCorrente.conta self) + valor)%float),
       apos_print amb MsgDepositoSucesso)
  /\ Float64.obj_depositar (Float64.ObjContaCorrente self) valor amb
    = (true,
       Float64.ObjContaCorrente
         (Float64.ContaCorrente.set_conta self
            (Float64.Conta.set_saldo (Float64.ContaCorrente.conta self)
               (Float64.Conta.saldo (Float64.ContaCorrente.conta self)
                + valor)%float)),
       apos_print amb MsgDepositoSucesso)
  /\ Float64.obj_saldo
       (snd (fst (Float64.obj_depositar (Float64.ObjContaCorrente self) valor amb)))
    = (Float64.obj_saldo (Float64.ObjContaCorrente self) + valor)%float.
Proof.
  intros Hv.
  assert (E : Float64.ContaCorrente.depositar self valor amb
              = (true,
                 Float64.ContaCorrente.set_conta self
                   (Float64.Conta.set_saldo (Float64.ContaCorrente.conta self)
                      (Float64.Conta.saldo (Float64.ContaCorrente.conta self)
                       + valor)%float),
                 apos_print amb MsgDepositoSucesso)).
  { rewrite Float64_ContaCorrente_depositar_eq, Float64_Conta_depositar_eq.
    by rewrite Hv. }
  split; [exact E|].
  unfold Float64.obj_depositar, mbind, IO_bind. rewrite E. split; reflexivity.
Qed.

(** An instance: 250 deposited into a checking account holding 1e16. *)
Lemma ContaCorrente_depositar_float_sum_witness :
  (0 <? 250)%float = true
  /\ Float64.obj_saldo
       (snd (fst (Float64.obj_depositar
                    (Float64.ObjContaCorrente Float64.corrente_1e16) 250%float
                    Exemplo.amb_dia1)))
     = (Float64.obj_saldo (Float64.ObjContaCorrente Float64.corrente_1e16)
        + 250)%float.
Proof.
  assert (H0 : (0 <? 250)%float = true) by reflexivity.
  split; [exact H0|].
  apply (ContaCorrente_depositar_float_sum Float64.corrente_1e16 250%float
           Exemplo.amb_dia1 H0).
Defined.

(** ** ContaCorrente *)



(** [corrente_tres_saques] is the account the sample run ends with. *)
Lemma tres_saques_reached :
  Exemplo.tres_saques
    = (ObjContaCorrente Exemplo.corrente_tres_saques,
       MkAmbiente [MsgDepositoSucesso; MsgSaqueSucesso; MsgSaqueSucesso;
                   MsgSaqueSucesso]
                  (relogio Exemplo.amb_tres_dias) 8).
Proof. reflexivity. Qed.




(** ** The primitives seen through the account object *)

Lemma primitiva_eq (transacao : Transacao) (conta : objeto_conta) (amb : Ambiente) :
  let '(r, conta', amb') := primitiva transacao conta amb in
  obj_historico conta' = obj_historico conta
  /\ relogio amb' = relogio amb
  /\ leituras amb' = leituras amb
  /\ (r = false -> conta' = conta).
Proof.
  destruct transacao as [v|v], conta as [c|c]; simpl;
    unfold obj_sacar, obj_depositar, mbind, IO_bind;
    rewrite ?ContaCorrente_sacar_eq, ?ContaCorrente_depositar_eq,
      ?Conta_sacar_eq, ?Conta_depositar_eq;
    repeat match goal with
           | |- context [Qgtb ?x ?y] => destruct (Qgtb x y)
           | |- context [(?x >=? ?y)%Z] => destruct (x >=? y)%Z
           end;
    repeat split; intros; try discriminate; rewrite ?set_conta_id; auto.
Qed.

Lemma registrar_eq (transacao : Transacao) (conta : objeto_conta) (amb : Ambiente) :
  registrar transacao conta amb =
    let '(sucesso, c, a) := primitiva transacao conta amb in
    if sucesso then
      (RNone,
       obj_set_historico c
         (Historico.Mk (Historico.transacoes (obj_historico c) ++
                        [MkRegistro (class_name transacao) (valor transacao)
                           (relogio a (leituras a))])),
       apos_utcnow a)
    else (RNone, c, a).
Proof.
  destruct transacao as [v|v]; simpl;
    unfold Saque_registrar, Deposito_registrar, mbind, IO_bind.
  - destruct (obj_sacar conta v amb) as [[[] c] a]; reflexivity.
  - destruct (obj_depositar conta v amb) as [[[] c] a]; reflexivity.
Qed.

Lemma obj_historico_set (conta : objeto_conta) (h : Historico.t) :
  obj_historico (obj_set_historico conta h) = h.
Proof. destruct conta; reflexivity. Qed.

Lemma obj_saldo_set_historico (conta : objeto_conta) (h : Historico.t) :
  obj_saldo (obj_set_historico conta h) = obj_saldo conta.
Proof. destruct conta; reflexivity. Qed.

Lemma obj_depositar_cases (conta : objeto_conta) (v : Q) (amb : Ambiente) :
  let '(r, conta', amb') := obj_depositar conta v amb in
  (r = true /\ 0 < v /\ obj_saldo conta' = obj_saldo conta + v)
  \/ (r = false /\ conta' = conta).
Proof.
  destruct conta as [c|c]; unfold obj_depositar, mbind, IO_bind;
    rewrite ?ContaCorrente_depositar_eq, ?Conta_depositar_eq;
    destruct (Qgtb_spec v 0);
    rewrite ?set_conta_id; try (right; split; reflexivity);
    left; unfold obj_saldo; simpl; repeat split; auto.
Qed.

(** ** Transacao.registrar *)

(** C6.  [registrar] calls the primitive of its kind on the account.  The
    history grows by exactly one record iff the primitive reports success,
    and that record carries the class name and the amount of the
    transaction; the history is the same as before iff the primitive
    fails, and then the whole account is as it was. *)
Theorem registrar_history_roundtrip (transacao : Transacao) (conta : objeto_conta)
    (amb : Ambiente) :
  let '(sucesso, c1, amb1) := primitiva transacao conta amb in
  let '(_, c2, amb2) := registrar transacao conta amb in
  let antes := Historico.transacoes (obj_historico conta) in
  let depois := Historico.transacoes (obj_historico c2) in
  (sucesso = true <-> exists r, depois = antes ++ [r])
  /\ (sucesso = true ->
      depois = antes ++ [MkRegistro (class_name transacao) (valor transacao)
                           (relogio amb1 (leituras amb1))]
      /\ obj_saldo c2 = obj_saldo c1)
  /\ (sucesso = false <-> depois = antes)
  /\ (sucesso = false -> c2 = conta /\ amb2 = amb1).
Proof.
  rewrite registrar_eq.
  pose proof (primitiva_eq transacao conta amb) as H.
  destruct (primitiva transacao conta amb) as [[sucesso c1] amb1].
  destruct H as (Hh & _ & _ & Hf).
  destruct sucesso; simpl; rewrite ?obj_historico_set, ?Hh.
  - repeat split; intros; try discriminate; eauto using obj_saldo_set_historico.
    exfalso. simpl in H. apply (f_equal length) in H. rewrite length_app in H.
    simpl in H. lia.
  - rewrite (Hf eq_refl). repeat split; intros; try discriminate; auto.
    destruct H as [r H]. apply (f_equal length) in H. rewrite length_app in H.
    simpl in H. lia.
Qed.

(** An instance: a deposit of 1000 into a new account. *)
Lemma registrar_history_roundtrip_witness :
  fst (fst (primitiva (Deposito 1000) (Exemplo.conta_nova 1) Exemplo.amb_dia1)) = true
  /\ Historico.transacoes
       (obj_historico
          (snd (fst (registrar (Deposito 1000) (Exemplo.conta_nova 1)
                       Exemplo.amb_dia1))))
     = [MkRegistro "Deposito" 1000 Exemplo.dia1].
Proof.
  assert (H0 : fst (fst (primitiva (Deposito 1000) (Exemplo.conta_nova 1)
                           Exemplo.amb_dia1)) = true) by reflexivity.
  split; [exact H0|].
  pose proof (registrar_history_roundtrip (Deposito 1000) (Exemplo.conta_nova 1)
                Exemplo.amb_dia1) as H.
  destruct (primitiva (Deposito 1000) (Exemplo.conta_nova 1) Exemplo.amb_dia1)
    as [[sucesso c1] amb1] eqn:E.
  vm_compute in E. injection E as <- <- <-.
  destruct (registrar (Deposito 1000) (Exemplo.conta_nova 1) Exemplo.amb_dia1)
    as [[r c2] amb2].
  cbv zeta in H. destruct H as (_ & H & _).
  destruct (H eq_refl) as [Hd _]. simpl. rewrite Hd. reflexivity.
Defined.

Lemma realizar_transacao_eq (self : Cliente.t) (conta : objeto_conta)
    (transacao : Transacao) (amb : Ambiente) :
  Cliente.realizar_transacao self conta transacao amb =
    if (2 <=? length (registros_de (hoje amb) (obj_historico conta)))%nat then
      (RNone, conta, apos_print (apos_utcnow amb) MsgExcedeuTransacoesDia)
    else
      let '(_, c, a) := registrar transacao conta (apos_utcnow amb) in
      (RNone, c, a).
Proof.
  unfold Cliente.realizar_transacao, Historico.transacoes_do_dia,
    mbind, IO_bind, mret, IO_ret, utcnow.
  cbv beta iota zeta.
  fold (hoje amb). fold (registros_de (hoje amb) (obj_historico conta)).
  fold (apos_utcnow amb).
  destruct (2 <=? length (registros_de (hoje amb) (obj_historico conta)))%nat;
    [reflexivity|].
  destruct (registrar _ _ _) as [[r c] a]. reflexivity.
Qed.

(** C10.  [Cliente.realizar_transacao] and the two [registrar] methods return
    [None] whether the operation was accepted or refused. *)
Theorem entry_points_return_None (self : Cliente.t) (transacao : Transacao)
    (conta : objeto_conta) (amb : Ambiente) :
  fst (fst (Cliente.realizar_transacao self conta transacao amb)) = RNone
  /\ fst (fst (registrar transacao conta amb)) = RNone
  /\ fst (fst (Saque_registrar (valor transacao) conta amb)) = RNone
  /\ fst (fst (Deposito_registrar (valor transacao) conta amb)) = RNone.
Proof.
  assert (R : forall t c a, fst (fst (registrar t c a)) = RNone).
  { intros t c a. rewrite registrar_eq.
    destruct (primitiva t c a) as [[[] c1] a1]; reflexivity. }
  split; [|split; [apply R|split]].
  - rewrite realizar_transacao_eq.
    destruct (2 <=? _)%nat; [reflexivity|].
    destruct (registrar _ _ _) as [[r c] a]. reflexivity.
  - apply (R (Saque (valor transacao))).
  - apply (R (Deposito (valor transacao))).
Qed.

(** ** Cliente.realizar_transacao *)

(** C9.  With two or more records dated today in the history of the account,
    [realizar_transacao] prints the daily-limit line and nothing else,
    whatever the kind and the amount of the transaction, and the account is
    left as it was: no test of the amount, the balance or the ceilings has
    run. *)
Theorem daily_limit_precedes (self : Cliente.t) (conta : objeto_conta)
    (transacao : Transacao) (amb : Ambiente) :
  (2 <= length (registros_de (hoje amb) (obj_historico conta)))%nat ->
  Cliente.realizar_transacao self conta transacao amb
    = (RNone, conta, apos_print (apos_utcnow amb) MsgExcedeuTransacoesDia)
  /\ stdout (snd (Cliente.realizar_transacao self conta transacao amb))
     = stdout amb ++ [MsgExcedeuTransacoesDia].
Proof.
  intros Hn. rewrite realizar_transacao_eq.
  destruct (Nat.leb_spec 2 (length (registros_de (hoje amb) (obj_historico conta))));
    [split; reflexivity | lia].
Qed.

(** An instance: after two operations today, a withdrawal of -5 is refused
    for the daily limit, not for its amount. *)
Lemma daily_limit_precedes_witness :
  (2 <= length (registros_de (hoje (snd Exemplo.dois_hoje))
                  (obj_historico (fst Exemplo.dois_hoje))))%nat
  /\ stdout (snd (Cliente.realizar_transacao Exemplo.cliente (fst Exemplo.dois_hoje)
                    (Saque (-5)) (snd Exemplo.dois_hoje)))
     = [MsgDepositoSucesso; MsgSaqueSucesso; MsgExcedeuTransacoesDia].
Proof.
  assert (H0 : (2 <= length (registros_de (hoje (snd Exemplo.dois_hoje))
                               (obj_historico (fst Exemplo.dois_hoje))))%nat)
    by (vm_compute; lia).
  split; [exact H0|].
  destruct (daily_limit_precedes Exemplo.cliente (fst Exemplo.dois_hoje) (Saque (-5))
              (snd Exemplo.dois_hoje) H0) as [_ ->].
  reflexivity.
Defined.

(** C3, as stated, fails: the customer of [dois_na_conta_1] has completed two
    operations today, on account 1, and holds account 2 as well; the third
    operation of the day, a deposit of 10 into account 2, is accepted. *)
Lemma daily_limit_per_customer_counterexample :
  In 2%nat (Cliente.contas Exemplo.cliente)
  /\ operacoes_do_cliente (fst Exemplo.dois_na_conta_1) Exemplo.cliente
       (hoje (snd Exemplo.dois_na_conta_1)) = 2%nat
  /\ stdout (snd Exemplo.dois_na_conta_1) = [MsgDepositoSucesso; MsgSaqueSucesso]
  /\ fst (fst Exemplo.terceira_na_conta_2) = Some RNone
  /\ stdout (snd Exemplo.terceira_na_conta_2)
     = [MsgDepositoSucesso; MsgSaqueSucesso; MsgDepositoSucesso]
  /\ obj_saldo <$> (fst Exemplo.dois_na_conta_1 !! 2%nat) = Some 0
  /\ obj_saldo <$> (snd (fst Exemplo.terceira_na_conta_2) !! 2%nat) = Some (0 + 10)
  /\ Historico.transacoes ∘ obj_historico
       <$> (snd (fst Exemplo.terceira_na_conta_2) !! 2%nat)
     = Some [MkRegistro "Deposito" 10 Exemplo.dia1].
Proof.
  split; [right; left; reflexivity|].
  repeat split; vm_compute; reflexivity.
Qed.

Lemma registros_de_outro_dia (d : date) (h : Historico.t) :
  (forall r, In r (Historico.transacoes h) -> dt_date (data r) <> d) ->
  length (registros_de d h) = O.
Proof.
  intros Hd. destruct (registros_de d h) as [|r l] eqn:E; [reflexivity|].
  assert (Hr : r ∈ registros_de d h) by (rewrite E; left).
  unfold registros_de in Hr. apply list_elem_of_filter in Hr as [Hr1 Hr2].
  exfalso. apply (Hd r); [by apply list_elem_of_In | done].
Qed.

(** C3, amended.  The daily count is taken from the history of the account
    the operation is made on.  With two or more records dated today in that
    history, [realizar_transacao] prints the daily-limit line and the
    transaction is not run: the store, hence every balance and history, is
    unchanged.  With fewer than two, the outcome is that of
    [transacao.registrar(conta)].  On a date none of the records carries,
    the count is zero. *)
Theorem daily_limit_per_account (banco : gmap nat objeto_conta) (self : Cliente.t)
    (ref : nat) (conta : objeto_conta) (transacao : Transacao) (amb : Ambiente) :
  banco !! ref = Some conta ->
  let n := length (registros_de (hoje amb) (obj_historico conta)) in
  ((2 <= n)%nat ->
     realizar_transacao_em banco self ref transacao amb
       = (Some RNone, banco, apos_print (apos_utcnow amb) MsgExcedeuTransacoesDia))
  /\ ((n < 2)%nat ->
      realizar_transacao_em banco self ref transacao amb
        = let '(_, c, a) := registrar transacao conta (apos_utcnow amb) in
          (Some RNone, <[ref := c]> banco, a))
  /\ ((forall r, In r (Historico.transacoes (obj_historico conta)) ->
                dt_date (data r) <> hoje amb) ->
      n = O).
Proof.
  intros Hb n.
  unfold realizar_transacao_em. rewrite Hb.
  unfold mbind, IO_bind. rewrite realizar_transacao_eq. fold n.
  split; [|split].
  - intros Hn. destruct (Nat.leb_spec 2 n); [|lia].
    unfold mret, IO_ret. by rewrite insert_id.
  - intros Hn. destruct (Nat.leb_spec 2 n); [lia|].
    destruct (registrar _ _ _) as [[r c] a]. reflexivity.
  - intros Hd. subst n. by apply registros_de_outro_dia.
Qed.

(** An instance: the third operation of the day on account 1. *)
Lemma daily_limit_per_account_witness :
  fst Exemplo.dois_na_conta_1 !! 1%nat = Some (fst Exemplo.dois_hoje)
  /\ (2 <= length (registros_de (hoje (snd Exemplo.dois_na_conta_1))
                     (obj_historico (fst Exemplo.dois_hoje))))%nat
  /\ realizar_transacao_em (fst Exemplo.dois_na_conta_1) Exemplo.cliente 1%nat
       (Saque 500) (snd Exemplo.dois_na_conta_1)
     = (Some RNone, fst Exemplo.dois_na_conta_1,
        apos_print (apos_utcnow (snd Exemplo.dois_na_conta_1))
          MsgExcedeuTransacoesDia).
Proof.
  assert (H0 : fst Exemplo.dois_na_conta_1 !! 1%nat = Some (fst Exemplo.dois_hoje))
    by (vm_compute; reflexivity).
  assert (H1 : (2 <= length (registros_de (hoje (snd Exemplo.dois_na_conta_1))
                               (obj_historico (fst Exemplo.dois_hoje))))%nat)
    by (vm_compute; lia).
  split; [exact H0|]. split; [exact H1|].
  destruct (daily_limit_per_account (fst Exemplo.dois_na_conta_1) Exemplo.cliente
              1%nat (fst Exemplo.dois_hoje) (Saque 500)
              (snd Exemplo.dois_na_conta_1) H0) as [H _].
  exact (H H1).
Defined.

(** ** The balance on the amounts of the menu *)

(** C1, as stated, fails for the amounts the menu passes: on a new plain
    account a deposit of [inf] and a withdrawal of [inf] are both accepted,
    and the balance they leave is NaN, of which [>= 0] is false. *)
Lemma saldo_nan_counterexample :
  stdout (snd (Float64.chamadas Exemplo.cliente Float64.conta_simples
                 [Float64.ChDepositar infinity; Float64.ChSacar infinity]
                 Exemplo.amb_dia1))
    = [MsgDepositoSucesso; MsgSaqueSucesso]
  /\ is_nan (Float64.obj_saldo
               (fst (Float64.chamadas Exemplo.cliente Float64.conta_simples
                       [Float64.ChDepositar infinity; Float64.ChSacar infinity]
                       Exemplo.amb_dia1))) = true
  /\ (0 <=? Float64.obj_saldo
              (fst (Float64.chamadas Exemplo.cliente Float64.conta_simples
                      [Float64.ChDepositar infinity; Float64.ChSacar infinity]
                      Exemplo.amb_dia1)))%float = false.
Proof. repeat split. Qed.

(** C1, amended.  From a new account, plain or checking, whose balance is
    0, every finite sequence of calls of [sacar], [depositar], [registrar]
    and [realizar_transacao], with any float amounts, ends with a balance
    that is never below zero: it is [>= 0] or NaN.  It is [>= 0] when no
    call asks for a withdrawal of [inf], and on every checking account whose
    [limite] is below [inf].  [depositar] changes the balance only when the
    amount is above zero, [sacar] only when the amount is above zero and
    within the balance. *)
Theorem saldo_never_below_zero (self : Cliente.t) (cliente : nat) (numero : Z)
    (limite : float) (limite_saques : Z) (chs : list Float64.Chamada)
    (amb : Ambiente) :
  let simples := Float64.ObjConta (Float64.Conta.nova_conta cliente numero) in
  let corrente :=
    Float64.ObjContaCorrente
      (Float64.ContaCorrente.nova_conta cliente numero limite limite_saques) in
  (forall conta, conta = simples \/ conta = corrente ->
     let s := Float64.obj_saldo (fst (Float64.chamadas self conta chs amb)) in
     (s <? 0)%float = false
     /\ ((0 <=? s)%float = true \/ is_nan s = true)
     /\ (forallb Float64.sem_saque_infinito chs = true -> (0 <=? s)%float = true))
  /\ ((limite <? infinity)%float = true ->
      (0 <=? Float64.obj_saldo
               (fst (Float64.chamadas self corrente chs amb)))%float = true)
  /\ (forall conta v a,
        Float64.obj_saldo (snd (fst (Float64.obj_depositar conta v a)))
          <> Float64.obj_saldo conta ->
        (0 <? v)%float = true)
  /\ (forall conta v a,
        Float64.obj_saldo (snd (fst (Float64.obj_sacar conta v a)))
          <> Float64.obj_saldo conta ->
        (0 <? v)%float = true /\ (v <=? Float64.obj_saldo conta)%float = true).
Proof.
  intros simples corrente.
  assert (Hfraco : forall conta,
             (Float64.obj_saldo conta <? 0)%float = false ->
             (Float64.obj_saldo (fst (Float64.chamadas self conta chs amb))
              <? 0)%float = false).
  { intros conta H0.
    apply (Float64_chamadas_invariante
             (fun c => (Float64.obj_saldo c <? 0)%float = false)
             (fun _ => true) self);
      [|apply Float64_forallb_todas|exact H0].
    intros c a ch _. apply Float64_chamar_nao_negativo. }
  assert (Hforte : forall conta (permitida : Float64.Chamada -> bool),
             (forall ch, permitida ch = true ->
                (Float64.teto conta <? infinity)%float = true
                \/ Float64.sem_saque_infinito ch = true) ->
             forallb permitida chs = true ->
             (0 <=? Float64.obj_saldo conta)%float = true ->
             (0 <=? Float64.obj_saldo
                      (fst (Float64.chamadas self conta chs amb)))%float = true).
  { intros conta permitida Hperm Hp H0.
    apply (Float64_chamadas_invariante
             (fun c => (0 <=? Float64.obj_saldo c)%float = true
                       /\ Float64.teto c = Float64.teto conta)
             permitida self); [|exact Hp|by split].
    intros c a ch Hch [Hc Ht].
    destruct (Float64_chamar_ge0 self c ch a) as [H1 H2];
      [rewrite Ht; by apply Hperm | exact Hc |].
    split; [exact H1 | congruence]. }
  split; [|split; [|split]].
  - intros conta Hconta s.
    assert (H0 : (Float64.obj_saldo conta <? 0)%float = false)
      by (destruct Hconta as [-> | ->]; reflexivity).
    assert (H1 : (0 <=? Float64.obj_saldo conta)%float = true)
      by (destruct Hconta as [-> | ->]; reflexivity).
    split; [by apply Hfraco|].
    split; [apply ltb_zero_false_iff; by apply Hfraco|].
    intros Hp. apply (Hforte conta Float64.sem_saque_infinito); auto.
  - intros Hl. apply (Hforte corrente (fun _ => true));
      [intros; by left | apply Float64_forallb_todas | reflexivity].
  - intros conta v a.
    destruct (Float64_obj_depositar_cases conta v a) as [(_ & Ha & ->)|[_ ->]];
      [intros _; exact Ha | intros Hne; by destruct Hne].
  - intros conta v a.
    destruct (Float64_obj_sacar_cases conta v a) as [(_ & Ha & ->)|[_ ->]];
      [|intros Hne; by destruct Hne].
    rewrite Float64_obj_saldo_set_saldo. intros Hne.
    unfold Float64.valor_aceito, Float64.gtb in Ha.
    apply andb_true_iff in Ha as [Ha Hv]. apply andb_true_iff in Ha as [_ Hs].
    apply negb_true_iff in Hs. split; [exact Hv|].
    destruct (nao_acima_leb _ _ Hv Hs) as [Hle | Hnan]; [exact Hle|].
    destruct Hne. by apply sub_nan.
Qed.

(** Instances: the scenario of the specification on a checking account of
    the program, and a run with refused calls on a plain account. *)
Lemma saldo_never_below_zero_witness :
  (500 <? infinity)%float = true
  /\ (0 <=? Float64.obj_saldo
              (fst (Float64.chamadas Exemplo.cliente
                      (Float64.ObjContaCorrente
                         (Float64.ContaCorrente.nova_conta 0 1 500%float 50))
                      [Float64.ChRealizar (Float64.Deposito 1000%float);
                       Float64.ChRealizar (Float64.Saque 500%float)]
                      Exemplo.amb_dia1)))%float = true.
Proof.
  assert (H0 : (500 <? infinity)%float = true) by reflexivity.
  split; [exact H0|].
  apply (saldo_never_below_zero Exemplo.cliente 0 1 500%float 50
           [Float64.ChRealizar (Float64.Deposito 1000%float);
            Float64.ChRealizar (Float64.Saque 500%float)] Exemplo.amb_dia1).
  exact H0.
Defined.

(** ** The scenario of the specification *)

(** New checking account; deposit 1000; withdraw 500; the third operation of
    the day, another withdrawal of 500, is refused for the daily limit. *)
Example cenario_tres_operacoes :
  let '(conta, amb) :=
    chamadas Exemplo.cliente (Exemplo.conta_nova 1)
      [ChRealizar (Deposito 1000); ChRealizar (Saque 500); ChRealizar (Saque 500)]
      Exemplo.amb_dia1 in
  obj_saldo conta = 0 + 1000 - 500
  /\ length (Historico.transacoes (obj_historico conta)) = 2%nat
  /\ stdout amb = [MsgDepositoSucesso; MsgSaqueSucesso; MsgExcedeuTransacoesDia].
Proof. vm_compute. repeat split. Qed.

(** With [limite] = 500, a withdrawal of 500.01 is refused for its amount
    although the balance covers it. *)
Example saque_acima_do_limite :
  ContaCorrente.sacar Exemplo.corrente_mil 500.01 Exemplo.amb_dia1
    = (false, Exemplo.corrente_mil, apos_print Exemplo.amb_dia1 MsgExcedeLimite).
Proof. reflexivity. Qed.

(** The scenario on the amounts the menu passes. *)
Example cenario_tres_operacoes_float :
  let '(conta, amb) :=
    Float64.chamadas Exemplo.cliente (Float64.conta_nova 1)
      [Float64.ChRealizar (Float64.Deposito 1000%float);
       Float64.ChRealizar (Float64.Saque 500%float);
       Float64.ChRealizar (Float64.Saque 500%float)]
      Exemplo.amb_dia1 in
  Float64.obj_saldo conta = 500%float
  /\ length (Float64.Historico.transacoes (Float64.obj_historico conta)) = 2%nat
  /\ stdout amb = [MsgDepositoSucesso; MsgSaqueSucesso; MsgExcedeuTransacoesDia].
Proof. vm_compute. repeat split. Qed.

(** ** Reports *)

Lemma is_upper_iff (c : ascii) :
  is_upper c = true <-> (65 <= N_of_ascii c <= 90)%N.
Proof.
  unfold is_upper. rewrite andb_true_iff, !N.leb_le. reflexivity.
Qed.

Lemma N_of_ascii_inj (a b : ascii) : N_of_ascii a = N_of_ascii b -> a = b.
Proof.
  intros H. rewrite <- (ascii_N_embedding a), <- (ascii_N_embedding b).
  by rewrite H.
Qed.

Lemma N_of_lower_ascii (c : ascii) :
  N_of_ascii (lower_ascii c)
    = if is_upper c then (N_of_ascii c + 32)%N else N_of_ascii c.
Proof.
  unfold lower_ascii. destruct (is_upper c) eqn:E; [|reflexivity].
  apply is_upper_iff in E. apply N_ascii_embedding. lia.
Qed.

Lemma lower_ascii_eq_iff (a b : ascii) :
  lower_ascii a = lower_ascii b <-> mesma_letra a b.
Proof.
  unfold mesma_letra. split.
  - intros H. apply (f_equal N_of_ascii) in H. rewrite !N_of_lower_ascii in H.
    destruct (is_upper a) eqn:Ea, (is_upper b) eqn:Eb.
    + left. apply N_of_ascii_inj. lia.
    + right; left. by split.
    + right; right. by split.
    + left. by apply N_of_ascii_inj.
  - intros [->|[[Ha Hb]|[Hb Ha]]]; [reflexivity| |];
      apply N_of_ascii_inj; rewrite !N_of_lower_ascii.
    + rewrite Ha. apply is_upper_iff in Ha.
      destruct (is_upper b) eqn:Eb; [apply is_upper_iff in Eb; lia | by rewrite Hb].
    + rewrite Hb. apply is_upper_iff in Hb.
      destruct (is_upper a) eqn:Ea; [apply is_upper_iff in Ea; lia | by rewrite Ha].
Qed.

Lemma lower_eq_iff (s1 : string) :
  forall s2, lower s1 = lower s2 <-> igual_sem_caixa s1 s2.
Proof.
  induction s1 as [|a s1 IH]; intros [|b s2]; simpl; try (split; [discriminate|tauto]).
  - tauto.
  - rewrite <- IH, <- lower_ascii_eq_iff. split.
    + intros H. injection H as H1 H2. by split.
    + intros [-> ->]. reflexivity.
Qed.

Lemma passa_selecionados (tf : option string) (self : Historico.t) :
  filter (fun transacao => Relatorio.passa tf transacao = true)
         (Historico.transacoes self)
    = selecionados tf self.
Proof.
  destruct tf as [f|]; simpl.
  - apply list_filter_iff. intros r.
    rewrite bool_decide_eq_true. apply lower_eq_iff.
  - induction (Historico.transacoes self) as [|r l IH]; [reflexivity|].
    rewrite filter_cons_True by reflexivity. by rewrite IH.
Qed.

(** The loop up to the next [yield] skips records the filter rejects and
    stops on the first one it lets through. *)
Lemma ate_yield_filter (tf : option string) (resto : list Registro) :
  forall i,
    match Relatorio.ate_yield tf resto i with
    | None => filter (fun r => Relatorio.passa tf r = true) resto = []
    | Some (r, j) =>
        exists n, j = (i + S n)%nat
                  /\ filter (fun r => Relatorio.passa tf r = true) resto
                     = r :: filter (fun r => Relatorio.passa tf r = true)
                                   (drop (S n) resto)
    end.
Proof.
  induction resto as [|x resto IH]; intros i; simpl; [reflexivity|].
  destruct (Relatorio.passa tf x) eqn:E.
  - exists O. split; [lia|]. rewrite filter_cons_True by done. by rewrite drop_0.
  - specialize (IH (S i)).
    destruct (Relatorio.ate_yield tf resto (S i)) as [[r j]|].
    + destruct IH as (n & -> & IH). exists (S n). split; [lia|].
      rewrite filter_cons_False by congruence. exact IH.
    + rewrite filter_cons_False by congruence. exact IH.
Qed.

Section Gerador.

Variable self : Historico.t.

(** One call of [next]: the head of what remains is yielded and the tail
    remains; with nothing left, [StopIteration]. *)
Lemma next_restantes (g : Relatorio.t) :
  match restantes g self with
  | [] => fst (Relatorio.next g self) = None
          /\ restantes (snd (Relatorio.next g self)) self = []
  | r :: l => fst (Relatorio.next g self) = Some r
              /\ restantes (snd (Relatorio.next g self)) self = l
  end.
Proof.
  unfold restantes, Relatorio.next. destruct g as [tf i [|]]; simpl; [done|].
  pose proof (ate_yield_filter tf (drop i (Historico.transacoes self)) i) as H.
  destruct (Relatorio.ate_yield tf (drop i (Historico.transacoes self)) i)
    as [[r j]|]; simpl.
  - destruct H as (n & -> & ->). split; [reflexivity|]. by rewrite drop_drop.
  - rewrite H. done.
Qed.

(** Iterating a generator to its end takes one call of [next] more than it
    has records left, and collects exactly these. *)
Lemma consumir_restantes (fuel : nat) :
  forall g, (length (restantes g self) < fuel)%nat ->
            exists g', Relatorio.consumir fuel g self = Some (restantes g self, g').
Proof.
  induction fuel as [|fuel IH]; intros g Hlen; [lia|]. simpl.
  pose proof (next_restantes g) as H.
  destruct (Relatorio.next g self) as [[r|] g1]; simpl in H.
  - destruct (restantes g self) as [|r' l]; [by destruct H|].
    destruct H as [[= ->] Hl]. simpl in Hlen.
    destruct (IH g1) as [g' Hg']; [rewrite Hl; lia|].
    rewrite Hg', Hl. by exists g'.
  - destruct (restantes g self) as [|r' l]; [by exists g1 | by destruct H].
Qed.

Lemma avancar_restantes (k : nat) :
  forall g, restantes (Relatorio.avancar k g self) self = drop k (restantes g self).
Proof.
  induction k as [|k IH]; intros g; simpl; [by rewrite drop_0|].
  rewrite IH. pose proof (next_restantes g) as H.
  destruct (restantes g self) as [|r l]; destruct H as [_ ->];
    [by rewrite drop_nil | reflexivity].
Qed.

Lemma restantes_length (g : Relatorio.t) :
  (length (restantes g self) <= length (Historico.transacoes self))%nat.
Proof.
  unfold restantes. destruct (Relatorio.esgotado g); simpl; [lia|].
  etransitivity; [apply length_filter|]. rewrite length_drop. lia.
Qed.

End Gerador.

(** C7.  Iterating the generator of [gerar_relatorio] ends, and yields, in the
    order of the list, every record when no filter is given, and with a
    filter exactly the records whose kind equals it up to case.  A generator
    that has already yielded [k] records goes on with the rest, and another
    call of [gerar_relatorio] starts again from the first record. *)
Theorem gerar_relatorio_report (self : Historico.t) (tf : option string)
    (k fuel : nat) :
  (length (Historico.transacoes self) < fuel)%nat ->
  (exists g, Relatorio.consumir fuel (gerar_relatorio self tf) self
             = Some (selecionados tf self, g))
  /\ (exists g, Relatorio.consumir fuel
                  (Relatorio.avancar k (gerar_relatorio self tf) self) self
                = Some (drop k (selecionados tf self), g))
  /\ selecionados None self = Historico.transacoes self
  /\ (forall f r, In r (selecionados (Some f) self)
                  <-> In r (Historico.transacoes self)
                      /\ igual_sem_caixa (tipo r) f).
Proof.
  intros Hfuel.
  assert (R : restantes (gerar_relatorio self tf) self = selecionados tf self).
  { unfold restantes, gerar_relatorio. simpl. rewrite drop_0.
    apply passa_selecionados. }
  split; [|split; [|split]].
  - rewrite <- R. apply consumir_restantes.
    pose proof (restantes_length self (gerar_relatorio self tf)). lia.
  - rewrite <- R, <- avancar_restantes. apply consumir_restantes.
    pose proof (restantes_length self
                  (Relatorio.avancar k (gerar_relatorio self tf) self)). lia.
  - reflexivity.
  - intros f r. simpl. rewrite <- !list_elem_of_In, list_elem_of_filter. tauto.
Qed.

(** An instance: the withdrawals of [historico_tres_saques], asked for in
    capitals. *)
Lemma gerar_relatorio_report_witness :
  (length (Historico.transacoes Exemplo.historico_tres_saques) < 5)%nat
  /\ (exists g, Relatorio.consumir 5
                  (gerar_relatorio Exemplo.historico_tres_saques (Some "SAQUE"%string))
                  Exemplo.historico_tres_saques
                = Some ([MkRegistro "Saque" 100 Exemplo.dia1;
                         MkRegistro "Saque" 100 Exemplo.dia2;
                         MkRegistro "Saque" 100 Exemplo.dia2], g)).
Proof.
  assert (H0 : (length (Historico.transacoes Exemplo.historico_tres_saques) < 5)%nat)
    by (vm_compute; lia).
  split; [exact H0|].
  destruct (gerar_relatorio_report Exemplo.historico_tres_saques
              (Some "SAQUE"%string) 0 5 H0) as [[g Hg] _].
  exists g. rewrite Hg. reflexivity.
Defined.

(** * Further properties *)

(** ** What one call does to an account *)

Lemma primitiva_limites (transacao : Transacao) (conta : objeto_conta)
    (amb : Ambiente) :
  limites (snd (fst (primitiva transacao conta amb))) = limites conta.
Proof.
  destruct transacao as [v|v], conta as [c|c]; simpl;
    unfold obj_sacar, obj_depositar, mbind, IO_bind;
    rewrite ?ContaCorrente_sacar_eq, ?ContaCorrente_depositar_eq,
      ?Conta_sacar_eq, ?Conta_depositar_eq;
    repeat match goal with
           | |- context [Qgtb ?x ?y] => destruct (Qgtb x y)
           | |- context [(?x >=? ?y)%Z] => destruct (x >=? y)%Z
           end;
    reflexivity.
Qed.

(** An accepted withdrawal is above zero, within the balance and, on a
    checking account, within both ceilings. *)
Lemma obj_sacar_aceito (conta : objeto_conta) (v : Q) (amb : Ambiente) :
  fst (fst (obj_sacar conta v amb)) = true ->
  0 < v /\ v <= obj_saldo conta
  /\ obj_saldo (snd (fst (obj_sacar conta v amb))) = obj_saldo conta - v
  /\ (forall l ls, limites conta = Some (l, ls) ->
        v <= l /\ (Z.of_nat (numero_saques (obj_historico conta)) < ls)%Z).
Proof.
  destruct conta as [c|c]; unfold obj_sacar, mbind, IO_bind;
    rewrite ?ContaCorrente_sacar_eq, ?Conta_sacar_eq.
  - destruct (Qgtb_spec v (Conta.saldo c)); [discriminate|].
    destruct (Qgtb_spec v 0); [|discriminate].
    intros _. unfold obj_saldo. simpl.
    split; [lra|]. split; [lra|]. split; [reflexivity|]. discriminate.
  - destruct (Qgtb_spec v (ContaCorrente.limite c)); [discriminate|].
    unfold obj_historico. simpl.
    destruct (Z.geb_spec
                (Z.of_nat (numero_saques (Conta.historico (ContaCorrente.conta c))))
                (ContaCorrente.limite_saques c)); [discriminate|].
    destruct (Qgtb_spec v (Conta.saldo (ContaCorrente.conta c))); [discriminate|].
    destruct (Qgtb_spec v 0); [|discriminate].
    intros _. unfold obj_saldo. simpl.
    split; [lra|]. split; [lra|]. split; [reflexivity|].
    intros l ls [= <- <-]. split; [lra | lia].
Qed.

Lemma obj_depositar_aceito (conta : objeto_conta) (v : Q) (amb : Ambiente) :
  fst (fst (obj_depositar conta v amb)) = true ->
  0 < v
  /\ obj_saldo (snd (fst (obj_depositar conta v amb))) = obj_saldo conta + v.
Proof.
  pose proof (obj_depositar_cases conta v amb) as H.
  destruct (obj_depositar conta v amb) as [[r c] a]. simpl. intros ->.
  destruct H as [(_ & ? & ?)|[? _]]; [by split | discriminate].
Qed.

Lemma limites_set_historico (conta : objeto_conta) (h : Historico.t) :
  limites (obj_set_historico conta h) = limites conta.
Proof. destruct conta; reflexivity. Qed.

Lemma registrar_efeito (transacao : Transacao) (conta : objeto_conta)
    (amb : Ambiente) :
  let '(_, c2, amb2) := registrar transacao conta amb in
  limites c2 = limites conta
  /\ relogio amb2 = relogio amb
  /\ ((c2 = conta /\ leituras amb2 = leituras amb)
      \/ (aceita transacao conta (relogio amb (leituras amb)) c2
          /\ leituras amb2 = S (leituras amb))).
Proof.
  rewrite registrar_eq.
  pose proof (primitiva_eq transacao conta amb) as H.
  pose proof (primitiva_limites transacao conta amb) as Hl.
  assert (Ha : fst (fst (primitiva transacao conta amb)) = true ->
               0 < valor transacao
               /\ obj_saldo (snd (fst (primitiva transacao conta amb)))
                  = match transacao with
                    | Saque v => obj_saldo conta - v
                    | Deposito v => obj_saldo conta + v
                    end
               /\ match transacao with
                  | Saque v =>
                      v <= obj_saldo conta
                      /\ (forall l ls, limites conta = Some (l, ls) ->
                            v <= l
                            /\ (Z.of_nat (numero_saques (obj_historico conta)) < ls)%Z)
                  | Deposito _ => True
                  end).
  { destruct transacao as [v|v]; simpl; intros Hr.
    - destruct (obj_sacar_aceito conta v amb Hr) as (? & ? & ? & ?). auto.
    - destruct (obj_depositar_aceito conta v amb Hr) as (? & ?). auto. }
  destruct (primitiva transacao conta amb) as [[sucesso c1] a1].
  simpl in Hl, Ha. destruct H as (Hh & Hr & Hn & Hf).
  destruct sucesso.
  - rewrite limites_set_historico. split; [exact Hl|]. split; [exact Hr|].
    right. split; [|simpl; by rewrite Hn].
    destruct (Ha eq_refl) as (Hv & Hs & Hc).
    unfold aceita. rewrite obj_historico_set, obj_saldo_set_historico, Hh, Hr, Hn.
    auto.
  - split; [exact Hl|]. split; [exact Hr|]. left. split; [by apply Hf | exact Hn].
Qed.

Lemma realizar_transacao_efeito (self : Cliente.t) (conta : objeto_conta)
    (transacao : Transacao) (amb : Ambiente) :
  let '(_, c2, amb2) := Cliente.realizar_transacao self conta transacao amb in
  limites c2 = limites conta
  /\ relogio amb2 = relogio amb
  /\ ((c2 = conta /\ leituras amb2 = S (leituras amb))
      \/ ((length (registros_de (hoje amb) (obj_historico conta)) < 2)%nat
          /\ aceita transacao conta (relogio amb (S (leituras amb))) c2
          /\ leituras amb2 = S (S (leituras amb)))).
Proof.
  rewrite realizar_transacao_eq.
  destruct (Nat.leb_spec 2 (length (registros_de (hoje amb) (obj_historico conta))))
    as [Hn|Hn].
  - split; [reflexivity|]. split; [reflexivity|]. left. by split.
  - pose proof (registrar_efeito transacao conta (apos_utcnow amb)) as H.
    destruct (registrar transacao conta (apos_utcnow amb)) as [[r c2] amb2].
    destruct H as (Hl & Hr & H). split; [exact Hl|]. split; [exact Hr|].
    destruct H as [[-> Hk]|[Ha Hk]];
      [left; split; [reflexivity | exact Hk]
      |right; split; [exact Hn|]; split; [exact Ha | exact Hk]].
Qed.

(** One call either leaves the history as it is or is an accepted
    transaction; a call through [registrar] that records nothing leaves the
    whole account as it is. *)
Lemma chamar_efeito (self : Cliente.t) (conta : objeto_conta) (ch : Chamada)
    (amb : Ambiente) :
  let '(c2, amb2) := chamar self conta ch amb in
  limites c2 = limites conta
  /\ relogio amb2 = relogio amb
  /\ (leituras amb <= leituras amb2)%nat
  /\ ((obj_historico c2 = obj_historico conta
       /\ (por_transacao ch = true -> c2 = conta))
      \/ exists t quando,
           (ch = ChRegistrar t \/ ch = ChRealizar t) /\ aceita t conta quando c2).
Proof.
  destruct ch as [v|v|t|t]; unfold chamar, mbind, IO_bind.
  - pose proof (primitiva_eq (Saque v) conta amb) as H.
    pose proof (primitiva_limites (Saque v) conta amb) as Hl. simpl in H, Hl.
    destruct (obj_sacar conta v amb) as [[r c2] amb2].
    destruct H as (Hh & Hr & Hn & _). simpl.
    repeat split; auto; [lia|]. left. split; [exact Hh | discriminate].
  - pose proof (primitiva_eq (Deposito v) conta amb) as H.
    pose proof (primitiva_limites (Deposito v) conta amb) as Hl. simpl in H, Hl.
    destruct (obj_depositar conta v amb) as [[r c2] amb2].
    destruct H as (Hh & Hr & Hn & _). simpl.
    repeat split; auto; [lia|]. left. split; [exact Hh | discriminate].
  - pose proof (registrar_efeito t conta amb) as H.
    destruct (registrar t conta amb) as [[r c2] amb2].
    destruct H as (Hl & Hr & [[-> Hn]|[Ha Hn]]); simpl;
      (split; [exact Hl|]; split; [exact Hr|]; split; [lia|]).
    + by left.
    + right. eauto.
  - pose proof (realizar_transacao_efeito self conta t amb) as H.
    destruct (Cliente.realizar_transacao self conta t amb) as [[r c2] amb2].
    destruct H as (Hl & Hr & [[-> Hn]|(_ & Ha & Hn)]); simpl;
      (split; [exact Hl|]; split; [exact Hr|]; split; [lia|]).
    + by left.
    + right. eauto.
Qed.

(** A property kept by every allowed call holds after any list of them. *)
Lemma chamadas_invariante (P : objeto_conta -> Ambiente -> Prop)
    (permitida : Chamada -> bool) (self : Cliente.t) :
  (forall conta amb ch,
      permitida ch = true -> P conta amb ->
      P (fst (chamar self conta ch amb)) (snd (chamar self conta ch amb))) ->
  forall chs conta amb,
    forallb permitida chs = true -> P conta amb ->
    P (fst (chamadas self conta chs amb)) (snd (chamadas self conta chs amb)).
Proof.
  intros Hpasso. induction chs as [|ch chs IH]; intros conta amb Hp HP; simpl.
  - exact HP.
  - simpl in Hp. apply andb_true_iff in Hp as [Hch Hp].
    unfold mbind, IO_bind. specialize (Hpasso conta amb ch Hch HP).
    destruct (chamar self conta ch amb) as [c a]. by apply IH.
Qed.

Lemma forallb_todas (chs : list Chamada) : forallb (fun _ => true) chs = true.
Proof. induction chs; simpl; auto. Qed.

(** ** Conta.depositar on the amounts of the menu *)

(** X1.  [depositar], on a plain or a checking account, returns [True] iff
    the float amount is above zero.  The balance is then the float
    [saldo + valor], and neither the history nor the ceilings are touched;
    any other amount, zero, negative or NaN, is refused as invalid and the
    account is left as it was. *)
Theorem depositar_float_contract (conta : Float64.objeto_conta) (v : float)
    (amb : Ambiente) :
  let '(r, c2, amb2) := Float64.obj_depositar conta v amb in
  (r = true <-> (0 <? v)%float = true)
  /\ ((0 <? v)%float = true ->
      c2 = Float64.obj_set_saldo conta (Float64.obj_saldo conta + v)%float
      /\ Float64.obj_saldo c2 = (Float64.obj_saldo conta + v)%float
      /\ Float64.obj_historico c2 = Float64.obj_historico conta
      /\ Float64.teto c2 = Float64.teto conta
      /\ amb2 = apos_print amb MsgDepositoSucesso)
  /\ ((v <=? 0)%float = true \/ is_nan v = true ->
      r = false /\ c2 = conta /\ amb2 = apos_print amb MsgValorInvalido).
Proof.
  pose proof (gtb_zero_false_iff v) as Hiff.
  destruct conta as [c|c]; unfold Float64.obj_depositar, mbind, IO_bind;
    rewrite ?Float64_ContaCorrente_depositar_eq, ?Float64_Conta_depositar_eq;
    destruct (0 <? v)%float eqn:Hv; simpl; rewrite ?Float64_set_conta_id;
    repeat split; intros; try discriminate; try reflexivity;
    try (apply Hiff in H; discriminate).
Qed.

(** An instance: 20 deposited into a new checking account. *)
Lemma depositar_float_contract_witness :
  (0 <? 20)%float = true
  /\ Float64.obj_saldo
       (snd (fst (Float64.obj_depositar (Float64.conta_nova 1) 20%float
                    Exemplo.amb_dia1)))
     = (Float64.obj_saldo (Float64.conta_nova 1) + 20)%float.
Proof.
  assert (H0 : (0 <? 20)%float = true) by reflexivity.
  split; [exact H0|].
  pose proof (depositar_float_contract (Float64.conta_nova 1) 20%float
                Exemplo.amb_dia1) as H.
  destruct (Float64.obj_depositar (Float64.conta_nova 1) 20%float Exemplo.amb_dia1)
    as [[r c2] amb2].
  destruct H as (_ & H & _). destruct (H H0) as (_ & Hs & _). exact Hs.
Defined.

(** ** The history as a ledger, on the amounts of the menu *)

Lemma Float64_saldo_do_historico_snoc (l : list Float64.Registro)
    (r : Float64.Registro) :
  Float64.saldo_do_historico (l ++ [r])
    = if decide (Float64.tipo r = "Saque"%string)
      then (Float64.saldo_do_historico l - Float64.reg_valor r)%float
      else (Float64.saldo_do_historico l + Float64.reg_valor r)%float.
Proof. unfold Float64.saldo_do_historico. by rewrite fold_left_app. Qed.

(** X2.  On an account whose balance is what its records give when
    replayed from 0 in the order they were recorded, with the float addition
    and subtraction of the program, and a new account is one, every list of
    calls that go through [registrar] or [realizar_transacao] ends with a
    balance that is again what the records give when replayed. *)
Theorem saldo_repete_historico (self : Cliente.t) (conta : Float64.objeto_conta)
    (chs : list Float64.Chamada) (amb : Ambiente) :
  forallb Float64.por_transacao chs = true ->
  Float64.obj_saldo conta
    = Float64.saldo_do_historico
        (Float64.Historico.transacoes (Float64.obj_historico conta)) ->
  Float64.obj_saldo (fst (Float64.chamadas self conta chs amb))
    = Float64.saldo_do_historico
        (Float64.Historico.transacoes
           (Float64.obj_historico (fst (Float64.chamadas self conta chs amb)))).
Proof.
  intros Hp H0.
  apply (Float64_chamadas_invariante
           (fun c => Float64.obj_saldo c
                     = Float64.saldo_do_historico
                         (Float64.Historico.transacoes (Float64.obj_historico c)))
           Float64.por_transacao self); [|exact Hp|exact H0].
  clear. intros conta amb ch Hch HP.
  destruct (Float64_chamar_efeito self conta ch amb) as [-> | (_ & h & -> & Hh)];
    [exact HP|].
  destruct (Hh Hch) as [quando ->].
  rewrite Float64_obj_saldo_set_historico, Float64_obj_saldo_set_saldo,
    Float64_obj_historico_set_historico.
  cbn [Float64.Historico.transacoes].
  rewrite Float64_saldo_do_historico_snoc. simpl. rewrite <- HP.
  by destruct (Float64.movimento ch) as [v|v].
Qed.

(** An instance: 1e16 and then 1 deposited into a new checking account; the
    balance and the replay of the two records are both 1e16. *)
Lemma saldo_repete_historico_witness :
  forallb Float64.por_transacao
    [Float64.ChRealizar (Float64.Deposito 1e16%float);
     Float64.ChRealizar (Float64.Deposito 1%float)] = true
  /\ Float64.obj_saldo (Float64.conta_nova 1)
     = Float64.saldo_do_historico
         (Float64.Historico.transacoes
            (Float64.obj_historico (Float64.conta_nova 1)))
  /\ Float64.obj_saldo
       (fst (Float64.chamadas Exemplo.cliente (Float64.conta_nova 1)
               [Float64.ChRealizar (Float64.Deposito 1e16%float);
                Float64.ChRealizar (Float64.Deposito 1%float)]
               Exemplo.amb_dia1))
     = Float64.saldo_do_historico
         (Float64.Historico.transacoes
            (Float64.obj_historico
               (fst (Float64.chamadas Exemplo.cliente (Float64.conta_nova 1)
                       [Float64.ChRealizar (Float64.Deposito 1e16%float);
                        Float64.ChRealizar (Float64.Deposito 1%float)]
                       Exemplo.amb_dia1)))).
Proof.
  split; [reflexivity|]. split; [reflexivity|].
  apply (saldo_repete_historico Exemplo.cliente (Float64.conta_nova 1)
           [Float64.ChRealizar (Float64.Deposito 1e16%float);
            Float64.ChRealizar (Float64.Deposito 1%float)] Exemplo.amb_dia1);
    reflexivity.
Defined.

(** ** The history over a run *)

(** X3.  No call removes or changes a record: after any list of calls the
    history begins with the records it had before, in the same order. *)
Theorem historico_so_cresce (self : Cliente.t) (conta : objeto_conta)
    (chs : list Chamada) (amb : Ambiente) :
  Historico.transacoes (obj_historico conta)
    `prefix_of` Historico.transacoes
                  (obj_historico (fst (chamadas self conta chs amb))).
Proof.
  apply (chamadas_invariante
           (fun c _ => Historico.transacoes (obj_historico conta)
                         `prefix_of` Historico.transacoes (obj_historico c))
           (fun _ => true) self); [|apply forallb_todas|reflexivity].
  clear. intros c amb ch _ HP.
  pose proof (chamar_efeito self c ch amb) as H.
  destruct (chamar self c ch amb) as [c2 amb2]. simpl.
  destruct H as (_ & _ & _ & [[-> _]|(t & quando & _ & Ha)]); [exact HP|].
  destruct Ha as (_ & -> & _). by apply prefix_app_r.
Qed.



(** ** The ceilings over a run *)

Lemma numero_saques_snoc (h h2 : Historico.t) (r : Registro) :
  Historico.transacoes h2 = Historico.transacoes h ++ [r] ->
  numero_saques h2
    = (numero_saques h + if decide (tipo r = "Saque"%string) then 1 else 0)%nat.
Proof.
  intros E. unfold numero_saques. rewrite E, filter_app, length_app. f_equal.
  destruct (decide (tipo r = "Saque"%string)) as [Ht|Ht].
  - by rewrite filter_cons_True.
  - by rewrite filter_cons_False.
Qed.

(** X5.  The number of recorded withdrawals of a checking account never
    passes its [limite_saques] (zero, for a ceiling below zero): once it is
    within the ceiling, and on a new account it is, it stays there after
    any list of calls. *)
Theorem saques_dentro_do_limite (self : Cliente.t) (conta : objeto_conta)
    (l : Q) (ls : Z) (chs : list Chamada) (amb : Ambiente) :
  limites conta = Some (l, ls) ->
  (Z.of_nat (numero_saques (obj_historico conta)) <= Z.max 0 ls)%Z ->
  (Z.of_nat (numero_saques (obj_historico (fst (chamadas self conta chs amb))))
     <= Z.max 0 ls)%Z.
Proof.
  intros Hlim H0.
  apply (chamadas_invariante
           (fun c _ => limites c = Some (l, ls)
                       /\ (Z.of_nat (numero_saques (obj_historico c))
                             <= Z.max 0 ls)%Z)
           (fun _ => true) self); [|apply forallb_todas|by split].
  clear. intros c amb ch _ [Hl HP].
  pose proof (chamar_efeito self c ch amb) as H.
  destruct (chamar self c ch amb) as [c2 amb2]. simpl.
  destruct H as (Hl2 & _ & _ & H). split; [congruence|].
  destruct H as [[-> _]|(t & quando & _ & Ha)]; [exact HP|].
  destruct Ha as (_ & He & _ & Hc).
  rewrite (numero_saques_snoc _ _ _ He). simpl.
  destruct t as [v|v]; simpl.
  - destruct Hc as [_ Hc]. destruct (Hc l ls Hl) as [_ Hn]. lia.
  - lia.
Qed.

(** An instance: the run that reaches the ceiling of three withdrawals. *)
Lemma saques_dentro_do_limite_witness :
  limites Exemplo.conta_padrao = Some (500, 3%Z)
  /\ (Z.of_nat (numero_saques (obj_historico Exemplo.conta_padrao)) <= Z.max 0 3)%Z
  /\ (Z.of_nat (numero_saques (obj_historico (fst Exemplo.tres_saques)))
        <= Z.max 0 3)%Z.
Proof.
  assert (H0 : limites Exemplo.conta_padrao = Some (500, 3%Z)) by reflexivity.
  assert (H1 : (Z.of_nat (numero_saques (obj_historico Exemplo.conta_padrao))
                  <= Z.max 0 3)%Z) by (vm_compute; discriminate).
  split; [exact H0|]. split; [exact H1|].
  exact (saques_dentro_do_limite Exemplo.cliente Exemplo.conta_padrao 500 3
           [ChRealizar (Deposito 1000); ChRealizar (Saque 100);
            ChRealizar (Saque 100); ChRealizar (Saque 100)]
           Exemplo.amb_tres_dias H0 H1).
Defined.

Lemma registros_de_snoc (d : date) (h h2 : Historico.t) (r : Registro) :
  Historico.transacoes h2 = Historico.transacoes h ++ [r] ->
  length (registros_de d h2)
    = (length (registros_de d h)
       + if decide (d = dt_date (data r)) then 1 else 0)%nat.
Proof.
  intros E. unfold registros_de. rewrite E, filter_app, length_app. f_equal.
  destruct (decide (d = dt_date (data r))) as [Hd|Hd].
  - by rewrite filter_cons_True.
  - by rewrite filter_cons_False.
Qed.

(** A call that is not a direct [registrar] keeps the history, or records
    one operation after having counted fewer than two records today. *)
Lemma chamar_sem_registrar (self : Cliente.t) (conta : objeto_conta) (ch : Chamada)
    (amb : Ambiente) :
  sem_registrar_direto ch = true ->
  let '(c2, amb2) := chamar self conta ch amb in
  relogio amb2 = relogio amb
  /\ ((obj_historico c2 = obj_historico conta
       /\ (leituras amb <= leituras amb2)%nat)
      \/ ((length (registros_de (hoje amb) (obj_historico conta)) < 2)%nat
          /\ leituras amb2 = S (S (leituras amb))
          /\ exists t, aceita t conta (relogio amb (S (leituras amb))) c2)).
Proof.
  intros Hch. destruct ch as [v|v|t|t]; [| |discriminate|].
  - pose proof (chamar_efeito self conta (ChSacar v) amb) as H.
    destruct (chamar self conta (ChSacar v) amb) as [c2 amb2].
    destruct H as (_ & Hr & Hn & [[Hh _]|(t & q & [?|?] & _)]); try discriminate.
    split; [exact Hr|]. left. by split.
  - pose proof (chamar_efeito self conta (ChDepositar v) amb) as H.
    destruct (chamar self conta (ChDepositar v) amb) as [c2 amb2].
    destruct H as (_ & Hr & Hn & [[Hh _]|(t & q & [?|?] & _)]); try discriminate.
    split; [exact Hr|]. left. by split.
  - unfold chamar, mbind, IO_bind.
    pose proof (realizar_transacao_efeito self conta t amb) as H.
    destruct (Cliente.realizar_transacao self conta t amb) as [[r c2] amb2].
    destruct H as (_ & Hr & [[-> Hn]|(Hc & Ha & Hn)]); simpl;
      (split; [exact Hr|]).
    + left. split; [reflexivity | lia].
    + right. split; [exact Hc|]. split; [exact Hn|]. by exists t.
Qed.

(** X6.  On a new account, with a clock that does not come back to a date it
    has left, no calendar date gets more than two records, whatever calls
    are made, as long as [registrar] is reached through
    [realizar_transacao]. *)
Theorem no_maximo_duas_por_dia (self : Cliente.t) (conta : objeto_conta)
    (chs : list Chamada) (amb : Ambiente) (d : date) :
  relogio_sem_retorno (relogio amb) ->
  forallb sem_registrar_direto chs = true ->
  Historico.transacoes (obj_historico conta) = [] ->
  (length (registros_de d (obj_historico (fst (chamadas self conta chs amb)))) <= 2)%nat.
Proof.
  intros Hrel Hp H0.
  enough (H : relogio (snd (chamadas self conta chs amb)) = relogio amb
              /\ (forall r, r ∈ Historico.transacoes
                                  (obj_historico (fst (chamadas self conta chs amb))) ->
                            exists k, (k < leituras (snd (chamadas self conta chs amb)))%nat
                                      /\ data r = relogio amb k)
              /\ forall d', (length (registros_de d'
                               (obj_historico (fst (chamadas self conta chs amb))))
                             <= 2)%nat)
    by (destruct H as (_ & _ & H); apply H).
  apply (chamadas_invariante
           (fun c a => relogio a = relogio amb
                       /\ (forall r, r ∈ Historico.transacoes (obj_historico c) ->
                                     exists k, (k < leituras a)%nat
                                               /\ data r = relogio amb k)
                       /\ forall d', (length (registros_de d' (obj_historico c)) <= 2)%nat)
           sem_registrar_direto self); [|exact Hp|].
  - clear conta chs Hp H0 d. intros c a ch Hch (Hr & Hk & Hd).
    pose proof (chamar_sem_registrar self c ch a Hch) as H.
    destruct (chamar self c ch a) as [c2 a2]. simpl.
    destruct H as (Hr2 & [[Hh Hn]|(Hc & Hn & t & Ha)]).
    + split; [congruence|]. rewrite Hh. split; [|exact Hd].
      intros r Hin. destruct (Hk r Hin) as (k & ? & ?). exists k. split; [lia|done].
    + destruct Ha as (_ & He & _). rewrite Hr in He.
      split; [congruence|]. split.
      * intros r Hin. rewrite He in Hin. apply elem_of_app in Hin as [Hin|Hin].
        -- destruct (Hk r Hin) as (k & ? & ?). exists k. split; [lia|done].
        -- apply list_elem_of_singleton in Hin as ->. exists (S (leituras a)).
           split; [lia|reflexivity].
      * intros d'. rewrite (registros_de_snoc d' _ _ _ He). simpl.
        destruct (decide (d' = dt_date (relogio amb (S (leituras a))))) as [->|_];
          [|specialize (Hd d'); lia].
        destruct (decide (dt_date (relogio amb (S (leituras a))) = hoje a))
          as [E|E]; [rewrite E; lia|].
        assert (Hz : length (registros_de (dt_date (relogio amb (S (leituras a))))
                               (obj_historico c)) = O).
        { apply registros_de_outro_dia. intros r Hin Hdate.
          apply list_elem_of_In in Hin. destruct (Hk r Hin) as (k & Hlt & Hdata).
          apply E. unfold hoje. rewrite Hr.
          rewrite (Hrel k (leituras a) (S (leituras a))); [|lia|lia|].
          - by rewrite <- Hdata.
          - by rewrite <- Hdata. }
        lia.
  - split; [reflexivity|]. split.
    + intros r Hin. rewrite H0 in Hin. by apply elem_of_nil in Hin.
    + intros d'. unfold registros_de. rewrite H0. simpl. lia.
Qed.

(** An instance: the run over three days, counted on its second day. *)
Lemma no_maximo_duas_por_dia_witness :
  relogio_sem_retorno (relogio Exemplo.amb_tres_dias)
  /\ Historico.transacoes (obj_historico Exemplo.conta_padrao) = []
  /\ (length (registros_de (dt_date Exemplo.dia2)
                (obj_historico (fst Exemplo.tres_saques))) <= 2)%nat.
Proof.
  assert (H0 : relogio_sem_retorno (relogio Exemplo.amb_tres_dias)).
  { intros i j k Hij Hjk. simpl.
    destruct (Nat.ltb_spec i 4), (Nat.ltb_spec i 8), (Nat.ltb_spec j 4),
      (Nat.ltb_spec j 8), (Nat.ltb_spec k 4), (Nat.ltb_spec k 8);
      try reflexivity; try discriminate; lia. }
  assert (H1 : Historico.transacoes (obj_historico Exemplo.conta_padrao) = [])
    by reflexivity.
  split; [exact H0|]. split; [exact H1|].
  exact (no_maximo_duas_por_dia Exemplo.cliente Exemplo.conta_padrao
           [ChRealizar (Deposito 1000); ChRealizar (Saque 100);
            ChRealizar (Saque 100); ChRealizar (Saque 100)]
           Exemplo.amb_tres_dias (dt_date Exemplo.dia2) H0 eq_refl H1).
Defined.

(** ** A report read while the history grows *)

Lemma ate_yield_bound (tf : option string) (resto : list Registro) :
  forall i r j,
    Relatorio.ate_yield tf resto i = Some (r, j) -> (j <= i + length resto)%nat.
Proof.
  induction resto as [|x resto IH]; intros i r j; simpl; [discriminate|].
  destruct (Relatorio.passa tf x).
  - intros [= _ <-]. lia.
  - intros H. apply IH in H. lia.
Qed.

Lemma next_indice (g : Relatorio.t) (self : Historico.t) :
  (Relatorio.indice g <= length (Historico.transacoes self))%nat ->
  (Relatorio.indice (snd (Relatorio.next g self))
     <= length (Historico.transacoes self))%nat
  /\ Relatorio.tipo_transacao (snd (Relatorio.next g self))
     = Relatorio.tipo_transacao g.
Proof.
  intros Hi. unfold Relatorio.next. destruct (Relatorio.esgotado g); [done|].
  destruct (Relatorio.ate_yield _ _ _) as [[r j]|] eqn:E; simpl; [|done].
  apply ate_yield_bound in E. rewrite length_drop in E. split; [lia|done].
Qed.

Lemma avancar_indice (self : Historico.t) (k : nat) :
  forall g,
    (Relatorio.indice g <= length (Historico.transacoes self))%nat ->
    (Relatorio.indice (Relatorio.avancar k g self)
       <= length (Historico.transacoes self))%nat
    /\ Relatorio.tipo_transacao (Relatorio.avancar k g self)
       = Relatorio.tipo_transacao g.
Proof.
  induction k as [|k IH]; intros g Hi; simpl; [done|].
  destruct (next_indice g self Hi) as [Hi' Ht].
  destruct (IH _ Hi') as [? ?]. split; [done | congruence].
Qed.

(** X7.  A generator reads the list as it is at each step.  One that has
    yielded [k] records of a history and is not exhausted goes on, after
    records were appended, with the rest of the old ones and then the new
    ones the filter lets through; one that has reached its end yields
    nothing more. *)
Theorem relatorio_ve_registros_novos (h novos : list Registro)
    (tf : option string) (k fuel : nat) :
  (length (h ++ novos) < fuel)%nat ->
  let g := Relatorio.avancar k (gerar_relatorio (Historico.Mk h) tf)
             (Historico.Mk h) in
  (Relatorio.esgotado g = false ->
   exists g', Relatorio.consumir fuel g (Historico.Mk (h ++ novos))
              = Some (drop k (selecionados tf (Historico.Mk h))
                        ++ selecionados tf (Historico.Mk novos), g'))
  /\ (Relatorio.esgotado g = true ->
      Relatorio.consumir fuel g (Historico.Mk (h ++ novos)) = Some ([], g)).
Proof.
  intros Hfuel g. split.
  - intros Hg.
    assert (R : restantes g (Historico.Mk (h ++ novos))
                = drop k (selecionados tf (Historico.Mk h))
                    ++ selecionados tf (Historico.Mk novos)).
    { destruct (avancar_indice (Historico.Mk h) k
                  (gerar_relatorio (Historico.Mk h) tf)) as [Hi Ht];
        [simpl; lia|]. fold g in Hi, Ht. simpl in Hi, Ht.
      rewrite <- !passa_selecionados.
      pose proof (avancar_restantes (Historico.Mk h) k
                    (gerar_relatorio (Historico.Mk h) tf)) as Hr.
      fold g in Hr. unfold restantes in Hr |- *. rewrite Hg in Hr |- *.
      simpl in Hr |- *. rewrite drop_0 in Hr. rewrite Ht in Hr |- *.
      rewrite <- Hr, drop_app_le by exact Hi. apply filter_app. }
    rewrite <- R. apply consumir_restantes.
    pose proof (restantes_length (Historico.Mk (h ++ novos)) g). simpl in *. lia.
  - intros Hg. destruct fuel as [|fuel]; [lia|]. simpl.
    unfold Relatorio.next. by rewrite Hg.
Qed.

(** An instance: a report on the first two records of
    [historico_tres_saques], one already yielded, when the other two are
    appended. *)
Lemma relatorio_ve_registros_novos_witness :
  (length ([MkRegistro "Deposito" 1000 Exemplo.dia1;
            MkRegistro "Saque" 100 Exemplo.dia1]
           ++ [MkRegistro "Saque" 100 Exemplo.dia2;
               MkRegistro "Saque" 100 Exemplo.dia2]) < 5)%nat
  /\ exists g',
       Relatorio.consumir 5
         (Relatorio.avancar 1
            (gerar_relatorio
               (Historico.Mk [MkRegistro "Deposito" 1000 Exemplo.dia1;
                              MkRegistro "Saque" 100 Exemplo.dia1]) None)
            (Historico.Mk [MkRegistro "Deposito" 1000 Exemplo.dia1;
                           MkRegistro "Saque" 100 Exemplo.dia1]))
         Exemplo.historico_tres_saques
       = Some ([MkRegistro "Saque" 100 Exemplo.dia1;
                MkRegistro "Saque" 100 Exemplo.dia2;
                MkRegistro "Saque" 100 Exemplo.dia2], g').
Proof.
  assert (H0 : (length ([MkRegistro "Deposito" 1000 Exemplo.dia1;
                         MkRegistro "Saque" 100 Exemplo.dia1]
                        ++ [MkRegistro "Saque" 100 Exemplo.dia2;
                            MkRegistro "Saque" 100 Exemplo.dia2]) < 5)%nat)
    by (simpl; lia).
  split; [exact H0|].
  destruct (relatorio_ve_registros_novos
              [MkRegistro "Deposito" 1000 Exemplo.dia1;
               MkRegistro "Saque" 100 Exemplo.dia1]
              [MkRegistro "Saque" 100 Exemplo.dia2;
               MkRegistro "Saque" 100 Exemplo.dia2] None 1 5 H0) as [H _].
  destruct (H eq_refl) as [g' Hg']. exists g'. exact Hg'.
Defined.

(** * The program *)

(** ** filtrar_cliente *)

Lemma filtrar_cliente_desde (cpf : string) (l : list PessoaFisica.t) :
  forall k,
    head (filter (fun ic : nat * PessoaFisica.t => PessoaFisica.cpf (snd ic) = cpf)
                 (imap (fun i c => ((k + i)%nat, c)) l))
      = prod_map (fun i => (k + i)%nat) id
          <$> list_find (fun c => PessoaFisica.cpf c = cpf) l.
Proof.
  induction l as [|c l IH]; intros k; [reflexivity|].
  rewrite imap_cons. simpl.
  destruct (decide (PessoaFisica.cpf c = cpf)) as [Hc|Hc].
  - rewrite filter_cons_True by exact Hc. simpl. by rewrite Nat.add_0_r.
  - rewrite filter_cons_False by exact Hc.
    rewrite (imap_ext _ (fun i c => ((S k + i)%nat, c))) by (intros; simpl; f_equal; lia).
    rewrite IH. destruct (list_find _ l) as [[i x]|]; simpl; [|done].
    do 2 f_equal. lia.
Qed.

Lemma filtrar_cliente_list_find (cpf : string) (l : list PessoaFisica.t) :
  filtrar_cliente cpf l = list_find (fun c => PessoaFisica.cpf c = cpf) l.
Proof.
  unfold filtrar_cliente.
  change (imap pair l) with (imap (fun i c => ((0 + i)%nat, c)) l).
  rewrite (filtrar_cliente_desde cpf l 0).
  destruct (list_find _ l) as [[i x]|]; reflexivity.
Qed.

(** X8.  [filtrar_cliente] finds nothing iff no client of the list has the
    CPF asked for; otherwise it returns the first client of the list that
    has it. *)
Theorem filtrar_cliente_first (cpf : string) (l : list PessoaFisica.t) :
  (filtrar_cliente cpf l = None
     <-> forall c, In c l -> PessoaFisica.cpf c <> cpf)
  /\ (forall i c,
        filtrar_cliente cpf l = Some (i, c)
        <-> l !! i = Some c
            /\ PessoaFisica.cpf c = cpf
            /\ forall j c', l !! j = Some c' -> (j < i)%nat ->
                            PessoaFisica.cpf c' <> cpf).
Proof.
  rewrite filtrar_cliente_list_find. split.
  - rewrite list_find_None, Forall_forall.
    split; intros H c Hc; apply H; by apply list_elem_of_In.
  - intros i c. apply (list_find_Some (fun c => PessoaFisica.cpf c = cpf)).
Qed.

(** ** What one command does *)

Arguments filtrar_cliente : simpl never.
Arguments realizar_transacao_em : simpl never.

(** Unfolding of the monad of the program and of its primitives. *)
Ltac abre_cli :=
  unfold log_transacao, le_float, recuperar_conta_cliente, menu, opcao_invalida,
    realizar, input, le_mundo, poe_mundo, levanta, imprime, escreve_log, classes,
    utcnow, mbind, CLI_bind, mret, CLI_ret;
  cbn beta iota zeta delta [fst snd clientes contas objetos tela teclado relogio_m
                             leituras_m log_txt stdout relogio leituras].

(** The three parts of [comando] on a state that was computed. *)
Ltac fecha_comando :=
  split; [first [done | apply suffix_nil | by repeat apply suffix_cons_r]|];
  split; [try by apply passo_nada|];
  try done.

Lemma criar_cliente_passo (float : string -> option Q) (numero : Z) (m : Mundo) :
  comando float numero criar_cliente m.
Proof.
  unfold comando, fim_do_comando, criar_cliente. abre_cli.
  destruct (teclado m) as [|cpf r1] eqn:E1; abre_cli; [fecha_comando|].
  destruct (filtrar_cliente cpf (clientes m)) as [[i c]|] eqn:Ef; abre_cli;
    [fecha_comando|].
  destruct r1 as [|nome r2]; abre_cli; [fecha_comando|].
  destruct r2 as [|nasc r3]; abre_cli; [fecha_comando|].
  destruct r3 as [|ende r4]; abre_cli; [fecha_comando|].
  fecha_comando.
  by apply (passo_cliente numero m _ (PessoaFisica.init nome nasc cpf ende)).
Qed.

Lemma criar_conta_passo (float : string -> option Q) (numero : Z) (m : Mundo) :
  comando float numero (criar_conta numero) m.
Proof.
  unfold comando, fim_do_comando, criar_conta. abre_cli.
  destruct (teclado m) as [|cpf r1] eqn:E1; abre_cli; [fecha_comando|].
  destruct (filtrar_cliente cpf (clientes m)) as [[i c]|] eqn:Ef; abre_cli;
    [|fecha_comando].
  fecha_comando. by apply (passo_conta numero m _ cpf i c).
Qed.

Lemma transacao_passo (float : string -> option Q) (numero : Z) (m : Mundo)
    (nome : string) (p : Pergunta) (tr : Q -> Transacao) :
  comando float numero
    (log_transacao nome
       (cpf ← input PCpfCliente;
        m ← le_mundo;
        match filtrar_cliente cpf (clientes m) with
        | None => imprime LClienteNaoEncontrado;; mret RNone
        | Some (_, cliente) =>
            valor ← le_float float p;
            let transacao := tr valor in
            conta ← recuperar_conta_cliente cliente;
            match conta with
            | None => mret RNone
            | Some conta => realizar cliente conta transacao;; mret RNone
            end
        end)) m.
Proof.
  unfold comando, fim_do_comando. abre_cli.
  destruct (teclado m) as [|cpf r1] eqn:E1; abre_cli; [fecha_comando|].
  destruct (filtrar_cliente cpf (clientes m)) as [[i c]|] eqn:Ef; abre_cli;
    [|fecha_comando].
  destruct r1 as [|txt r2]; abre_cli; [fecha_comando|].
  destruct (float txt) as [valor|] eqn:Efl; abre_cli.
  2:{ fecha_comando. exists txt. split; [right; by left | done]. }
  destruct (Cliente.contas (PessoaFisica.cliente c)) as [|conta cs] eqn:Ec; abre_cli;
    [fecha_comando|].
  destruct (realizar_transacao_em (objetos m) (PessoaFisica.cliente c) conta
              (tr valor) (MkAmbiente [] (relogio_m m) (leituras_m m)))
    as [[r banco] amb] eqn:Er; abre_cli.
  fecha_comando.
  apply (passo_transacao numero m _ cpf i c conta (tr valor)
           (MkAmbiente [] (relogio_m m) (leituras_m m))); try done.
  - by rewrite Ec.
  - by rewrite Er.
Qed.

Lemma depositar_passo (float : string -> option Q) (numero : Z) (m : Mundo) :
  comando float numero (depositar float) m.
Proof. apply (transacao_passo float numero m "depositar" PValorDeposito Deposito). Qed.

Lemma sacar_passo (float : string -> option Q) (numero : Z) (m : Mundo) :
  comando float numero (sacar float) m.
Proof. apply (transacao_passo float numero m "sacar" PValorSaque Saque). Qed.

Lemma exibir_extrato_passo (float : string -> option Q) (numero : Z) (m : Mundo) :
  comando float numero exibir_extrato m.
Proof.
  unfold comando, fim_do_comando, exibir_extrato. abre_cli.
  destruct (teclado m) as [|cpf r1] eqn:E1; abre_cli; [fecha_comando|].
  destruct (filtrar_cliente cpf (clientes m)) as [[i c]|] eqn:Ef; abre_cli;
    [|fecha_comando].
  destruct (Cliente.contas (PessoaFisica.cliente c)) as [|conta cs] eqn:Ec; abre_cli;
    [fecha_comando|].
  destruct (objetos m !! conta) as [obj|] eqn:Eo; abre_cli; [|fecha_comando].
  destruct (extrato_laco _ _ _ _ _) as [extrato tem]; abre_cli.
  fecha_comando.
Qed.

(** ** listar_contas and the iterator *)

Lemma contas_objetos_tela (m : Mundo) (t : list Linha) :
  contas_objetos
    (MkMundo (clientes m) (contas m) (objetos m) t (teclado m) (relogio_m m)
       (leituras_m m) (log_txt m))
    = contas_objetos m.
Proof. reflexivity. Qed.

(** The loop prints the separator and the text of each account from the
    position of the iterator on, and nothing else changes. *)
Lemma listar_laco_efeito (fuel : nat) :
  forall (it : ContasIterador.t) (m : Mundo),
    (length (contas_objetos m) - ContasIterador.index it < fuel)%nat ->
    listar_laco fuel it m
      = (Retorna tt,
         MkMundo (clientes m) (contas m) (objetos m)
           (tela m ++ concat (map (fun conta => [LSeparador; LConta conta])
                                  (drop (ContasIterador.index it) (contas_objetos m))))
           (teclado m) (relogio_m m) (leituras_m m) (log_txt m)).
Proof.
  induction fuel as [|fuel IH]; intros [i] m Hf; [lia|].
  simpl in Hf. simpl listar_laco. abre_cli. unfold ContasIterador.next. simpl.
  destruct (contas_objetos m !! i) as [conta|] eqn:E.
  - rewrite IH by (rewrite contas_objetos_tela; simpl;
                   apply lookup_lt_Some in E; lia).
    rewrite contas_objetos_tela. simpl.
    rewrite (drop_S _ _ _ E). simpl. by rewrite <- !app_assoc.
  - apply lookup_ge_None in E. rewrite drop_ge by exact E. simpl.
    rewrite app_nil_r. by destruct m.
Qed.

Lemma listar_contas_passo (float : string -> option Q) (numero : Z) (m : Mundo) :
  comando float numero listar_contas m.
Proof.
  unfold comando, fim_do_comando, listar_contas. abre_cli.
  rewrite listar_laco_efeito by (simpl; lia). simpl.
  fecha_comando.
Qed.

(** ** The loop of main *)

(** The states a run of the loop goes through are linked by [passo_main];
    the input is read forward. *)
Lemma main_laco_passos (float : string -> option Q) (fuel : nat) :
  forall m,
    teclado (snd (main_laco float fuel m)) `suffix_of` teclado m
    /\ rtc passo_main m (snd (main_laco float fuel m)).
Proof.
  induction fuel as [|fuel IH]; intros m; [by split|].
  simpl main_laco. unfold menu. abre_cli.
  destruct (teclado m) as [|opcao r1] eqn:E1; abre_cli.
  { split; [done|]. apply rtc_once. by apply passo_nada. }
  set (m1 := MkMundo (clientes m) (contas m) (objetos m)
               (tela m ++ [LPergunta PMenu]) r1 (relogio_m m) (leituras_m m)
               (log_txt m)).
  assert (H01 : passo_main m m1) by (by apply passo_nada).
  assert (Hcmd : forall (A : Type) (c : CLI A),
             (forall n, n = (Z.of_nat (length (contas m1)) + 1)%Z ->
                        comando float n c m1) ->
             teclado (snd (match c m1 with
                           | (Retorna _, m2) => main_laco float fuel m2
                           | (Levanta e, m2) => (Levanta e, m2)
                           end)) `suffix_of` opcao :: r1
             /\ rtc passo_main m (snd (match c m1 with
                                       | (Retorna _, m2) => main_laco float fuel m2
                                       | (Levanta e, m2) => (Levanta e, m2)
                                       end))).
  { intros A c Hc. destruct (Hc _ eq_refl) as (Hs & Hp & _).
    destruct (c m1) as [[x|e] m2]; simpl in Hs, Hp.
    - destruct (IH m2) as [Hs2 Hr2]. split.
      + apply suffix_cons_r. by etransitivity.
      + eapply rtc_l; [exact H01|]. eapply rtc_l; [|exact Hr2]. exact Hp.
    - split; [by apply suffix_cons_r|].
      eapply rtc_l; [exact H01|]. by apply rtc_once. }
  repeat case_decide.
  - apply Hcmd. intros n _. apply depositar_passo.
  - apply Hcmd. intros n _. apply sacar_passo.
  - apply Hcmd. intros n _. apply exibir_extrato_passo.
  - apply Hcmd. intros n _. apply criar_cliente_passo.
  - apply Hcmd. intros n ->. apply criar_conta_passo.
  - apply Hcmd. intros n _. apply listar_contas_passo.
  - split; [by apply suffix_cons_r | by apply rtc_once].
  - destruct (IH (MkMundo (clientes m) (contas m) (objetos m)
                    ((tela m ++ [LPergunta PMenu]) ++ [LOperacaoInvalida]) r1
                    (relogio_m m) (leituras_m m) (log_txt m))) as [Hs Hr].
    split; [by apply suffix_cons_r|].
    eapply rtc_l; [|exact Hr]. by apply passo_nada.
Qed.

(** ** What a run of main keeps *)

Lemma primitiva_fixos (transacao : Transacao) (conta : objeto_conta)
    (amb : Ambiente) :
  fixos (snd (fst (primitiva transacao conta amb))) = fixos conta.
Proof.
  destruct transacao as [v|v], conta as [c|c]; simpl;
    unfold obj_sacar, obj_depositar, mbind, IO_bind;
    rewrite ?ContaCorrente_sacar_eq, ?ContaCorrente_depositar_eq,
      ?Conta_sacar_eq, ?Conta_depositar_eq;
    repeat match goal with
           | |- context [Qgtb ?x ?y] => destruct (Qgtb x y)
           | |- context [(?x >=? ?y)%Z] => destruct (x >=? y)%Z
           end;
    reflexivity.
Qed.

Lemma fixos_set_historico (conta : objeto_conta) (h : Historico.t) :
  fixos (obj_set_historico conta h) = fixos conta.
Proof. destruct conta; reflexivity. Qed.

Lemma realizar_transacao_fixos (self : Cliente.t) (conta : objeto_conta)
    (transacao : Transacao) (amb : Ambiente) :
  fixos (snd (fst (Cliente.realizar_transacao self conta transacao amb)))
    = fixos conta.
Proof.
  rewrite realizar_transacao_eq. destruct (2 <=? _)%nat; [reflexivity|].
  rewrite registrar_eq.
  pose proof (primitiva_fixos transacao conta (apos_utcnow amb)) as H.
  destruct (primitiva transacao conta (apos_utcnow amb)) as [[[] c] a];
    simpl in *; by rewrite ?fixos_set_historico.
Qed.

Lemma realizar_transacao_integra (self : Cliente.t) (conta : objeto_conta)
    (transacao : Transacao) (amb : Ambiente) :
  conta_integra conta ->
  conta_integra (snd (fst (Cliente.realizar_transacao self conta transacao amb))).
Proof.
  intros (Hv & Hn).
  pose proof (realizar_transacao_efeito self conta transacao amb) as H.
  destruct (Cliente.realizar_transacao self conta transacao amb) as [[r c2] amb2].
  simpl in *. destruct H as (Hl & _ & [[-> _]|(_ & Ha & _)]); [done|].
  destruct Ha as (Hpv & He & Hsal & Hc).
  split.
  - rewrite He, Hl. apply Forall_app. split; [exact Hv|].
    apply Forall_singleton. unfold registro_valido. simpl. split; [exact Hpv|].
    destruct transacao as [v|v]; simpl.
    + split; [by left|]. intros _ l ls Hlim. destruct Hc as [_ Hc].
      by destruct (Hc l ls Hlim).
    + split; [by right | discriminate].
  - intros l ls Hlim. rewrite Hl in Hlim.
    rewrite (numero_saques_snoc _ _ _ He). simpl.
    specialize (Hn l ls Hlim).
    destruct transacao as [v|v]; simpl; [|lia].
    destruct Hc as [_ Hc]. destruct (Hc l ls Hlim) as [_ ?]. lia.
Qed.

(** An operation on the store replaces at most the object it is made on. *)
Lemma realizar_transacao_em_efeito (banco : gmap nat objeto_conta) (self : Cliente.t)
    (ref : nat) (transacao : Transacao) (amb : Ambiente) :
  snd (fst (realizar_transacao_em banco self ref transacao amb)) = banco
  \/ exists obj,
       banco !! ref = Some obj
       /\ snd (fst (realizar_transacao_em banco self ref transacao amb))
          = <[ref := snd (fst (Cliente.realizar_transacao self obj transacao amb))]>
              banco.
Proof.
  unfold realizar_transacao_em.
  destruct (banco !! ref) as [obj|] eqn:E; [|by left].
  right. exists obj. split; [done|]. unfold mbind, IO_bind.
  by destruct (Cliente.realizar_transacao self obj transacao amb) as [[r c] a].
Qed.

Lemma integro_mesmo_sistema (m m' : Mundo) :
  mesmo_sistema m m' -> mundo_integro m -> mundo_integro m'.
Proof.
  intros (Hc & Hk & Ho) [].
  constructor; rewrite ?Hc, ?Hk, ?Ho; assumption.
Qed.

(** Replacing an object by one with the same fixed attributes, itself in
    order, keeps the program in order. *)
Lemma integro_substitui (m m' : Mundo) (ref : nat) (obj obj' : objeto_conta) :
  clientes m' = clientes m ->
  contas m' = contas m ->
  objetos m !! ref = Some obj ->
  objetos m' = <[ref := obj']> (objetos m) ->
  fixos obj' = fixos obj ->
  conta_integra obj' ->
  mundo_integro m -> mundo_integro m'.
Proof.
  intros Hc Hk Hr Ho Hf Hi [I1 I2 I3 I4 I5 I6 I7].
  unfold fixos in Hf. injection Hf as Hnum Hag Hcli Hlim.
  constructor; rewrite ?Hc, ?Hk, ?Ho.
  - exact I1.
  - exact I2.
  - intros r. rewrite <- I3. destruct (decide (r = ref)) as [->|Hne].
    + rewrite lookup_insert_eq, Hr. split; eauto.
    + by rewrite lookup_insert_ne.
  - intros k r Hkr. destruct (I4 k r Hkr) as (o & Ho1 & Ho2 & Ho3 & Ho4).
    destruct (decide (r = ref)) as [->|Hne].
    + exists obj'. rewrite lookup_insert_eq. rewrite Hr in Ho1.
      injection Ho1 as <-. split; [done|]. by rewrite Hnum, Hag, Hlim.
    + exists o. by rewrite lookup_insert_ne.
  - intros i c r Hic Hrc. destruct (I5 i c r Hic Hrc) as (o & Ho1 & Ho2).
    destruct (decide (r = ref)) as [->|Hne].
    + exists obj'. rewrite lookup_insert_eq. rewrite Hr in Ho1.
      injection Ho1 as <-. split; [done|]. by rewrite Hcli.
    + exists o. by rewrite lookup_insert_ne.
  - intros r o. destruct (decide (r = ref)) as [->|Hne].
    + rewrite lookup_insert_eq. intros [= <-]. rewrite Hcli. by apply I6.
    + rewrite lookup_insert_ne by done. apply I6.
  - intros r o. destruct (decide (r = ref)) as [->|Hne].
    + rewrite lookup_insert_eq. by intros [= <-].
    + rewrite lookup_insert_ne by done. apply I7.
Qed.

Lemma filtrar_cliente_Some (cpf : string) (l : list PessoaFisica.t) (i : nat)
    (c : PessoaFisica.t) :
  filtrar_cliente cpf l = Some (i, c) -> l !! i = Some c /\ PessoaFisica.cpf c = cpf.
Proof.
  rewrite filtrar_cliente_list_find.
  intros H. apply (list_find_Some (fun c => PessoaFisica.cpf c = cpf)) in H.
  by destruct H as (? & ? & _).
Qed.

Lemma filtrar_cliente_None (cpf : string) (l : list PessoaFisica.t) :
  filtrar_cliente cpf l = None -> cpf ∉ PessoaFisica.cpf <$> l.
Proof.
  rewrite filtrar_cliente_list_find, list_find_None, Forall_forall.
  intros H Hin. apply list_elem_of_fmap in Hin as (c & -> & Hc). by apply (H c).
Qed.

Lemma conta_nova_integra (i : nat) (numero : Z) (l : Q) (ls : Z) :
  conta_integra (ObjContaCorrente (ContaCorrente.nova_conta i numero l ls)).
Proof.
  unfold conta_integra, obj_historico, numero_saques. simpl.
  split; [constructor|].
  intros ? ? _. simpl. lia.
Qed.

Lemma integro_passo_main (m m' : Mundo) :
  passo_main m m' -> mundo_integro m -> mundo_integro m'.
Proof.
  intros Hp Hi. unfold passo_main in Hp.
  destruct Hp as [H1|cpf i c conta t amb H1 H2 H3 H4 H5|c H1 H2 H3 H4 H5
                  |cpf i c H1 H2 H3 H4].
  - by apply (integro_mesmo_sistema m).
  - destruct (realizar_transacao_em_efeito (objetos m) (PessoaFisica.cliente c)
                conta t amb) as [E|(obj & Eo & E)]; rewrite E in H5.
    + by apply (integro_mesmo_sistema m).
    + apply (integro_substitui m m' conta obj _ H3 H4 Eo H5).
      * apply realizar_transacao_fixos.
      * apply realizar_transacao_integra. by apply (contas_integras m Hi conta).
      * exact Hi.
  - destruct Hi as [I1 I2 I3 I4 I5 I6 I7].
    constructor; rewrite ?H3, ?H4, ?H5; try assumption.
    + rewrite fmap_app. apply NoDup_app. split; [exact I1|]. split.
      * intros x Hx Hx'. apply list_elem_of_singleton in Hx' as ->.
        by apply (filtrar_cliente_None _ _ H1).
      * apply NoDup_singleton.
    + intros j c' r Hj Hr. apply lookup_app_Some in Hj as [Hj|[_ Hj]].
      * by apply (I5 j c' r).
      * destruct (j - length (clientes m))%nat; [|done].
        injection Hj as <-. rewrite H2 in Hr. by apply elem_of_nil in Hr.
    + intros r o Hro. destruct (I6 r o Hro) as (c' & Hc' & Hr).
      exists c'. split; [|done]. by apply lookup_app_l_Some.
  - set (ref := fresh (dom (objetos m))) in *.
    assert (Hfresh : objetos m !! ref = None).
    { apply not_elem_of_dom. apply is_fresh. }
    destruct (filtrar_cliente_Some _ _ _ _ H1) as [Hic Hcpf].
    destruct Hi as [I1 I2 I3 I4 I5 I6 I7].
    assert (Hnotin : ref ∉ contas m).
    { intros Hin. apply I3 in Hin. rewrite Hfresh in Hin. by destruct Hin. }
    constructor; rewrite ?H2, ?H3, ?H4.
    + rewrite list_fmap_insert. simpl.
      rewrite list_insert_id; [exact I1|]. by rewrite list_lookup_fmap, Hic.
    + apply NoDup_app. split; [exact I2|]. split; [|apply NoDup_singleton].
      intros x Hx Hx'. apply list_elem_of_singleton in Hx' as ->. done.
    + intros r. rewrite elem_of_app, list_elem_of_singleton, <- I3.
      destruct (decide (r = ref)) as [->|Hne].
      * rewrite lookup_insert_eq. split; eauto.
      * rewrite lookup_insert_ne by done. split; [by left|]. by intros [?|?].
    + intros k r Hk. apply lookup_app_Some in Hk as [Hk|[Hlen Hk]].
      * destruct (I4 k r Hk) as (o & ? & ?). exists o.
        rewrite lookup_insert_ne; [done|].
        intros <-. apply Hnotin. by apply list_elem_of_lookup_2 in Hk.
      * destruct (k - length (contas m))%nat eqn:Ek; [|done].
        injection Hk as <-. exists (ObjContaCorrente
                                       (ContaCorrente.nova_conta i
                                          (Z.of_nat (length (contas m)) + 1) 500 50)).
        rewrite lookup_insert_eq. split; [done|]. simpl.
        split; [f_equal; lia|]. by split.
    + intros j c' r Hj Hr. destruct (decide (j = i)) as [->|Hne].
      * rewrite list_lookup_insert_eq in Hj by (by apply lookup_lt_Some in Hic).
        injection Hj as <-. simpl in Hr.
        apply elem_of_app in Hr as [Hr|Hr].
        -- destruct (I5 i c r Hic Hr) as (o & Ho & ?). exists o.
           rewrite lookup_insert_ne; [done|]. intros <-. by rewrite Hfresh in Ho.
        -- apply list_elem_of_singleton in Hr as ->.
           rewrite lookup_insert_eq. eauto.
      * rewrite list_lookup_insert_ne in Hj by done.
        destruct (I5 j c' r Hj Hr) as (o & Ho & ?). exists o.
        rewrite lookup_insert_ne; [done|]. intros <-. by rewrite Hfresh in Ho.
    + intros r o. destruct (decide (r = ref)) as [->|Hne].
      * rewrite lookup_insert_eq. intros [= <-]. simpl.
        exists (acrescenta_conta c ref). split.
        -- apply list_lookup_insert_eq. by apply lookup_lt_Some in Hic.
        -- simpl. apply elem_of_app. right. by apply list_elem_of_singleton.
      * rewrite lookup_insert_ne by done. intros Hro.
        destruct (I6 r o Hro) as (c' & Hc' & Hr).
        destruct (decide (Conta.cliente (atributos o) = i)) as [Hi|Hi].
        -- exists (acrescenta_conta c ref). rewrite Hi in *. split.
           ++ apply list_lookup_insert_eq. by apply lookup_lt_Some in Hic.
           ++ simpl. apply elem_of_app. left. congruence.
        -- exists c'. by rewrite list_lookup_insert_ne.
    + intros r o. destruct (decide (r = ref)) as [->|Hne].
      * rewrite lookup_insert_eq. intros [= <-]. apply conta_nova_integra.
      * rewrite lookup_insert_ne by done. apply I7.
Qed.

Lemma integro_inicial (teclado : list string) (relogio : nat -> datetime)
    (log : list EntradaLog) :
  mundo_integro (mundo_inicial teclado relogio log).
Proof.
  constructor; simpl.
  - constructor.
  - constructor.
  - intros ref. rewrite lookup_empty. split; [by intros [? ?]|].
    intros H. by apply elem_of_nil in H.
  - intros k ref H. by rewrite lookup_nil in H.
  - intros i c ref H. by rewrite lookup_nil in H.
  - intros ref obj H. by rewrite lookup_empty in H.
  - intros ref obj H. by rewrite lookup_empty in H.
Qed.

Lemma integro_passos (m m' : Mundo) :
  rtc passo_main m m' -> mundo_integro m -> mundo_integro m'.
Proof.
  induction 1 as [m|m1 m2 m3 H12 _ IH]; intros Hi; [exact Hi|].
  apply IH. by apply (integro_passo_main m1).
Qed.

(** Every state a run of [main] reaches is in order. *)
Lemma main_integro (float : string -> option Q) (fuel : nat) (teclado : list string)
    (relogio : nat -> datetime) (log : list EntradaLog) :
  mundo_integro (snd (main float fuel teclado relogio log)).
Proof.
  unfold main.
  destruct (main_laco_passos float fuel (mundo_inicial teclado relogio log))
    as [_ H].
  apply (integro_passos _ _ H). apply integro_inicial.
Qed.

(** X9.  In every state a run of [main] reaches, no two clients have the
    same CPF. *)
Theorem main_cpfs_unicos (float : string -> option Q) (fuel : nat)
    (teclado : list string) (relogio : nat -> datetime) (log : list EntradaLog)
    (i j : nat) (c1 c2 : PessoaFisica.t) :
  clientes (snd (main float fuel teclado relogio log)) !! i = Some c1 ->
  clientes (snd (main float fuel teclado relogio log)) !! j = Some c2 ->
  PessoaFisica.cpf c1 = PessoaFisica.cpf c2 ->
  i = j.
Proof.
  intros Hi Hj Hcpf.
  pose proof (cpfs_unicos _ (main_integro float fuel teclado relogio log)) as Hnd.
  apply (NoDup_lookup _ i j (PessoaFisica.cpf c1) Hnd).
  - by rewrite list_lookup_fmap, Hi.
  - by rewrite list_lookup_fmap, Hj, Hcpf.
Qed.

(** X10.  In every state a run of [main] reaches, the account at position
    [k] of [contas] (counted from 0) is a checking account with number
    [k + 1], branch "0001", [limite] 500 and [limite_saques] 50. *)
Theorem main_contas_numeradas (float : string -> option Q) (fuel : nat)
    (teclado : list string) (relogio : nat -> datetime) (log : list EntradaLog)
    (k ref : nat) :
  contas (snd (main float fuel teclado relogio log)) !! k = Some ref ->
  exists c : ContaCorrente.t,
    objetos (snd (main float fuel teclado relogio log)) !! ref
      = Some (ObjContaCorrente c)
    /\ Conta.numero (ContaCorrente.conta c) = (Z.of_nat k + 1)%Z
    /\ Conta.agencia (ContaCorrente.conta c) = "0001"%string
    /\ ContaCorrente.limite c = 500
    /\ ContaCorrente.limite_saques c = 50%Z.
Proof.
  intros Hk.
  destruct (contas_numeradas _ (main_integro float fuel teclado relogio log) k ref Hk)
    as (obj & Ho & Hn & Ha & Hl).
  destruct obj as [c|c]; [discriminate|].
  exists c. simpl in *. injection Hl as Hl1 Hl2. by repeat split.
Qed.

(** X11.  In every state a run of [main] reaches, clients and accounts point
    at each other: each account in the list of a client exists and names
    this client as its holder; each account that exists is in the list of
    its holder, and is in [contas] exactly once. *)
Theorem main_titulares (float : string -> option Q) (fuel : nat)
    (teclado : list string) (relogio : nat -> datetime) (log : list EntradaLog) :
  let m := snd (main float fuel teclado relogio log) in
  (forall i cliente ref,
      clientes m !! i = Some cliente ->
      In ref (Cliente.contas (PessoaFisica.cliente cliente)) ->
      exists obj, objetos m !! ref = Some obj /\ Conta.cliente (atributos obj) = i)
  /\ (forall ref obj,
        objetos m !! ref = Some obj ->
        (exists cliente,
            clientes m !! Conta.cliente (atributos obj) = Some cliente
            /\ In ref (Cliente.contas (PessoaFisica.cliente cliente)))
        /\ exists k, contas m !! k = Some ref
                     /\ forall k', contas m !! k' = Some ref -> k' = k).
Proof.
  intros m. pose proof (main_integro float fuel teclado relogio log) as Hi.
  fold m in Hi. split.
  - intros i c ref Hic Hr. apply (contas_do_cliente m Hi i c ref Hic).
    by apply list_elem_of_In.
  - intros ref obj Ho. split.
    + destruct (cliente_da_conta m Hi ref obj Ho) as (c & Hc & Hr).
      exists c. split; [done|]. by apply list_elem_of_In.
    + assert (Hin : ref ∈ contas m) by (apply (objetos_de_contas m Hi); eauto).
      apply list_elem_of_lookup in Hin as [k Hk]. exists k. split; [done|].
      intros k' Hk'.
      by apply (NoDup_lookup _ k' k ref (contas_sem_repeticao m Hi)).
Qed.


(** ** How main ends *)

Lemma suffix_In {A} (l1 l2 : list A) (x : A) :
  l1 `suffix_of` l2 -> In x l1 -> In x l2.
Proof. intros [k ->] H. apply in_or_app. by right. Qed.

Lemma main_laco_fim (float : string -> option Q) (fuel : nat) :
  forall m,
    (length (teclado m) < fuel)%nat ->
    match fst (main_laco float fuel m) with
    | Retorna Saiu => In "q"%string (teclado m)
    | Retorna SemCombustivel => False
    | Levanta EOFError => teclado (snd (main_laco float fuel m)) = []
    | Levanta ValueError =>
        exists linha, In linha (teclado m) /\ float linha = None
    end.
Proof.
  induction fuel as [|fuel IH]; intros m Hf; [lia|].
  simpl main_laco. unfold menu. abre_cli.
  destruct (teclado m) as [|opcao r1] eqn:E1; abre_cli; [done|].
  set (m1 := MkMundo (clientes m) (contas m) (objetos m)
               (tela m ++ [LPergunta PMenu]) r1 (relogio_m m) (leituras_m m)
               (log_txt m)).
  simpl in Hf.
  assert (Hcmd : forall (A : Type) (c : CLI A),
             (forall n, n = (Z.of_nat (length (contas m1)) + 1)%Z ->
                        comando float n c m1) ->
             match fst (match c m1 with
                        | (Retorna _, m2) => main_laco float fuel m2
                        | (Levanta e, m2) => (Levanta e, m2)
                        end) with
             | Retorna Saiu => In "q"%string (opcao :: r1)
             | Retorna SemCombustivel => False
             | Levanta EOFError =>
                 teclado (snd (match c m1 with
                               | (Retorna _, m2) => main_laco float fuel m2
                               | (Levanta e, m2) => (Levanta e, m2)
                               end)) = []
             | Levanta ValueError =>
                 exists linha, In linha (opcao :: r1) /\ float linha = None
             end).
  { intros A c Hc. destruct (Hc _ eq_refl) as (Hs & _ & Hfim).
    destruct (c m1) as [[x|e] m2]; simpl in Hs, Hfim.
    - assert (Hlen : (length (teclado m2) < fuel)%nat)
        by (apply suffix_length in Hs; lia).
      specialize (IH m2 Hlen).
      destruct (fst (main_laco float fuel m2)) as [[|]|[|]]; try done.
      + right. by apply (suffix_In _ _ _ Hs).
      + destruct IH as (linha & Hin & Hfl). exists linha. split; [|done].
        right. by apply (suffix_In _ _ _ Hs).
    - destruct e; simpl; [done|].
      destruct Hfim as (linha & Hin & Hfl). exists linha. split; [by right|done]. }
  repeat case_decide.
  - apply Hcmd. intros n _. apply depositar_passo.
  - apply Hcmd. intros n _. apply sacar_passo.
  - apply Hcmd. intros n _. apply exibir_extrato_passo.
  - apply Hcmd. intros n _. apply criar_cliente_passo.
  - apply Hcmd. intros n ->. apply criar_conta_passo.
  - apply Hcmd. intros n _. apply listar_contas_passo.
  - simpl. left. congruence.
  - assert (Hlen : (length r1 < fuel)%nat) by lia.
    specialize (IH (MkMundo (clientes m) (contas m) (objetos m)
                      ((tela m ++ [LPergunta PMenu]) ++ [LOperacaoInvalida]) r1
                      (relogio_m m) (leituras_m m) (log_txt m)) Hlen).
    simpl in IH.
    destruct (fst (main_laco float fuel _)) as [[|]|[|]]; try done.
    + by right.
    + destruct IH as (linha & Hin & Hfl). exists linha. split; [by right|done].
Qed.

(** X13.  [main] ends on every finite input: with more turns than lines, the
    loop is left by the option "q", which then is among the lines, or by an
    exception: [EOFError] once all lines are read, or [ValueError] when one
    of the lines is no number. *)
Theorem main_termina (float : string -> option Q) (fuel : nat)
    (teclado_ : list string) (relogio : nat -> datetime) (log : list EntradaLog) :
  (length teclado_ < fuel)%nat ->
  match fst (main float fuel teclado_ relogio log) with
  | Retorna Saiu => In "q"%string teclado_
  | Retorna SemCombustivel => False
  | Levanta EOFError => teclado (snd (main float fuel teclado_ relogio log)) = []
  | Levanta ValueError => exists linha, In linha teclado_ /\ float linha = None
  end.
Proof.
  intros Hf. unfold main.
  exact (main_laco_fim float fuel (mundo_inicial teclado_ relogio log) Hf).
Qed.

(** ** The commands, case by case *)

(** X14.  A deposit or a withdrawal asked for a CPF that no client has: the
    amount is not asked for, the line of the client not found is printed,
    lists and objects stay as they are, [None] is returned and one line
    goes to the log. *)
Theorem transacao_cliente_desconhecido (float : string -> option Q) (m : Mundo)
    (cpf : string) (resto : list string) :
  teclado m = cpf :: resto ->
  filtrar_cliente cpf (clientes m) = None ->
  depositar float m
    = (Retorna RNone,
       MkMundo (clientes m) (contas m) (objetos m)
         (tela m ++ [LPergunta PCpfCliente; LClienteNaoEncontrado]) resto
         (relogio_m m) (S (leituras_m m))
         (log_txt m ++ [MkEntradaLog (relogio_m m (leituras_m m)) "depositar" RNone]))
  /\ sacar float m
     = (Retorna RNone,
        MkMundo (clientes m) (contas m) (objetos m)
          (tela m ++ [LPergunta PCpfCliente; LClienteNaoEncontrado]) resto
          (relogio_m m) (S (leituras_m m))
          (log_txt m ++ [MkEntradaLog (relogio_m m (leituras_m m)) "sacar" RNone])).
Proof.
  intros Et Ef. unfold depositar, sacar. abre_cli. rewrite Et. abre_cli.
  rewrite Ef. abre_cli. by rewrite <- !app_assoc.
Qed.

Lemma transacao_so_primeira_conta (float : string -> option Q) (m : Mundo)
    (nome : string) (p : Pergunta) (tr : Q -> Transacao) (ref : nat) :
  let m' :=
    snd (log_transacao nome
           (cpf ← input PCpfCliente;
            m ← le_mundo;
            match filtrar_cliente cpf (clientes m) with
            | None => imprime LClienteNaoEncontrado;; mret RNone
            | Some (_, cliente) =>
                valor ← le_float float p;
                let transacao := tr valor in
                conta ← recuperar_conta_cliente cliente;
                match conta with
                | None => mret RNone
                | Some conta => realizar cliente conta transacao;; mret RNone
                end
            end) m) in
  clientes m' = clientes m
  /\ contas m' = contas m
  /\ (objetos m' !! ref <> objetos m !! ref ->
      exists cpf resto i c outros,
        teclado m = cpf :: resto
        /\ filtrar_cliente cpf (clientes m) = Some (i, c)
        /\ Cliente.contas (PessoaFisica.cliente c) = ref :: outros).
Proof.
  abre_cli.
  destruct (teclado m) as [|cpf r1] eqn:E1; abre_cli; [done|].
  destruct (filtrar_cliente cpf (clientes m)) as [[i c]|] eqn:Ef; abre_cli; [|done].
  destruct r1 as [|txt r2]; abre_cli; [done|].
  destruct (float txt) as [valor|] eqn:Efl; abre_cli; [|done].
  destruct (Cliente.contas (PessoaFisica.cliente c)) as [|conta cs] eqn:Ec; abre_cli;
    [done|].
  pose proof (realizar_transacao_em_efeito (objetos m) (PessoaFisica.cliente c) conta
                (tr valor) (MkAmbiente [] (relogio_m m) (leituras_m m))) as H.
  destruct (realizar_transacao_em (objetos m) (PessoaFisica.cliente c) conta
              (tr valor) (MkAmbiente [] (relogio_m m) (leituras_m m)))
    as [[r banco] amb] eqn:Er; abre_cli.
  split; [done|]. split; [done|]. intros Hne. simpl in H.
  destruct H as [->|(obj & Ho & ->)]; [done|].
  destruct (decide (ref = conta)) as [->|Hd].
  - exists cpf, (txt :: r2), i, c, cs. by rewrite Ec.
  - by rewrite lookup_insert_ne in Hne.
Qed.

(** X15.  A deposit or a withdrawal made from the menu leaves the lists of
    clients and accounts as they are, and the only object it can change is
    the first account of the client whose CPF was typed. *)
Theorem transacao_so_na_primeira_conta (float : string -> option Q) (m : Mundo)
    (ref : nat) :
  (clientes (snd (depositar float m)) = clientes m
   /\ contas (snd (depositar float m)) = contas m
   /\ (objetos (snd (depositar float m)) !! ref <> objetos m !! ref ->
       exists cpf resto i c outros,
         teclado m = cpf :: resto
         /\ filtrar_cliente cpf (clientes m) = Some (i, c)
         /\ Cliente.contas (PessoaFisica.cliente c) = ref :: outros))
  /\ (clientes (snd (sacar float m)) = clientes m
      /\ contas (snd (sacar float m)) = contas m
      /\ (objetos (snd (sacar float m)) !! ref <> objetos m !! ref ->
          exists cpf resto i c outros,
            teclado m = cpf :: resto
            /\ filtrar_cliente cpf (clientes m) = Some (i, c)
            /\ Cliente.contas (PessoaFisica.cliente c) = ref :: outros)).
Proof.
  split.
  - apply (transacao_so_primeira_conta float m "depositar" PValorDeposito Deposito).
  - apply (transacao_so_primeira_conta float m "sacar" PValorSaque Saque).
Qed.

(** The loop of the statement collects what the generator has left to
    yield, and notes whether there was anything. *)
Lemma extrato_laco_restantes (h : Historico.t) (fuel : nat) :
  forall (g : Relatorio.t) (extrato : list Registro) (tem : bool),
    (length (restantes g h) < fuel)%nat ->
    extrato_laco fuel g h extrato tem
      = (extrato ++ restantes g h,
         match restantes g h with [] => tem | _ :: _ => true end).
Proof.
  induction fuel as [|fuel IH]; intros g extrato tem Hf; [lia|]. simpl.
  pose proof (next_restantes h g) as H.
  destruct (Relatorio.next g h) as [[r|] g1]; simpl in H.
  - destruct (restantes g h) as [|r' l] eqn:E; [by destruct H|].
    destruct H as [[= ->] Hl]. simpl in Hf.
    rewrite IH by (rewrite Hl; lia). rewrite Hl, <- app_assoc. simpl.
    by destruct l.
  - destruct (restantes g h) as [|r' l]; [|by destruct H].
    by rewrite app_nil_r.
Qed.

(** X16.  The statement of a client who has an account shows the first
    account only: after the heading, every record of its history in the
    order of the list, or the line saying there was no movement iff the
    history is empty, then the balance.  Lists and objects stay as they
    are. *)
Theorem exibir_extrato_mostra (m : Mundo) (cpf : string) (resto : list string)
    (i : nat) (c : PessoaFisica.t) (ref : nat) (outros : list nat)
    (obj : objeto_conta) :
  teclado m = cpf :: resto ->
  filtrar_cliente cpf (clientes m) = Some (i, c) ->
  Cliente.contas (PessoaFisica.cliente c) = ref :: outros ->
  objetos m !! ref = Some obj ->
  exibir_extrato m
    = (Retorna RNone,
       MkMundo (clientes m) (contas m) (objetos m)
         (tela m ++ [LPergunta PCpfCliente; LExtratoCabecalho;
                     match Historico.transacoes (obj_historico obj) with
                     | [] => LSemMovimentacoes
                     | _ :: _ => LExtrato (Historico.transacoes (obj_historico obj))
                     end;
                     LSaldo (obj_saldo obj); LExtratoRodape])
         resto (relogio_m m) (S (leituras_m m))
         (log_txt m
            ++ [MkEntradaLog (relogio_m m (leituras_m m)) "exibir_extrato" RNone])).
Proof.
  intros Et Ef Ec Eo. unfold exibir_extrato. abre_cli. rewrite Et. abre_cli.
  rewrite Ef. abre_cli. rewrite Ec. abre_cli. rewrite Eo.
  assert (R : restantes (gerar_relatorio (obj_historico obj) None) (obj_historico obj)
              = Historico.transacoes (obj_historico obj)).
  { unfold restantes, gerar_relatorio. simpl. rewrite drop_0.
    apply (passa_selecionados None). }
  rewrite extrato_laco_restantes by (rewrite R; lia). rewrite R. abre_cli.
  rewrite <- !app_assoc. simpl.
  by destruct (Historico.transacoes (obj_historico obj)).
Qed.

(** X17.  [listar_contas], when every reference of [contas] has its object,
    prints for each account, in the order of [contas], the separator and
    the text of the account as it is now; nothing else changes. *)
Theorem listar_contas_mostra (m : Mundo) :
  (forall ref, In ref (contas m) -> is_Some (objetos m !! ref)) ->
  exists objs,
    Forall2 (fun ref obj => objetos m !! ref = Some obj) (contas m) objs
    /\ listar_contas m
       = (Retorna tt,
          MkMundo (clientes m) (contas m) (objetos m)
            (tela m ++ concat (map (fun conta => [LSeparador; LConta conta]) objs))
            (teclado m) (relogio_m m) (leituras_m m) (log_txt m)).
Proof.
  intros Hrefs. exists (contas_objetos m). split.
  - unfold contas_objetos. induction (contas m) as [|ref l IH]; [constructor|].
    destruct (Hrefs ref (or_introl eq_refl)) as [obj Ho]. simpl. rewrite Ho.
    constructor; [exact Ho|]. apply IH. intros r Hr. apply Hrefs. by right.
  - unfold listar_contas. abre_cli.
    rewrite listar_laco_efeito by (simpl; lia). simpl. by rewrite drop_0.
Qed.

Lemma percorrer_desde {A : Type} (l : list A) (fuel : nat) :
  forall i,
    (length l - i < fuel)%nat ->
    ContasIterador.percorrer fuel (ContasIterador.Mk i) l
      = Some (drop i l, ContasIterador.Mk (S (Nat.max i (length l)))).
Proof.
  induction fuel as [|fuel IH]; intros i Hf; [lia|]. simpl.
  destruct (l !! i) as [x|] eqn:E.
  - pose proof (lookup_lt_Some _ _ _ E).
    rewrite IH by lia. rewrite (drop_S _ _ _ E). do 3 f_equal. lia.
  - apply lookup_ge_None in E. rewrite drop_ge by exact E. do 3 f_equal. lia.
Qed.

(** X18.  A loop over a new [ContasIterador] yields the elements of the list
    in order and ends.  The iterator is then used up, and its position has
    moved past the end: a second loop over the same iterator yields nothing
    of the list, and when elements were appended meanwhile it misses the
    first of them. *)
Theorem ContasIterador_percorre {A : Type} (l novos : list A) (fuel : nat) :
  (length (l ++ novos) < fuel)%nat ->
  ContasIterador.percorrer fuel ContasIterador.init l
    = Some (l, ContasIterador.Mk (S (length l)))
  /\ exists it,
       ContasIterador.percorrer fuel (ContasIterador.Mk (S (length l))) (l ++ novos)
       = Some (drop 1 novos, it).
Proof.
  intros Hf. rewrite length_app in Hf. split.
  - unfold ContasIterador.init. rewrite percorrer_desde by lia.
    rewrite drop_0. repeat f_equal; lia.
  - eexists. rewrite percorrer_desde by (rewrite length_app; lia).
    rewrite drop_app_ge by lia. repeat f_equal; lia.
Qed.

(** ** The sample session *)

Lemma sessao_fim :
  fst Sessao.fim = Retorna Saiu
  /\ clientes (snd Sessao.fim) = clientes (Sessao.mundo_com "")
  /\ contas (snd Sessao.fim) = contas (Sessao.mundo_com "")
  /\ objetos (snd Sessao.fim) = objetos (Sessao.mundo_com "")
  /\ teclado (snd Sessao.fim) = [].
Proof. repeat split; vm_compute; reflexivity. Qed.

(** An instance: the only client of the session. *)
Lemma main_cpfs_unicos_witness :
  clientes (snd (main Sessao.float 30 Sessao.linhas (fun _ => Exemplo.dia1) []))
    !! 0%nat = Some Sessao.ana
  /\ PessoaFisica.cpf Sessao.ana = PessoaFisica.cpf Sessao.ana
  /\ 0%nat = 0%nat.
Proof.
  assert (H0 : clientes (snd (main Sessao.float 30 Sessao.linhas
                                (fun _ => Exemplo.dia1) []))
                 !! 0%nat = Some Sessao.ana)
    by (vm_compute; reflexivity).
  split; [exact H0|]. split; [reflexivity|].
  exact (main_cpfs_unicos Sessao.float 30 Sessao.linhas (fun _ => Exemplo.dia1) []
           0 0 Sessao.ana Sessao.ana H0 H0 eq_refl).
Defined.

(** An instance: the account of the session. *)
Lemma main_contas_numeradas_witness :
  contas (snd (main Sessao.float 30 Sessao.linhas (fun _ => Exemplo.dia1) []))
    !! 0%nat = Some 0%nat
  /\ exists c : ContaCorrente.t,
       objetos (snd (main Sessao.float 30 Sessao.linhas (fun _ => Exemplo.dia1) []))
         !! 0%nat = Some (ObjContaCorrente c)
       /\ Conta.numero (ContaCorrente.conta c) = (Z.of_nat 0 + 1)%Z.
Proof.
  assert (H0 : contas (snd (main Sessao.float 30 Sessao.linhas
                              (fun _ => Exemplo.dia1) []))
                 !! 0%nat = Some 0%nat)
    by (vm_compute; reflexivity).
  split; [exact H0|].
  destruct (main_contas_numeradas Sessao.float 30 Sessao.linhas
              (fun _ => Exemplo.dia1) [] 0 0 H0) as (c & Hc & Hn & _).
  exists c. split; [exact Hc | exact Hn].
Defined.


(** An instance: the session ends by its last line, "q". *)
Lemma main_termina_witness :
  (length Sessao.linhas < 30)%nat /\ In "q"%string Sessao.linhas.
Proof.
  assert (H0 : (length Sessao.linhas < 30)%nat) by (vm_compute; lia).
  split; [exact H0|].
  pose proof (main_termina Sessao.float 30 Sessao.linhas (fun _ => Exemplo.dia1) []
                H0) as H.
  assert (E : fst (main Sessao.float 30 Sessao.linhas (fun _ => Exemplo.dia1) [])
              = Retorna Saiu) by (vm_compute; reflexivity).
  rewrite E in H. exact H.
Defined.

(** An instance: a deposit asked for a CPF that is not there. *)
Lemma transacao_cliente_desconhecido_witness :
  teclado (Sessao.mundo_com "000") = ["000"%string]
  /\ filtrar_cliente "000" (clientes (Sessao.mundo_com "000")) = None
  /\ fst (depositar Sessao.float (Sessao.mundo_com "000")) = Retorna RNone
  /\ objetos (snd (depositar Sessao.float (Sessao.mundo_com "000")))
     = objetos (Sessao.mundo_com "000").
Proof.
  assert (H0 : teclado (Sessao.mundo_com "000") = ["000"%string]) by reflexivity.
  assert (H1 : filtrar_cliente "000" (clientes (Sessao.mundo_com "000")) = None)
    by (vm_compute; reflexivity).
  split; [exact H0|]. split; [exact H1|].
  destruct (transacao_cliente_desconhecido Sessao.float (Sessao.mundo_com "000")
              "000" [] H0 H1) as [-> _].
  split; reflexivity.
Defined.

(** An instance: the statement of the client of the session, a day later. *)
Lemma exibir_extrato_mostra_witness :
  teclado (Sessao.mundo_com "123") = ["123"%string]
  /\ filtrar_cliente "123" (clientes (Sessao.mundo_com "123")) = Some (0%nat, Sessao.ana)
  /\ objetos (Sessao.mundo_com "123") !! 0%nat = Some (fst Exemplo.dois_hoje)
  /\ tela (snd (exibir_extrato (Sessao.mundo_com "123")))
     = [LPergunta PCpfCliente; LExtratoCabecalho;
        LExtrato [MkRegistro "Deposito" 1000 Exemplo.dia1;
                  MkRegistro "Saque" 500 Exemplo.dia1];
        LSaldo (0 + 1000 - 500); LExtratoRodape].
Proof.
  assert (H0 : teclado (Sessao.mundo_com "123") = ["123"%string]) by reflexivity.
  assert (H1 : filtrar_cliente "123" (clientes (Sessao.mundo_com "123"))
               = Some (0%nat, Sessao.ana)) by (vm_compute; reflexivity).
  assert (H2 : Cliente.contas (PessoaFisica.cliente Sessao.ana) = [0%nat])
    by reflexivity.
  assert (H3 : objetos (Sessao.mundo_com "123") !! 0%nat
               = Some (fst Exemplo.dois_hoje)) by (vm_compute; reflexivity).
  split; [exact H0|]. split; [exact H1|]. split; [exact H3|].
  rewrite (exibir_extrato_mostra (Sessao.mundo_com "123") "123" [] 0 Sessao.ana 0 []
             (fst Exemplo.dois_hoje) H0 H1 H2 H3).
  reflexivity.
Defined.

(** An instance: the list of accounts at the end of the session. *)
Lemma listar_contas_mostra_witness :
  (forall ref, In ref (contas (Sessao.mundo_com "lc")) ->
               is_Some (objetos (Sessao.mundo_com "lc") !! ref))
  /\ exists objs,
       Forall2 (fun ref obj => objetos (Sessao.mundo_com "lc") !! ref = Some obj)
               (contas (Sessao.mundo_com "lc")) objs
       /\ tela (snd (listar_contas (Sessao.mundo_com "lc")))
          = concat (map (fun conta => [LSeparador; LConta conta]) objs).
Proof.
  assert (H0 : forall ref, In ref (contas (Sessao.mundo_com "lc")) ->
                           is_Some (objetos (Sessao.mundo_com "lc") !! ref)).
  { intros ref [<-|[]]. exists (fst Exemplo.dois_hoje). vm_compute. reflexivity. }
  split; [exact H0|].
  destruct (listar_contas_mostra (Sessao.mundo_com "lc") H0) as (objs & Hf & ->).
  exists objs. split; [exact Hf | reflexivity].
Defined.

(** An instance: two accounts listed, two more created, and a second loop
    over the same iterator. *)
Lemma ContasIterador_percorre_witness :
  (length ([1; 2] ++ [3; 4]) < 5)%nat
  /\ ContasIterador.percorrer 5 ContasIterador.init [1; 2]%nat
     = Some ([1; 2]%nat, ContasIterador.Mk 3)
  /\ exists it,
       ContasIterador.percorrer 5 (ContasIterador.Mk 3) [1; 2; 3; 4]%nat
       = Some ([4]%nat, it).
Proof.
  assert (H0 : (length ([1; 2] ++ [3; 4]) < 5)%nat) by (simpl; lia).
  split; [exact H0|].
  exact (ContasIterador_percorre [1; 2]%nat [3; 4]%nat 5 H0).
Defined.

(** X19.  [criar_cliente] asks the CPF first.  If a client has it, the line
    saying so is printed, the other three questions are not asked and the
    list of clients is as before.  If none has it, name, date of birth and
    address are read and a client with these, and no account, is appended;
    the clients already there, the accounts and the objects are untouched. *)
Theorem criar_cliente_contract (m : Mundo) (cpf : string) (resto : list string) :
  teclado m = cpf :: resto ->
  (forall i c,
      filtrar_cliente cpf (clientes m) = Some (i, c) ->
      criar_cliente m
        = (Retorna RNone,
           MkMundo (clientes m) (contas m) (objetos m)
             (tela m ++ [LPergunta PCpfNovo; LJaExisteCliente]) resto
             (relogio_m m) (S (leituras_m m))
             (log_txt m
                ++ [MkEntradaLog (relogio_m m (leituras_m m)) "criar_cliente" RNone])))
  /\ (forall nome nascimento endereco resto',
        filtrar_cliente cpf (clientes m) = None ->
        resto = nome :: nascimento :: endereco :: resto' ->
        criar_cliente m
          = (Retorna RNone,
             MkMundo
               (clientes m
                  ++ [PessoaFisica.Mk (Cliente.Mk endereco [] 0) nome nascimento cpf])
               (contas m) (objetos m)
               (tela m ++ [LPergunta PCpfNovo; LPergunta PNome; LPergunta PNascimento;
                           LPergunta PEndereco; LClienteCriado])
               resto' (relogio_m m) (S (leituras_m m))
               (log_txt m
                  ++ [MkEntradaLog (relogio_m m (leituras_m m)) "criar_cliente"
                        RNone]))).
Proof.
  intros Et. split.
  - intros i c Ef. unfold criar_cliente. abre_cli. rewrite Et. abre_cli.
    rewrite Ef. abre_cli. by rewrite <- !app_assoc.
  - intros nome nasc ende r Ef ->. unfold criar_cliente. abre_cli. rewrite Et.
    abre_cli. rewrite Ef. abre_cli. by rewrite <- !app_assoc.
Qed.

(** An instance: the CPF of the client of the session, asked again. *)
Lemma criar_cliente_contract_witness :
  teclado (Sessao.mundo_com "123") = ["123"%string]
  /\ filtrar_cliente "123" (clientes (Sessao.mundo_com "123")) = Some (0%nat, Sessao.ana)
  /\ clientes (snd (criar_cliente (Sessao.mundo_com "123"))) = [Sessao.ana].
Proof.
  assert (H0 : teclado (Sessao.mundo_com "123") = ["123"%string]) by reflexivity.
  assert (H1 : filtrar_cliente "123" (clientes (Sessao.mundo_com "123"))
               = Some (0%nat, Sessao.ana)) by (vm_compute; reflexivity).
  split; [exact H0|]. split; [exact H1|].
  destruct (criar_cliente_contract (Sessao.mundo_com "123") "123" [] H0) as [H _].
  rewrite (H 0%nat Sessao.ana H1). reflexivity.
Defined.

(** X20.  [criar_conta] asks the CPF.  If no client has it, nothing is
    created.  Otherwise a new checking account object, with the number
    given, balance 0, no record, [limite] 500 and [limite_saques] 50, held by
    the first client with this CPF, is put at the end of [contas] and at
    the end of the list of this client; every other object and client
    stays as it was. *)
Theorem criar_conta_contract (numero : Z) (m : Mundo) (cpf : string)
    (resto : list string) :
  teclado m = cpf :: resto ->
  (filtrar_cliente cpf (clientes m) = None ->
   mesmo_sistema m (snd (criar_conta numero m))
   /\ fst (criar_conta numero m) = Retorna RNone)
  /\ (forall i c,
        filtrar_cliente cpf (clientes m) = Some (i, c) ->
        let ref := fresh (dom (objetos m)) in
        let m' := snd (criar_conta numero m) in
        objetos m !! ref = None
        /\ objetos m' !! ref
           = Some (ObjContaCorrente
                     (ContaCorrente.Mk (Conta.Mk 0 numero "0001" i (Historico.Mk []))
                        500 50))
        /\ (forall r, r <> ref -> objetos m' !! r = objetos m !! r)
        /\ contas m' = contas m ++ [ref]
        /\ clientes m' !! i = Some (acrescenta_conta c ref)
        /\ (forall j, j <> i -> clientes m' !! j = clientes m !! j)
        /\ teclado m' = resto).
Proof.
  intros Et. split.
  - intros Ef. unfold criar_conta. abre_cli. rewrite Et. abre_cli.
    rewrite Ef. abre_cli. by repeat split.
  - intros i c Ef ref m'. subst m'. unfold criar_conta. abre_cli. rewrite Et.
    abre_cli. rewrite Ef. abre_cli. fold ref.
    destruct (filtrar_cliente_Some _ _ _ _ Ef) as [Hic _].
    split; [apply not_elem_of_dom, is_fresh|].
    split; [by rewrite lookup_insert_eq|].
    split; [intros r Hr; by rewrite lookup_insert_ne|].
    split; [reflexivity|].
    split; [apply list_lookup_insert_eq; by apply lookup_lt_Some in Hic|].
    split; [intros j Hj; by rewrite list_lookup_insert_ne | reflexivity].
Qed.

(** An instance: a second account for the client of the session. *)
Lemma criar_conta_contract_witness :
  teclado (Sessao.mundo_com "123") = ["123"%string]
  /\ filtrar_cliente "123" (clientes (Sessao.mundo_com "123")) = Some (0%nat, Sessao.ana)
  /\ contas (snd (criar_conta 2 (Sessao.mundo_com "123")))
     = contas (Sessao.mundo_com "123")
       ++ [fresh (dom (objetos (Sessao.mundo_com "123")))].
Proof.
  assert (H0 : teclado (Sessao.mundo_com "123") = ["123"%string]) by reflexivity.
  assert (H1 : filtrar_cliente "123" (clientes (Sessao.mundo_com "123"))
               = Some (0%nat, Sessao.ana)) by (vm_compute; reflexivity).
  split; [exact H0|]. split; [exact H1|].
  destruct (criar_conta_contract 2 (Sessao.mundo_com "123") "123" [] H0) as [_ H].
  destruct (H 0%nat Sessao.ana H1) as (_ & _ & _ & Hc & _). exact Hc.
Defined.
